(** * The Jobster metrics-logging agent ([agents/log-metrics.py])

    A shallow embedding of the agent's [main] function and the statements
    of its specification that hold, or fail, on it.

    The agent is a straight-line Python script; what makes it interesting
    is which failures it handles, which it lets escape, and in what order
    its effects happen.  The embedding therefore keeps

    - Python values as a tagged union ([value]), dictionaries as
      association lists in insertion order;
    - exceptions as an error monad over an explicit world (environment
      variables, clock, file system, the two output streams), with
      [sys.exit] as the [SystemExit] exception it is;
    - the text-level library functions the script calls ([json.loads],
      [json.dumps], [int], [datetime.fromisoformat]) as an interface,
      [Runtime], so that every general statement holds for whatever the
      interpreter's parsers accept; a reference instance with executable
      parsers is given further down and used for the concrete examples.

    Strings are sequences of 8-bit characters.  Floating-point numbers are
    idealised as exact rationals. *)

From Stdlib Require Import ZArith QArith String Ascii List Bool Lia.
From Stdlib Require Import DecimalString.
From stdpp Require Import base gmap strings list.

Set Warnings "-register-all".
Local Open Scope string_scope.
Local Open Scope Z_scope.

(** ** Python values *)

(** A [float]: finite (idealised as the rational it stands for), or one of
    the three special values, which [json.loads] accepts as [NaN],
    [Infinity] and [-Infinity]. *)
Inductive pyfloat :=
| Finite (q : Q)
| NaN
| Infinity (negative : bool).

(** The values [json.loads] can return and [json.dumps] can print.  A
    [dict] keeps its items in insertion order. *)
Inductive value :=
| JNone
| JBool (b : bool)
| JInt (n : Z)
| JFloat (x : pyfloat)
| JStr (s : string)
| JList (items : list value)
| JDict (items : list (string * value)).

Abbreviation dict := (list (string * value)).

(** [d.get(k)] as an option. *)
Fixpoint dict_lookup (k : string) (d : dict) : option value :=
  match d with
  | [] => None
  | (k', v) :: d' => if String.eqb k k' then Some v else dict_lookup k d'
  end.

(** [d[k] = v]: an existing key keeps its position, a new key goes last. *)
Fixpoint dict_setitem (k : string) (v : value) (d : dict) : dict :=
  match d with
  | [] => [(k, v)]
  | (k', v') :: d' =>
      if String.eqb k k' then (k', v) :: d' else (k', v') :: dict_setitem k v d'
  end.

(** [k in d] *)
Definition dict_contains (k : string) (d : dict) : bool :=
  match dict_lookup k d with Some _ => true | None => false end.

(** Truth value testing, as [if x:] does it. *)
Definition truthy (v : value) : bool :=
  match v with
  | JNone => false
  | JBool b => b
  | JInt n => negb (n =? 0)
  | JFloat (Finite q) => negb (Qeq_bool q 0)
  | JFloat _ => true
  | JStr s => negb (String.eqb s "")
  | JList l => match l with [] => false | _ => true end
  | JDict d => match d with [] => false | _ => true end
  end.

(** ** Exceptions *)

(** The subclasses of [OSError] the file-system model raises by itself;
    [EOther] stands for any other errno (disk full, quota, ...). *)
Inductive oserror :=
| FileNotFoundError
| FileExistsError
| NotADirectoryError
| IsADirectoryError
| PermissionError
| EOther.

(** [msg] is what [str(e)] returns, where the script looks at it. *)
Inductive exn :=
| JSONDecodeError (msg : string)
| ValueError
| TypeError
| AttributeError
| KeyError
| OSError (kind : oserror) (msg : string)
| SystemExit (code : Z).

(** [except json.JSONDecodeError] *)
Definition is_JSONDecodeError (e : exn) : bool :=
  match e with JSONDecodeError _ => true | _ => false end.

(** [except (ValueError, AttributeError)]; [JSONDecodeError] is a subclass
    of [ValueError]. *)
Definition is_ValueError_or_AttributeError (e : exn) : bool :=
  match e with
  | ValueError | JSONDecodeError _ | AttributeError => true
  | _ => false
  end.

(** [except IOError]; [IOError] is an alias of [OSError]. *)
Definition is_IOError (e : exn) : bool :=
  match e with OSError _ _ => true | _ => false end.

(** [str(e)] *)
Definition str_exn (e : exn) : string :=
  match e with
  | JSONDecodeError msg => msg
  | OSError _ msg => msg
  | ValueError => "ValueError"
  | TypeError => "TypeError"
  | AttributeError => "AttributeError"
  | KeyError => "KeyError"
  | SystemExit _ => "SystemExit"
  end.

(** ** Strings *)

Definition newline : ascii := "010"%char.
Definition nl : string := String newline "".

(** Number of line terminators in a text. *)
Fixpoint count_newlines (s : string) : nat :=
  match s with
  | EmptyString => O
  | String c s' => ((if Ascii.eqb c newline then 1 else 0) + count_newlines s')%nat
  end.

Fixpoint is_prefix (p s : string) : bool :=
  match p, s with
  | EmptyString, _ => true
  | String a p', String b s' => Ascii.eqb a b && is_prefix p' s'
  | String _ _, EmptyString => false
  end.

(** [s.replace(old, new)] for a non-empty [old]: [skip] counts the
    characters of a match that are still to be dropped. *)
Fixpoint replace_from (old new : string) (skip : nat) (s : string) : string :=
  match s with
  | EmptyString => EmptyString
  | String c s' =>
      match skip with
      | S k => replace_from old new k s'
      | O =>
          if is_prefix old s
          then new +:+ replace_from old new (String.length old - 1) s'
          else String c (replace_from old new O s')
      end
  end.

Definition str_replace (old new s : string) : string := replace_from old new O s.

(** ** [datetime] *)

(** A [datetime]; [tzinfo] is the UTC offset in microseconds of an aware
    value, [None] for a naive one. *)
Record datetime := {
  year : Z; month : Z; day : Z;
  hour : Z; minute : Z; second : Z; microsecond : Z;
  tzinfo : option Z
}.

Definition is_leap (y : Z) : bool :=
  (y mod 4 =? 0) && (negb (y mod 100 =? 0) || (y mod 400 =? 0)).

Definition days_before_year (y : Z) : Z :=
  let y1 := y - 1 in y1 * 365 + y1 / 4 - y1 / 100 + y1 / 400.

Definition days_in_month (y m : Z) : Z :=
  if m =? 2 then (if is_leap y then 29 else 28)
  else if (m =? 4) || (m =? 6) || (m =? 9) || (m =? 11) then 30
  else 31.

Definition days_before_month (y m : Z) : Z :=
  fold_right Z.add 0 (map (days_in_month y) (map Z.of_nat (seq 1 (Z.to_nat (m - 1))))).

(** [d.toordinal()]: 1 for 0001-01-01. *)
Definition toordinal (d : datetime) : Z :=
  days_before_year (year d) + days_before_month (year d) (month d) + day d.

(** A [timedelta] is a whole number of microseconds. *)
Definition timedelta := Z.

(** [end - start]: CPython's [datetime.__sub__].  Two naive values, or two
    aware ones, are subtracted; one of each raises [TypeError]. *)
Definition datetime_sub (a b : datetime) : exn + timedelta :=
  let secs (d : datetime) := second d + minute d * 60 + hour d * 3600 in
  let base :=
    ((toordinal a - toordinal b) * 86400 + (secs a - secs b)) * 1000000
    + (microsecond a - microsecond b) in
  match tzinfo a, tzinfo b with
  | None, None => inr base
  | Some myoff, Some otoff => inr (base + otoff - myoff)
  | _, _ => inl TypeError
  end.

(** [td.total_seconds()] *)
Definition total_seconds (td : timedelta) : pyfloat :=
  Finite (Qred (td # 1000000)).

(** Decimal digits of a natural number, at least [width] of them. *)
Definition zero_pad (width : nat) (n : Z) : string :=
  let s := NilZero.string_of_uint (N.to_uint (Z.to_N n)) in
  string_of_list_ascii (repeat "0"%char (width - String.length s)) +:+ s.

(** [d.isoformat()] *)
Definition isoformat (d : datetime) : string :=
  let hms (h m s us : Z) :=
    zero_pad 2 h +:+ ":" +:+ zero_pad 2 m +:+ ":" +:+ zero_pad 2 s
    +:+ (if us =? 0 then "" else "." +:+ zero_pad 6 us) in
  zero_pad 4 (year d) +:+ "-" +:+ zero_pad 2 (month d) +:+ "-" +:+ zero_pad 2 (day d)
  +:+ "T" +:+ hms (hour d) (minute d) (second d) (microsecond d)
  +:+ match tzinfo d with
      | None => ""
      | Some off =>
          let a := Z.abs off in
          let us := a mod 1000000 in
          let s := a / 1000000 in
          (if off <? 0 then "-" else "+")
          +:+ zero_pad 2 (s / 3600) +:+ ":" +:+ zero_pad 2 (s / 60 mod 60)
          +:+ (if (s mod 60 =? 0) && (us =? 0) then ""
               else ":" +:+ zero_pad 2 (s mod 60)
                    +:+ (if us =? 0 then "" else "." +:+ zero_pad 6 us))
      end.

(** ** Paths ([pathlib.PurePosixPath]) *)

(** A parsed path: [root] is [""], ["/"] or ["//"], [parts] are the
    components after it. *)
Record PosixPath := { root : string; parts : list string }.

(** [s.split('/')], the current component being accumulated in [cur]. *)
Fixpoint split_slash (cur : string) (s : string) : list string :=
  match s with
  | EmptyString => [cur]
  | String c s' =>
      if Ascii.eqb c "/"%char then cur :: split_slash "" s'
      else split_slash (cur +:+ String c "") s'
  end.

Fixpoint leading_slashes (s : string) : nat :=
  match s with
  | String c s' => if Ascii.eqb c "/"%char then S (leading_slashes s') else O
  | EmptyString => O
  end.

(** [Path(s)]: exactly two leading slashes are kept as the root ["//"], any
    other number collapses to ["/"]; empty components and ["."] are
    dropped. *)
Definition Path (s : string) : PosixPath :=
  {| root := match leading_slashes s with
             | O => ""
             | 2%nat => "//"
             | _ => "/"
             end;
     parts := filter (fun x => negb (String.eqb x "") && negb (String.eqb x "."))
                (split_slash "" s) |}.

(** [p / name], for a [name] that is a single relative component. *)
Definition joinpath (p : PosixPath) (name : string) : PosixPath :=
  {| root := root p; parts := parts p ++ [name] |}.

(** [p.parent] *)
Definition parent (p : PosixPath) : PosixPath :=
  {| root := root p; parts := removelast (parts p) |}.

Fixpoint join_slash (l : list string) : string :=
  match l with
  | [] => ""
  | [x] => x
  | x :: l' => x +:+ "/" +:+ join_slash l'
  end.

(** [str(p)] *)
Definition path_str (p : PosixPath) : string :=
  match root p, parts p with
  | EmptyString, [] => "."
  | r, l => r +:+ join_slash l
  end.

(** ** The file system *)

(** A tree of directories and text files, without symbolic links; [..] is
    an ordinary name.  A node is found under whether its path is absolute
    and its components: on Linux the roots ["/"] and ["//"] are the same
    directory. *)
Inductive node := Dir | File (content : string).

Abbreviation fskey := (bool * list string)%type.
Abbreviation FS := (gmap fskey node).

Definition fs_key (p : PosixPath) : fskey :=
  (negb (String.eqb (root p) ""), parts p).

(** The root and the working directory always exist. *)
Definition fs_lookup (fs : FS) (k : fskey) : option node :=
  match snd k with
  | [] => Some Dir
  | _ => fs !! k
  end.

Definition fs_parent (k : fskey) : fskey := (fst k, removelast (snd k)).

(** [p.is_dir()] *)
Definition is_dir (fs : FS) (k : fskey) : bool :=
  match fs_lookup fs k with Some Dir => true | _ => false end.

(** The content of a regular file; a file that does not exist has none. *)
Definition file_content (fs : FS) (k : fskey) : string :=
  match fs_lookup fs k with Some (File c) => c | _ => "" end.

(** The system calls the agent makes.  [faults] of the world says which of
    them the operating system refuses for reasons the tree does not show
    (permissions, a full disk, ...), and with which error. *)
Inductive syscall :=
| sys_mkdir (k : fskey)
| sys_open (k : fskey)
| sys_write (k : fskey).

Abbreviation fault_model := (syscall -> option (oserror * string)).

Definition os_error (kind : oserror) (k : fskey) : exn :=
  OSError kind
    (match kind with
     | FileNotFoundError => "[Errno 2] No such file or directory"
     | FileExistsError => "[Errno 17] File exists"
     | NotADirectoryError => "[Errno 20] Not a directory"
     | IsADirectoryError => "[Errno 21] Is a directory"
     | PermissionError => "[Errno 13] Permission denied"
     | EOther => "[Errno 5] Input/output error"
     end
     +:+ ": '" +:+ (if fst k then "/" else "") +:+ join_slash (snd k) +:+ "'").

(** [os.mkdir(p)] *)
Definition os_mkdir (faults : fault_model) (fs : FS) (k : fskey) : exn + FS :=
  match faults (sys_mkdir k) with
  | Some (kind, msg) => inl (OSError kind msg)
  | None =>
      match fs_lookup fs k with
      | Some _ => inl (os_error FileExistsError k)
      | None =>
          match fs_lookup fs (fs_parent k) with
          | None => inl (os_error FileNotFoundError k)
          | Some (File _) => inl (os_error NotADirectoryError k)
          | Some Dir => inr (<[k := Dir]> fs)
          end
      end
  end.

(** The last step of [Path.mkdir]: [os.mkdir], where an [OSError] is
    swallowed if the path is a directory by now ([exist_ok=True]). *)
Definition mkdir_exist_ok (faults : fault_model) (fs : FS) (k : fskey) : exn + FS :=
  match os_mkdir faults fs k with
  | inr fs' => inr fs'
  | inl e => if is_dir fs k then inr fs else inl e
  end.

(** [Path.mkdir(parents=True, exist_ok=True)], as pathlib does it: try the
    directory itself; on [FileNotFoundError] make the parent the same way
    and try once more.  [rparts] are the components in reverse, so that the
    parent is the tail.  The result is the exception raised, if any, and
    the file system as it is left: parents made before a failure stay. *)
Fixpoint mkdir_parents (faults : fault_model) (fs : FS) (abs : bool)
    (rparts : list string) : option exn * FS :=
  let k := (abs, rev rparts) in
  match os_mkdir faults fs k with
  | inr fs' => (None, fs')
  | inl (OSError FileNotFoundError msg) =>
      match rparts with
      | [] => (Some (OSError FileNotFoundError msg), fs)
      | _ :: rparent =>
          match mkdir_parents faults fs abs rparent with
          | (Some e, fs') => (Some e, fs')
          | (None, fs') =>
              match mkdir_exist_ok faults fs' k with
              | inr fs'' => (None, fs'')
              | inl e => (Some e, fs')
              end
          end
      end
  | inl e => if is_dir fs k then (None, fs) else (Some e, fs)
  end.

Definition Path_mkdir (faults : fault_model) (fs : FS) (p : PosixPath) : option exn * FS :=
  mkdir_parents faults fs (fst (fs_key p)) (rev (parts p)).

(** [open(p, 'a')]: the file is created, empty, if it does not exist. *)
Definition os_open_append (faults : fault_model) (fs : FS) (k : fskey) : exn + FS :=
  match faults (sys_open k) with
  | Some (kind, msg) => inl (OSError kind msg)
  | None =>
      match fs_lookup fs k with
      | Some Dir => inl (os_error IsADirectoryError k)
      | Some (File _) => inr fs
      | None =>
          match fs_lookup fs (fs_parent k) with
          | None => inl (os_error FileNotFoundError k)
          | Some (File _) => inl (os_error NotADirectoryError k)
          | Some Dir => inr (<[k := File ""]> fs)
          end
      end
  end.

(** [f.write(text)] on a file opened for appending, flushed when the [with]
    block closes it: all of [text] goes to the end of the file, or the call
    fails and none of it does. *)
Definition os_write (faults : fault_model) (fs : FS) (k : fskey) (text : string)
    : exn + FS :=
  match faults (sys_write k) with
  | Some (kind, msg) => inl (OSError kind msg)
  | None =>
      match fs !! k with
      | Some (File c) => inr (<[k := File (c +:+ text)]> fs)
      | _ => inl (os_error EOther k)
      end
  end.

(** No file changes its content. *)
Definition same_files (fs fs' : FS) : Prop :=
  forall k, file_content fs' k = file_content fs k.

(** Every directory is still a directory. *)
Definition dirs_kept (fs fs' : FS) : Prop :=
  forall k, is_dir fs k = true -> is_dir fs' k = true.

(** Every node lies in a directory. *)
Definition fs_wf (fs : FS) : Prop :=
  forall k n, fs_lookup fs k = Some n -> is_dir fs (fs_parent k) = true.

(** ** The world and the monad of the script *)

(** What an invocation can read or change: the environment variables, the
    UTC clock, the file system with the faults imposed on it, and what has
    been written to the two output streams. *)
Record World := {
  environ : gmap string string;
  clock : datetime;
  fs : FS;
  faults : fault_model;
  stdout : string;
  stderr : string
}.

Definition set_fs (f : FS) (w : World) : World :=
  {| environ := environ w; clock := clock w; fs := f; faults := faults w;
     stdout := stdout w; stderr := stderr w |}.

Definition set_stdout (s : string) (w : World) : World :=
  {| environ := environ w; clock := clock w; fs := fs w; faults := faults w;
     stdout := s; stderr := stderr w |}.

Definition set_stderr (s : string) (w : World) : World :=
  {| environ := environ w; clock := clock w; fs := fs w; faults := faults w;
     stdout := stdout w; stderr := s |}.

(** A statement: it raises or returns, and leaves a world. *)
Definition Proc (A : Type) : Type := World -> (exn + A) * World.

Definition ret {A} (a : A) : Proc A := fun w => (inr a, w).

Definition raise {A} (e : exn) : Proc A := fun w => (inl e, w).

Definition bind {A B} (c : Proc A) (k : A -> Proc B) : Proc B :=
  fun w =>
    match c w with
    | (inr a, w') => k a w'
    | (inl e, w') => (inl e, w')
    end.

(** A pure library call that may raise. *)
Definition lift {A} (r : exn + A) : Proc A := fun w => (r, w).

(** [try: body  except <classes> as e: handler e] *)
Definition try_except {A} (body : Proc A) (classes : exn -> bool)
    (handler : exn -> Proc A) : Proc A :=
  fun w =>
    match body w with
    | (inl e, w') => if classes e then handler e w' else (inl e, w')
    | r => r
    end.

Declare Scope proc_scope.
Delimit Scope proc_scope with proc.
Notation "x <- c ;; k" := (bind c (fun x => k))
  (at level 100, c at next level, right associativity) : proc_scope.
Notation "c ;;; k" := (bind c (fun _ => k))
  (at level 100, right associativity) : proc_scope.

(** [os.environ.get(name)] *)
Definition os_environ_get (name : string) : Proc (option string) :=
  fun w => (inr (environ w !! name), w).

(** [os.environ.get(name, default)] *)
Definition os_environ_get_default (name default : string) : Proc string :=
  fun w => (inr (match environ w !! name with Some s => s | None => default end), w).

(** [datetime.utcnow()]: the clock, read as a naive value. *)
Definition utcnow : Proc datetime :=
  fun w =>
    let c := clock w in
    (inr {| year := year c; month := month c; day := day c;
            hour := hour c; minute := minute c; second := second c;
            microsecond := microsecond c; tzinfo := None |}, w).

(** [print(s)] *)
Definition print (s : string) : Proc unit :=
  fun w => (inr tt, set_stdout (stdout w +:+ s +:+ nl) w).

(** [print(s, file=sys.stderr)] *)
Definition print_stderr (s : string) : Proc unit :=
  fun w => (inr tt, set_stderr (stderr w +:+ s +:+ nl) w).

(** [sys.exit(code)] *)
Definition sys_exit {A} (code : Z) : Proc A := raise (SystemExit code).

(** [p.mkdir(parents=True, exist_ok=True)] *)
Definition mkdir (p : PosixPath) : Proc unit :=
  fun w =>
    match Path_mkdir (faults w) (fs w) p with
    | (None, fs') => (inr tt, set_fs fs' w)
    | (Some e, fs') => (inl e, set_fs fs' w)
    end.

(** [with open(p, 'a') as f: f.write(text)] *)
Definition open_append_write (p : PosixPath) (text : string) : Proc unit :=
  fun w =>
    match os_open_append (faults w) (fs w) (fs_key p) with
    | inl e => (inl e, w)
    | inr fs1 =>
        match os_write (faults w) fs1 (fs_key p) text with
        | inl e => (inl e, set_fs fs1 w)
        | inr fs2 => (inr tt, set_fs fs2 w)
        end
    end.

(** [d[k]] *)
Definition getitem (d : dict) (k : string) : exn + value :=
  match dict_lookup k d with
  | Some v => inr v
  | None => inl KeyError
  end.

(** [config.get(k, default)]: only a [dict] has the method. *)
Definition get_method (config : value) (k : string) (default : value) : exn + value :=
  match config with
  | JDict d => inr (match dict_lookup k d with Some v => v | None => default end)
  | _ => inl AttributeError
  end.

(** [v.replace(old, new)]: only a [str] has the method. *)
Definition replace_method (v : value) (old new : string) : exn + string :=
  match v with
  | JStr s => inr (str_replace old new s)
  | _ => inl AttributeError
  end.

(** The exit status the caller of the process sees. *)
Definition exit_status (r : exn + unit) : Z :=
  match r with
  | inr _ => 0
  | inl (SystemExit code) => code
  | inl _ => 1
  end.

(** An exception that no handler took and that is not [SystemExit]: the
    interpreter prints a traceback and the process ends with status 1. *)
Definition uncaught (r : exn + unit) : Prop :=
  match r with
  | inl (SystemExit _) => False
  | inl _ => True
  | inr _ => False
  end.

(** ** The library functions the script calls *)

(** The parsers and the printer of the interpreter.  [json_loads] returns
    the message of the [JSONDecodeError] it raises; [int] and
    [fromisoformat] raise [ValueError] on a text they do not accept.  The
    laws are the facts about them the script relies on for its defaults and
    for the format of its log. *)
Class Runtime := {
  json_loads : string -> string + value;
  json_dumps : value -> string;
  int : string -> option Z;
  fromisoformat : string -> option datetime;
  json_loads_empty_object : json_loads "{}" = inr (JDict []);
  int_minus_one : int "-1" = Some (-1);
  int_one : int "1" = Some 1;
  json_dumps_one_line : forall v, count_newlines (json_dumps v) = O
}.

Section Agent.

Context `{rt : Runtime}.

Definition json_loads_exn (s : string) : exn + value :=
  match json_loads s with
  | inr v => inr v
  | inl msg => inl (JSONDecodeError msg)
  end.

Definition int_exn (s : string) : exn + Z :=
  match int s with
  | Some n => inr n
  | None => inl ValueError
  end.

Definition fromisoformat_exn (s : string) : exn + datetime :=
  match fromisoformat s with
  | Some d => inr d
  | None => inl ValueError
  end.

(** [{'status': 'error', 'error': msg}] *)
Definition error_output (msg : string) : value :=
  JDict [("status", JStr "error"); ("error", JStr msg)].

Local Open Scope proc_scope.

(** [main()], statement by statement. *)
Definition main : Proc unit :=
  (* Read configuration from environment *)
  config_json <- os_environ_get_default "CONFIG_JSON" "{}" ;;
  config <-
    try_except (lift (json_loads_exn config_json)) is_JSONDecodeError
      (fun e =>
         print_stderr (json_dumps (error_output ("Invalid CONFIG_JSON: " +:+ str_exn e))) ;;;
         sys_exit 1) ;;
  (* Get STATE_DIR (writable per-job directory) *)
  state_dir <- os_environ_get "STATE_DIR" ;;
  match state_dir with
  | None | Some EmptyString =>
      print_stderr (json_dumps (error_output "STATE_DIR environment variable not set")) ;;;
      sys_exit 1
  | Some state_dir =>
      (* Create STATE_DIR if it doesn't exist *)
      let state_path := Path state_dir in
      mkdir state_path ;;;
      (* Build metrics object from job metadata *)
      now <- utcnow ;;
      job_id <- os_environ_get_default "JOB_ID" "unknown" ;;
      run_id <- os_environ_get_default "RUN_ID" "unknown" ;;
      hook <- os_environ_get_default "HOOK" "unknown" ;;
      job_command <- os_environ_get_default "JOB_COMMAND" "" ;;
      job_schedule <- os_environ_get_default "JOB_SCHEDULE" "" ;;
      start_ts <- os_environ_get_default "START_TS" "" ;;
      end_ts <- os_environ_get_default "END_TS" "" ;;
      exit_code_s <- os_environ_get_default "EXIT_CODE" "-1" ;;
      exit_code <- lift (int_exn exit_code_s) ;;
      attempt_s <- os_environ_get_default "ATTEMPT" "1" ;;
      attempt <- lift (int_exn attempt_s) ;;
      let metrics : dict :=
        [ ("timestamp", JStr (isoformat now +:+ "Z"));
          ("job_id", JStr job_id);
          ("run_id", JStr run_id);
          ("hook", JStr hook);
          ("job_command", JStr job_command);
          ("job_schedule", JStr job_schedule);
          ("start_ts", JStr start_ts);
          ("end_ts", JStr end_ts);
          ("exit_code", JInt exit_code);
          ("attempt", JInt attempt) ] in
      (* Add custom metrics from config *)
      custom_metrics <- lift (get_method config "metrics" (JDict [])) ;;
      let metrics :=
        if truthy custom_metrics
        then dict_setitem "custom" custom_metrics metrics
        else metrics in
      (* Calculate duration if timestamps available *)
      m_start <- lift (getitem metrics "start_ts") ;;
      m_end <- lift (getitem metrics "end_ts") ;;
      metrics <-
        (if truthy m_start && truthy m_end
         then
           try_except
             (s <- lift (replace_method m_start "Z" "+00:00") ;;
              start <- lift (fromisoformat_exn s) ;;
              e <- lift (replace_method m_end "Z" "+00:00") ;;
              end_ <- lift (fromisoformat_exn e) ;;
              delta <- lift (datetime_sub end_ start) ;;
              ret (dict_setitem "duration_sec" (JFloat (total_seconds delta)) metrics))
             is_ValueError_or_AttributeError
             (fun _ => ret metrics)
         else ret metrics) ;;
      (* Append to metrics.jsonl file *)
      let metrics_file := joinpath state_path "metrics.jsonl" in
      try_except
        (open_append_write metrics_file (json_dumps (JDict metrics) +:+ nl))
        is_IOError
        (fun e =>
           print_stderr (json_dumps (error_output ("Failed to write metrics: " +:+ str_exn e))) ;;;
           sys_exit 1) ;;;
      (* Output success status *)
      let output :=
        JDict [ ("status", JStr "ok");
                ("metrics", JDict [ ("logged", JInt 1);
                                    ("file", JStr (path_str metrics_file)) ]);
                ("notes", JStr ("Metrics appended to " +:+ path_str metrics_file)) ] in
      print (json_dumps output) ;;;
      sys_exit 0
  end.

(** *** The ways [main] can end

    The pieces of [main] by name, and [main] again with its binds
    unfolded into one branch per way the script can end.  [main_paths_eq]
    below shows it is the same function; the theorems use this form. *)

Local Close Scope proc_scope.

(** [os.environ.get(name, default)] in a world. *)
Definition getenv (w : World) (name default : string) : string :=
  match environ w !! name with Some s => s | None => default end.

(** What [datetime.utcnow()] returns in a world. *)
Definition now (w : World) : datetime :=
  {| year := year (clock w); month := month (clock w); day := day (clock w);
     hour := hour (clock w); minute := minute (clock w); second := second (clock w);
     microsecond := microsecond (clock w); tzinfo := None |}.

(** The dictionary of lines 47 to 58. *)
Definition base_metrics (w : World) (exit_code attempt : Z) : dict :=
  [ ("timestamp", JStr (isoformat (now w) +:+ "Z"));
    ("job_id", JStr (getenv w "JOB_ID" "unknown"));
    ("run_id", JStr (getenv w "RUN_ID" "unknown"));
    ("hook", JStr (getenv w "HOOK" "unknown"));
    ("job_command", JStr (getenv w "JOB_COMMAND" ""));
    ("job_schedule", JStr (getenv w "JOB_SCHEDULE" ""));
    ("start_ts", JStr (getenv w "START_TS" ""));
    ("end_ts", JStr (getenv w "END_TS" ""));
    ("exit_code", JInt exit_code);
    ("attempt", JInt attempt) ].

(** Lines 61 to 63, on a configuration that is a [dict]. *)
Definition custom_metrics (config : dict) : value :=
  match dict_lookup "metrics" config with Some v => v | None => JDict [] end.

Definition add_custom (custom : value) (metrics : dict) : dict :=
  if truthy custom then dict_setitem "custom" custom metrics else metrics.

(** A timestamp as lines 68 and 69 read it. *)
Definition parse_ts (s : string) : option datetime :=
  fromisoformat (str_replace "Z" "+00:00" s).

(** Lines 66 to 72: the record with its duration, the record as it was
    when a timestamp is empty or does not parse, or the exception of the
    subtraction, which the [except] clause does not name. *)
Definition add_duration (start_ts end_ts : string) (metrics : dict) : exn + dict :=
  if String.eqb start_ts "" || String.eqb end_ts "" then inr metrics
  else
    match parse_ts start_ts with
    | None => inr metrics
    | Some start =>
        match parse_ts end_ts with
        | None => inr metrics
        | Some end_ =>
            match datetime_sub end_ start with
            | inr delta =>
                inr (dict_setitem "duration_sec" (JFloat (total_seconds delta)) metrics)
            | inl e => inl e
            end
        end
    end.

(** The record that is written, for a configuration that is a [dict]. *)
Definition build_record (w : World) (config : dict) (exit_code attempt : Z) : exn + dict :=
  add_duration (getenv w "START_TS" "") (getenv w "END_TS" "")
    (add_custom (custom_metrics config) (base_metrics w exit_code attempt)).

(** [state_path / 'metrics.jsonl'] *)
Definition metrics_file (state_dir : string) : PosixPath :=
  joinpath (Path state_dir) "metrics.jsonl".

(** The object printed on success. *)
Definition ok_output (file : PosixPath) : value :=
  JDict [ ("status", JStr "ok");
          ("metrics", JDict [ ("logged", JInt 1); ("file", JStr (path_str file)) ]);
          ("notes", JStr ("Metrics appended to " +:+ path_str file)) ].

(** A handled failure: the error object on the error stream, status 1. *)
Definition report_error (msg : string) (w : World) : (exn + unit) * World :=
  (inl (SystemExit 1),
   set_stderr (stderr w +:+ json_dumps (error_output msg) +:+ nl) w).

Definition main_paths (w : World) : (exn + unit) * World :=
  match json_loads (getenv w "CONFIG_JSON" "{}") with
  | inl msg => report_error ("Invalid CONFIG_JSON: " +:+ msg) w
  | inr config =>
      match environ w !! "STATE_DIR" with
      | None | Some EmptyString =>
          report_error "STATE_DIR environment variable not set" w
      | Some state_dir =>
          match Path_mkdir (faults w) (fs w) (Path state_dir) with
          | (Some e, fs1) => (inl e, set_fs fs1 w)
          | (None, fs1) =>
              match int (getenv w "EXIT_CODE" "-1") with
              | None => (inl ValueError, set_fs fs1 w)
              | Some exit_code =>
                  match int (getenv w "ATTEMPT" "1") with
                  | None => (inl ValueError, set_fs fs1 w)
                  | Some attempt =>
                      match config with
                      | JDict config =>
                          match build_record w config exit_code attempt with
                          | inl e => (inl e, set_fs fs1 w)
                          | inr metrics =>
                              let file := fs_key (metrics_file state_dir) in
                              match os_open_append (faults w) fs1 file with
                              | inl e =>
                                  report_error ("Failed to write metrics: " +:+ str_exn e)
                                    (set_fs fs1 w)
                              | inr fs2 =>
                                  match os_write (faults w) fs2 file
                                          (json_dumps (JDict metrics) +:+ nl) with
                                  | inl e =>
                                      report_error ("Failed to write metrics: " +:+ str_exn e)
                                        (set_fs fs2 w)
                                  | inr fs3 =>
                                      (inl (SystemExit 0),
                                       set_stdout
                                         (stdout w +:+ json_dumps (ok_output (metrics_file state_dir)) +:+ nl)
                                         (set_fs fs3 w))
                                  end
                              end
                          end
                      | _ => (inl AttributeError, set_fs fs1 w)
                      end
                  end
              end
          end
      end
  end.

(** *** The vocabulary of the specification *)

(** [CONFIG_JSON] is unset or parses as a JSON object. *)
Definition config_is_object (w : World) : Prop :=
  environ w !! "CONFIG_JSON" = None
  \/ exists s config, environ w !! "CONFIG_JSON" = Some s /\ json_loads s = inr (JDict config).

(** The variable is unset or a valid integer string. *)
Definition int_or_unset (w : World) (name : string) : Prop :=
  match environ w !! name with
  | None => True
  | Some s => exists n, int s = Some n
  end.

(** The file system operations of the script succeed for [state_dir]. *)
Definition fs_succeeds (w : World) (state_dir : string) : Prop :=
  exists fs1 fs2,
    Path_mkdir (faults w) (fs w) (Path state_dir) = (None, fs1)
    /\ os_open_append (faults w) fs1 (fs_key (metrics_file state_dir)) = inr fs2
    /\ forall text, exists fs3,
         os_write (faults w) fs2 (fs_key (metrics_file state_dir)) text = inr fs3.

(** Both timestamps are given and parse, one with a UTC offset and the
    other without. *)
Definition mixed_timestamps (w : World) : Prop :=
  getenv w "START_TS" "" <> "" /\ getenv w "END_TS" "" <> ""
  /\ exists s e, parse_ts (getenv w "START_TS" "") = Some s
                 /\ parse_ts (getenv w "END_TS" "") = Some e
                 /\ (tzinfo s = None <-> tzinfo e <> None).

(** A successful invocation: the record [metrics], built from the
    configuration [config], is what was appended to the log under
    [state_dir], and the success object is what was printed. *)
Record success (w : World) (state_dir : string) (config metrics : dict) : Prop := {
  ok_config : json_loads (getenv w "CONFIG_JSON" "{}") = inr (JDict config);
  ok_state_dir : environ w !! "STATE_DIR" = Some state_dir;
  ok_nonempty : state_dir <> "";
  ok_record : exists exit_code attempt,
      int (getenv w "EXIT_CODE" "-1") = Some exit_code
      /\ int (getenv w "ATTEMPT" "1") = Some attempt
      /\ build_record w config exit_code attempt = inr metrics;
  ok_exit : (main w).1 = inl (SystemExit 0);
  ok_file :
    file_content (fs (main w).2) (fs_key (metrics_file state_dir))
    = file_content (fs w) (fs_key (metrics_file state_dir))
      +:+ json_dumps (JDict metrics) +:+ nl;
  ok_other_files : forall k, k <> fs_key (metrics_file state_dir) ->
    file_content (fs (main w).2) k = file_content (fs w) k;
  ok_dirs : dirs_kept (fs w) (fs (main w).2);
  ok_state_path : is_dir (fs (main w).2) (fs_key (Path state_dir)) = true;
  ok_stdout :
    stdout (main w).2
    = stdout w +:+ json_dumps (ok_output (metrics_file state_dir)) +:+ nl;
  ok_stderr : stderr (main w).2 = stderr w
}.

(** [n] successful invocations in a row that log to [file], each started
    in the file system the one before it left; everything else about the
    world of each is free. *)
Inductive invocations (file : fskey) : nat -> FS -> FS -> Prop :=
| invocations_none (fs0 : FS) : invocations file O fs0 fs0
| invocations_next (n : nat) (w : World) (state_dir : string) (fs0 fs1 fs' : FS) :
    fs w = fs0 ->
    (main w).1 = inl (SystemExit 0) ->
    environ w !! "STATE_DIR" = Some state_dir ->
    fs_key (metrics_file state_dir) = file ->
    fs (main w).2 = fs1 ->
    invocations file n fs1 fs' ->
    invocations file (S n) fs0 fs'.

End Agent.

(** ** A reference runtime *)

(** Executable parsers and a printer that follow CPython on ASCII text:
    [int] as [int(str)] in base 10, [fromisoformat] on the format documented
    for it before Python 3.11,
    [YYYY-MM-DD[*HH[:MM[:SS[.fff[fff]]]][+HH:MM[:SS[.ffffff]]]]], and the
    [json] module with its default options. *)
Module Reference.

Definition ord (c : ascii) : Z := Z.of_N (N_of_ascii c).

Definition is_digit (c : ascii) : bool := (48 <=? ord c) && (ord c <=? 57).

Definition digit_val (c : ascii) : Z := ord c - 48.

(** The characters [int] skips around a number. *)
Definition is_space (c : ascii) : bool :=
  ((9 <=? ord c) && (ord c <=? 13)) || ((28 <=? ord c) && (ord c <=? 32)).

Fixpoint lstrip (s : string) : string :=
  match s with
  | String c s' => if is_space c then lstrip s' else s
  | EmptyString => s
  end.

Definition string_rev (s : string) : string :=
  string_of_list_ascii (rev (list_ascii_of_string s)).

Definition strip (s : string) : string :=
  string_rev (lstrip (string_rev (lstrip s))).

(** Decimal digits in which single underscores may separate digits;
    [after_digit] says whether the previous character was a digit. *)
Fixpoint int_digits (acc : Z) (after_digit : bool) (s : string) : option Z :=
  match s with
  | EmptyString => if after_digit then Some acc else None
  | String c s' =>
      if is_digit c then int_digits (10 * acc + digit_val c) true s'
      else if Ascii.eqb c "_"%char && after_digit then int_digits acc false s'
      else None
  end.

Definition int (s : string) : option Z :=
  match strip s with
  | String "-"%char s' => Z.opp <$> int_digits 0 false s'
  | String "+"%char s' => int_digits 0 false s'
  | s' => int_digits 0 false s'
  end.

(** Exactly [n] digits. *)
Fixpoint take_digits (n : nat) (acc : Z) (s : string) : option (Z * string) :=
  match n with
  | O => Some (acc, s)
  | S n' =>
      match s with
      | String c s' =>
          if is_digit c then take_digits n' (10 * acc + digit_val c) s' else None
      | EmptyString => None
      end
  end.

Definition expect (c : ascii) (s : string) : option string :=
  match s with
  | String c' s' => if Ascii.eqb c c' then Some s' else None
  | EmptyString => None
  end.

Definition starts_with (c : ascii) (s : string) : bool :=
  match s with
  | String c' _ => Ascii.eqb c c'
  | EmptyString => false
  end.

(** [.fff] or [.ffffff] at the end of a time, [.ffffff] only when
    [six_only]; the result is in microseconds. *)
Definition parse_fraction (six_only : bool) (s : string) : option (Z * string) :=
  match take_digits 6 0 s with
  | Some r => Some r
  | None =>
      if six_only then None
      else '(ms, s') ← take_digits 3 0 s; Some (ms * 1000, s')
  end.

(** [HH[:MM[:SS[.fff[fff]]]]]; what follows is returned. *)
Definition parse_hh_mm_ss_ff (six_only : bool) (s : string)
    : option (Z * Z * Z * Z * string) :=
  '(hh, s1) ← take_digits 2 0 s;
  if starts_with ":" s1 then
    s2 ← expect ":" s1;
    '(mm, s3) ← take_digits 2 0 s2;
    if starts_with ":" s3 then
      s4 ← expect ":" s3;
      '(ss, s5) ← take_digits 2 0 s4;
      if starts_with "." s5 then
        s6 ← expect "." s5;
        '(us, s7) ← parse_fraction six_only s6;
        Some (hh, mm, ss, us, s7)
      else Some (hh, mm, ss, 0, s5)
    else Some (hh, mm, 0, 0, s3)
  else Some (hh, 0, 0, 0, s1).

(** [+HH:MM[:SS[.ffffff]]] up to the end of the text. *)
Definition parse_tz (s : string) : option Z :=
  match s with
  | String c s' =>
      if Ascii.eqb c "+"%char || Ascii.eqb c "-"%char then
        '(hh, mm, ss, us, rest) ← parse_hh_mm_ss_ff true s';
        if negb (starts_with ":" (String.substring 2 1 s')) then None
        else if negb (String.eqb rest "") then None
        else
          let off := ((hh * 3600 + mm * 60 + ss) * 1000000 + us) in
          if 86400000000 <=? off then None
          else Some (if Ascii.eqb c "-"%char then - off else off)
      else None
  | EmptyString => None
  end.

Definition valid_date (y m d : Z) : bool :=
  (1 <=? y) && (y <=? 9999) && (1 <=? m) && (m <=? 12)
  && (1 <=? d) && (d <=? days_in_month y m).

Definition valid_time (h m s us : Z) : bool :=
  (h <=? 23) && (m <=? 59) && (s <=? 59) && (us <=? 999999).

Definition fromisoformat (s : string) : option datetime :=
  '(y, s1) ← take_digits 4 0 s;
  s2 ← expect "-" s1;
  '(m, s3) ← take_digits 2 0 s2;
  s4 ← expect "-" s3;
  '(d, s5) ← take_digits 2 0 s4;
  if negb (valid_date y m d) then None
  else
    match s5 with
    | EmptyString =>
        Some {| year := y; month := m; day := d; hour := 0; minute := 0;
                second := 0; microsecond := 0; tzinfo := None |}
    | String _ t =>
        '(hh, mm, ss, us, rest) ← parse_hh_mm_ss_ff false t;
        if negb (valid_time hh mm ss us) then None
        else
          match rest with
          | EmptyString =>
              Some {| year := y; month := m; day := d; hour := hh; minute := mm;
                      second := ss; microsecond := us; tzinfo := None |}
          | _ =>
              off ← parse_tz rest;
              Some {| year := y; month := m; day := d; hour := hh; minute := mm;
                      second := ss; microsecond := us; tzinfo := Some off |}
          end
    end.


(** *** [json.loads] *)

(** A decoding failure: the message and the number of characters that
    were left at the place it is reported for. *)
Abbreviation jerr := (string * nat)%type.

Definition is_json_space (c : ascii) : bool :=
  Ascii.eqb c " "%char || Ascii.eqb c "009"%char
  || Ascii.eqb c "010"%char || Ascii.eqb c "013"%char.

Fixpoint skip_ws (s : string) : string :=
  match s with
  | String c s' => if is_json_space c then skip_ws s' else s
  | EmptyString => s
  end.

Fixpoint drop (n : nat) (s : string) : string :=
  match n, s with
  | S n', String _ s' => drop n' s'
  | _, _ => s
  end.

Definition hex_val (c : ascii) : option Z :=
  if is_digit c then Some (ord c - 48)
  else if (97 <=? ord c) && (ord c <=? 102) then Some (ord c - 87)
  else if (65 <=? ord c) && (ord c <=? 70) then Some (ord c - 55)
  else None.

Fixpoint take_hex (n : nat) (acc : Z) (s : string) : option (Z * string) :=
  match n with
  | O => Some (acc, s)
  | S n' =>
      match s with
      | String c s' => d ← hex_val c; take_hex n' (16 * acc + d) s'
      | EmptyString => None
      end
  end.

Definition dquote : ascii := "034"%char.

Definition chr (n : Z) : ascii := ascii_of_N (Z.to_N n).

(** The body of a string literal, after its opening quote; [start] is what
    was left at that quote.  Escapes above [00ff] are beyond the
    8-bit characters of the model and reported as invalid. *)
Fixpoint scanstring (start : nat) (acc : string) (s : string) : jerr + (string * string) :=
  match s with
  | EmptyString => inl ("Unterminated string starting at", start)
  | String c s' =>
      if Ascii.eqb c dquote then inr (string_rev acc, s')
      else if Ascii.eqb c "\"%char then
        match s' with
        | EmptyString => inl ("Unterminated string starting at", start)
        | String e s'' =>
            let simple (x : ascii) := scanstring start (String x acc) s'' in
            if Ascii.eqb e dquote then simple dquote
            else if Ascii.eqb e "\"%char then simple "\"%char
            else if Ascii.eqb e "/"%char then simple "/"%char
            else if Ascii.eqb e "b"%char then simple "008"%char
            else if Ascii.eqb e "f"%char then simple "012"%char
            else if Ascii.eqb e "n"%char then simple "010"%char
            else if Ascii.eqb e "r"%char then simple "013"%char
            else if Ascii.eqb e "t"%char then simple "009"%char
            else if Ascii.eqb e "u"%char then
              match take_hex 4 0 s'' with
              | Some (code, _) =>
                  if code <? 256
                  then scanstring start (String (chr code) acc) (drop 4 s'')
                  else inl ("Invalid \uXXXX escape", String.length s)
              | None => inl ("Invalid \uXXXX escape", String.length s)
              end
            else inl ("Invalid \escape", String.length s)
        end
      else if ord c <? 32 then inl ("Invalid control character at", String.length s)
      else scanstring start (String c acc) s'
  end.

(** A run of digits: their value, how many there are, and what follows. *)
Fixpoint scan_digits (acc : Z) (count : nat) (s : string) : Z * nat * string :=
  match s with
  | String c s' =>
      if is_digit c then scan_digits (10 * acc + digit_val c) (S count) s'
      else (acc, count, s)
  | EmptyString => (acc, count, s)
  end.

(** The digits after the point, if there is a point followed by a
    digit. *)
Definition scan_frac (s : string) : option (Z * nat * string) :=
  match s with
  | String "."%char s' =>
      match scan_digits 0 O s' with
      | (_, O, _) => None
      | r => Some r
      end
  | _ => None
  end.

(** An exponent: [e] or [E], an optional sign, digits. *)
Definition scan_exp (s : string) : option (Z * string) :=
  match s with
  | String c s' =>
      if Ascii.eqb c "e"%char || Ascii.eqb c "E"%char then
        let '(neg, s'') :=
          match s' with
          | String "-"%char t => (true, t)
          | String "+"%char t => (false, t)
          | _ => (false, s')
          end in
        match scan_digits 0 O s'' with
        | (_, O, _) => None
        | (e, _, rest) => Some (if neg then - e else e, rest)
        end
      else None
  | EmptyString => None
  end.

(** The rational [m * 10^e]. *)
Definition scale10 (m e : Z) : Q :=
  if 0 <=? e then inject_Z (m * 10 ^ e) else Qred (m # Z.to_pos (10 ^ (- e))).

(** A number: an optional minus sign, then [0] or digits that do not start
    with [0], then an optional fraction and an optional exponent.  It is an
    [int] when there is neither fraction nor exponent, a [float]
    otherwise. *)
Definition scan_number (s : string) : option (value * string) :=
  let '(neg, s1) :=
    match s with
    | String "-"%char t => (true, t)
    | _ => (false, s)
    end in
  '(ip, s2) ←
    match s1 with
    | String "0"%char t => Some (0, t)
    | String c _ =>
        if is_digit c then let '(n, _, t) := scan_digits 0 O s1 in Some (n, t)
        else None
    | EmptyString => None
    end;
  let sign (n : Z) := if neg then - n else n in
  match scan_frac s2, scan_exp (match scan_frac s2 with Some (_, _, t) => t | None => s2 end) with
  | None, None => Some (JInt (sign ip), s2)
  | Some (f, k, t), None =>
      Some (JFloat (Finite (scale10 (sign (ip * 10 ^ Z.of_nat k + f)) (- Z.of_nat k))), t)
  | None, Some (e, t) => Some (JFloat (Finite (scale10 (sign ip) e)), t)
  | Some (f, k, _), Some (e, t) =>
      Some (JFloat (Finite (scale10 (sign (ip * 10 ^ Z.of_nat k + f)) (e - Z.of_nat k))), t)
  end.

(** [dict(pairs)]: a repeated key keeps its first position and its last
    value. *)
Definition dict_of_pairs (pairs : list (string * value)) : dict :=
  fold_left (fun d kv => dict_setitem (fst kv) (snd kv) d) pairs [].

(** The scanner: [scan_once] reads one value at the start of the text;
    [scan_array] reads the elements of an array from its first element on,
    [scan_object] the members of an object from the quote of a key on.
    Each call uses one unit of [fuel]. *)
Fixpoint scan_once (fuel : nat) (s : string) : jerr + (value * string) :=
  match fuel with
  | O => inl ("Expecting value", String.length s)
  | S fuel' =>
      match s with
      | String "034"%char s' =>
          match scanstring (String.length s) "" s' with
          | inl e => inl e
          | inr (str, rest) => inr (JStr str, rest)
          end
      | String "{"%char s' =>
          match skip_ws s' with
          | String "}"%char rest => inr (JDict [], rest)
          | s'' => scan_object fuel' [] s''
          end
      | String "["%char s' =>
          match skip_ws s' with
          | String "]"%char rest => inr (JList [], rest)
          | s'' => scan_array fuel' [] s''
          end
      | _ =>
          if is_prefix "null" s then inr (JNone, drop 4 s)
          else if is_prefix "true" s then inr (JBool true, drop 4 s)
          else if is_prefix "false" s then inr (JBool false, drop 5 s)
          else
            match scan_number s with
            | Some r => inr r
            | None =>
                if is_prefix "NaN" s then inr (JFloat NaN, drop 3 s)
                else if is_prefix "Infinity" s then inr (JFloat (Infinity false), drop 8 s)
                else if is_prefix "-Infinity" s then inr (JFloat (Infinity true), drop 9 s)
                else inl ("Expecting value", String.length s)
            end
      end
  end
with scan_array (fuel : nat) (acc : list value) (s : string) : jerr + (value * string) :=
  match fuel with
  | O => inl ("Expecting value", String.length s)
  | S fuel' =>
      match scan_once fuel' s with
      | inl e => inl e
      | inr (v, rest) =>
          match skip_ws rest with
          | String "]"%char rest' => inr (JList (rev (v :: acc)), rest')
          | String ","%char rest' => scan_array fuel' (v :: acc) (skip_ws rest')
          | rest' => inl ("Expecting ',' delimiter", String.length rest')
          end
      end
  end
with scan_object (fuel : nat) (acc : list (string * value)) (s : string)
    : jerr + (value * string) :=
  match fuel with
  | O => inl ("Expecting value", String.length s)
  | S fuel' =>
      match s with
      | String "034"%char s' =>
          match scanstring (String.length s) "" s' with
          | inl e => inl e
          | inr (key, rest) =>
              match skip_ws rest with
              | String ":"%char rest' =>
                  match scan_once fuel' (skip_ws rest') with
                  | inl e => inl e
                  | inr (v, rest'') =>
                      match skip_ws rest'' with
                      | String "}"%char r =>
                          inr (JDict (dict_of_pairs (rev ((key, v) :: acc))), r)
                      | String ","%char r =>
                          scan_object fuel' ((key, v) :: acc) (skip_ws r)
                      | r => inl ("Expecting ',' delimiter", String.length r)
                      end
                  end
              | rest' => inl ("Expecting ':' delimiter", String.length rest')
              end
          end
      | _ => inl ("Expecting property name enclosed in double quotes", String.length s)
      end
  end.

Definition string_of_nat (n : nat) : string :=
  NilZero.string_of_uint (Nat.to_uint n).

(** Line and column, counted from 1, of the character after [pos] others. *)
Fixpoint line_col (pos : nat) (line col : nat) (s : string) : nat * nat :=
  match pos, s with
  | S pos', String c s' =>
      if Ascii.eqb c newline then line_col pos' (S line) 1%nat s'
      else line_col pos' line (S col) s'
  | _, _ => (line, col)
  end.

(** [str(e)] of a [JSONDecodeError] *)
Definition errmsg (msg : string) (doc : string) (pos : nat) : string :=
  let '(line, col) := line_col pos 1%nat 1%nat doc in
  msg +:+ ": line " +:+ string_of_nat line +:+ " column " +:+ string_of_nat col
  +:+ " (char " +:+ string_of_nat pos +:+ ")".

Definition loads (s : string) : string + value :=
  let len := String.length s in
  match scan_once (S (2 * len)) (skip_ws s) with
  | inl (msg, remaining) => inl (errmsg msg s (len - remaining))
  | inr (v, rest) =>
      match skip_ws rest with
      | EmptyString => inr v
      | rest' => inl (errmsg "Extra data" s (len - String.length rest'))
      end
  end.


(** *** [json.dumps] *)

Definition digit_char (d : Z) : ascii :=
  match d with
  | 0 => "0" | 1 => "1" | 2 => "2" | 3 => "3" | 4 => "4"
  | 5 => "5" | 6 => "6" | 7 => "7" | 8 => "8" | _ => "9"
  end%char.

Definition hex_char (d : Z) : ascii :=
  match d with
  | 10 => "a" | 11 => "b" | 12 => "c" | 13 => "d" | 14 => "e" | 15 => "f"
  | _ => digit_char d
  end%char.

Fixpoint digits_of_uint (u : Decimal.uint) : list Z :=
  match u with
  | Decimal.Nil => []
  | Decimal.D0 u' => 0 :: digits_of_uint u'
  | Decimal.D1 u' => 1 :: digits_of_uint u'
  | Decimal.D2 u' => 2 :: digits_of_uint u'
  | Decimal.D3 u' => 3 :: digits_of_uint u'
  | Decimal.D4 u' => 4 :: digits_of_uint u'
  | Decimal.D5 u' => 5 :: digits_of_uint u'
  | Decimal.D6 u' => 6 :: digits_of_uint u'
  | Decimal.D7 u' => 7 :: digits_of_uint u'
  | Decimal.D8 u' => 8 :: digits_of_uint u'
  | Decimal.D9 u' => 9 :: digits_of_uint u'
  end.

(** The decimal digits of a natural number, most significant first;
    [[0]] for zero. *)
Definition digits_of (n : Z) : list Z :=
  digits_of_uint (N.to_uint (Z.to_N n)).

Definition show_digits (ds : list Z) : string :=
  string_of_list_ascii (map digit_char ds).

(** [str(n)] of an [int] *)
Definition int_repr (n : Z) : string :=
  (if n <? 0 then "-" else "") +:+ show_digits (digits_of (Z.abs n)).

Fixpoint strip_zeros (rds : list Z) : list Z :=
  match rds with
  | 0 :: rds' => strip_zeros rds'
  | _ => rds
  end.

(** The least [k], from [k] on, with [den <= num * 10^k]. *)
Fixpoint first_digit_at (fuel : nat) (num den : Z) (k : Z) : Z :=
  match fuel with
  | O => k
  | S fuel' => if den <=? num then k else first_digit_at fuel' (num * 10) den (k + 1)
  end.

(** [repr] of a finite positive float [num/den]: up to 17 significant
    digits, in positional notation when the decimal point falls within
    them or up to four places to their left, in exponent notation
    otherwise. *)
Definition positive_repr (num den : Z) : string :=
  let k := first_digit_at (length (digits_of den)) num den 0 in
  let decpt := if k =? 0 then Z.of_nat (length (digits_of (num / den))) else 1 - k in
  let scaled :=
    if decpt <=? 17 then num * 10 ^ (17 - decpt) / den
    else num / (den * 10 ^ (decpt - 17)) in
  let ds := rev (strip_zeros (rev (digits_of scaled))) in
  let n := Z.of_nat (length ds) in
  if (-4 <? decpt) && (decpt <=? 16) then
    if decpt <=? 0 then
      "0." +:+ show_digits (repeat 0 (Z.to_nat (- decpt))) +:+ show_digits ds
    else if n <=? decpt then
      show_digits ds +:+ show_digits (repeat 0 (Z.to_nat (decpt - n))) +:+ ".0"
    else
      show_digits (firstn (Z.to_nat decpt) ds) +:+ "."
      +:+ show_digits (skipn (Z.to_nat decpt) ds)
  else
    let e := decpt - 1 in
    show_digits (firstn 1 ds)
    +:+ (if 1 <? n then "." +:+ show_digits (skipn 1 ds) else "")
    +:+ "e" +:+ (if e <? 0 then "-" else "+")
    +:+ (if Z.abs e <? 10 then "0" else "") +:+ show_digits (digits_of (Z.abs e)).

(** [float.__repr__], which [json.dumps] uses, with the names [json] gives
    to the special values. *)
Definition float_repr (x : pyfloat) : string :=
  match x with
  | NaN => "NaN"
  | Infinity false => "Infinity"
  | Infinity true => "-Infinity"
  | Finite q =>
      let num := Qnum q in
      let den := Z.pos (Qden q) in
      if num =? 0 then "0.0"
      else (if num <? 0 then "-" else "") +:+ positive_repr (Z.abs num) den
  end.

(** One character of a string literal, with [ensure_ascii]. *)
Definition escape_char (c : ascii) : string :=
  if Ascii.eqb c dquote then "\" +:+ String dquote ""
  else if Ascii.eqb c "\"%char then "\\"
  else if Ascii.eqb c "010"%char then "\n"
  else if Ascii.eqb c "013"%char then "\r"
  else if Ascii.eqb c "009"%char then "\t"
  else if Ascii.eqb c "008"%char then "\b"
  else if Ascii.eqb c "012"%char then "\f"
  else if (32 <=? ord c) && (ord c <=? 126) then String c ""
  else "\u00" +:+ String (hex_char (ord c / 16)) (String (hex_char (ord c mod 16)) "").

Fixpoint escape (s : string) : string :=
  match s with
  | EmptyString => ""
  | String c s' => escape_char c +:+ escape s'
  end.

(** A string literal. *)
Definition encode_str (s : string) : string :=
  String dquote (escape s) +:+ String dquote "".

(** [json.dumps(v)] with the default separators. *)
Fixpoint dumps (v : value) : string :=
  match v with
  | JNone => "null"
  | JBool true => "true"
  | JBool false => "false"
  | JInt n => int_repr n
  | JFloat x => float_repr x
  | JStr s => encode_str s
  | JList l =>
      "["
      +:+ match l with
          | [] => ""
          | x :: l' =>
              dumps x
              +:+ (fix more (l : list value) : string :=
                     match l with
                     | [] => ""
                     | y :: l'' => ", " +:+ dumps y +:+ more l''
                     end) l'
          end
      +:+ "]"
  | JDict d =>
      "{"
      +:+ match d with
          | [] => ""
          | (k, x) :: d' =>
              encode_str k +:+ ": " +:+ dumps x
              +:+ (fix more (d : dict) : string :=
                     match d with
                     | [] => ""
                     | (k', y) :: d'' => ", " +:+ encode_str k' +:+ ": " +:+ dumps y +:+ more d''
                     end) d'
          end
      +:+ "}"
  end.

End Reference.

(** ** Example worlds

    Concrete worlds for the examples of the specification and for the
    inputs on which a statement of it fails.  They start from an empty
    file system at eleven seconds past midnight of 2024-01-01. *)

Definition clock0 : datetime :=
  {| year := 2024; month := 1; day := 1; hour := 0; minute := 0; second := 11;
     microsecond := 0; tzinfo := None |}.

Definition no_faults : fault_model := fun _ => None.

(** An empty file system, no faults, nothing written yet. *)
Definition world_of (env : list (string * string)) : World :=
  {| environ := list_to_map env; clock := clock0; fs := ∅; faults := no_faults;
     stdout := ""; stderr := "" |}.

(** A JSON text written with single quotes in place of double quotes. *)
Definition js (s : string) : string :=
  str_replace "'" (String Reference.dquote "") s.

Definition nightly : string := "/var/lib/jobster/nightly".

(** A start with a UTC offset and an end without one. *)
Definition world_mixed : World :=
  world_of [ ("STATE_DIR", nightly);
             ("START_TS", "2024-01-01T00:00:00Z");
             ("END_TS", "2024-01-01T00:00:10") ].

(** The timestamps of the specification's example. *)
Definition world_ten_seconds : World :=
  world_of [ ("STATE_DIR", nightly);
             ("START_TS", "2024-01-01T00:00:00Z");
             ("END_TS", "2024-01-01T00:00:10Z") ].

(** The configuration of the specification's example. *)
Definition world_cpu_pct : World :=
  world_of [ ("STATE_DIR", nightly);
             ("CONFIG_JSON", js "{'metrics':{'cpu_pct':42}}") ].

(** A [metrics] entry that is a number. *)
Definition world_metrics_number : World :=
  world_of [ ("STATE_DIR", nightly);
             ("CONFIG_JSON", js "{'metrics': 5}") ].



(** A disk that is full when the line is written. *)
Definition disk_full : fault_model :=
  fun c =>
    match c with
    | sys_write _ => Some (EOther, "[Errno 28] No space left on device")
    | _ => None
    end.

Definition world_disk_full : World :=
  {| environ := {[ "STATE_DIR" := nightly ]}; clock := clock0; fs := ∅;
     faults := disk_full; stdout := ""; stderr := "" |}.

(** An exit code that is no number. *)
Definition world_bad_exit_code : World :=
  world_of [ ("STATE_DIR", nightly); ("EXIT_CODE", "abc") ].


(** A later invocation, in the file system an earlier one left. *)
Definition rerun (w : World) : World :=
  {| environ := {[ "STATE_DIR" := nightly ]}; clock := clock0;
     fs := fs w; faults := no_faults; stdout := ""; stderr := "" |}.

(** Checks that compute, for the concrete worlds. *)

Definition is_inr {A B : Type} (x : A + B) : bool :=
  match x with inr _ => true | inl _ => false end.

Definition get_inr {A B : Type} (x : A + B) (default : B) : B :=
  match x with inr b => b | inl _ => default end.

(** The file system operations of the script succeed, as a check. *)
Definition fs_succeeds_check (w : World) (state_dir : string) : bool :=
  match Path_mkdir (faults w) (fs w) (Path state_dir) with
  | (None, fs1) =>
      match os_open_append (faults w) fs1 (fs_key (metrics_file state_dir)) with
      | inr fs2 =>
          match faults w (sys_write (fs_key (metrics_file state_dir))),
                fs2 !! fs_key (metrics_file state_dir) with
          | None, Some (File _) => true
          | _, _ => false
          end
      | inl _ => false
      end
  | _ => false
  end.

(** ** The outcomes of an invocation *)

Section Outcomes.
Context `{rt : Runtime}.

(** The ways [main] can end in a world, each with what was read on the
    way: one constructor per exit of the script. *)
Inductive outcome (w : World) : (exn + unit) * World -> Prop :=
| invalid_config (msg : string) :
    json_loads (getenv w "CONFIG_JSON" "{}") = inl msg ->
    outcome w (report_error ("Invalid CONFIG_JSON: " +:+ msg) w)
| missing_state_dir (config : value) :
    json_loads (getenv w "CONFIG_JSON" "{}") = inr config ->
    environ w !! "STATE_DIR" = None \/ environ w !! "STATE_DIR" = Some "" ->
    outcome w (report_error "STATE_DIR environment variable not set" w)
| mkdir_raises (config : value) (state_dir : string) (e : exn) (fs1 : FS) :
    json_loads (getenv w "CONFIG_JSON" "{}") = inr config ->
    environ w !! "STATE_DIR" = Some state_dir -> state_dir <> "" ->
    Path_mkdir (faults w) (fs w) (Path state_dir) = (Some e, fs1) ->
    outcome w (inl e, set_fs fs1 w)
| int_raises (config : value) (state_dir : string) (fs1 : FS) :
    json_loads (getenv w "CONFIG_JSON" "{}") = inr config ->
    environ w !! "STATE_DIR" = Some state_dir -> state_dir <> "" ->
    Path_mkdir (faults w) (fs w) (Path state_dir) = (None, fs1) ->
    int (getenv w "EXIT_CODE" "-1") = None
    \/ ((exists n, int (getenv w "EXIT_CODE" "-1") = Some n)
        /\ int (getenv w "ATTEMPT" "1") = None) ->
    outcome w (inl ValueError, set_fs fs1 w)
| config_lookup_raises (config : value) (state_dir : string) (fs1 : FS)
    (exit_code attempt : Z) :
    json_loads (getenv w "CONFIG_JSON" "{}") = inr config ->
    (forall c, config <> JDict c) ->
    environ w !! "STATE_DIR" = Some state_dir -> state_dir <> "" ->
    Path_mkdir (faults w) (fs w) (Path state_dir) = (None, fs1) ->
    int (getenv w "EXIT_CODE" "-1") = Some exit_code ->
    int (getenv w "ATTEMPT" "1") = Some attempt ->
    outcome w (inl AttributeError, set_fs fs1 w)
| subtraction_raises (config : dict) (state_dir : string) (fs1 : FS)
    (exit_code attempt : Z) :
    json_loads (getenv w "CONFIG_JSON" "{}") = inr (JDict config) ->
    environ w !! "STATE_DIR" = Some state_dir -> state_dir <> "" ->
    Path_mkdir (faults w) (fs w) (Path state_dir) = (None, fs1) ->
    int (getenv w "EXIT_CODE" "-1") = Some exit_code ->
    int (getenv w "ATTEMPT" "1") = Some attempt ->
    build_record w config exit_code attempt = inl TypeError ->
    outcome w (inl TypeError, set_fs fs1 w)
| open_fails (config metrics : dict) (state_dir : string) (fs1 : FS)
    (exit_code attempt : Z) (e : exn) :
    json_loads (getenv w "CONFIG_JSON" "{}") = inr (JDict config) ->
    environ w !! "STATE_DIR" = Some state_dir -> state_dir <> "" ->
    Path_mkdir (faults w) (fs w) (Path state_dir) = (None, fs1) ->
    int (getenv w "EXIT_CODE" "-1") = Some exit_code ->
    int (getenv w "ATTEMPT" "1") = Some attempt ->
    build_record w config exit_code attempt = inr metrics ->
    os_open_append (faults w) fs1 (fs_key (metrics_file state_dir)) = inl e ->
    outcome w (report_error ("Failed to write metrics: " +:+ str_exn e) (set_fs fs1 w))
| write_fails (config metrics : dict) (state_dir : string) (fs1 fs2 : FS)
    (exit_code attempt : Z) (e : exn) :
    json_loads (getenv w "CONFIG_JSON" "{}") = inr (JDict config) ->
    environ w !! "STATE_DIR" = Some state_dir -> state_dir <> "" ->
    Path_mkdir (faults w) (fs w) (Path state_dir) = (None, fs1) ->
    int (getenv w "EXIT_CODE" "-1") = Some exit_code ->
    int (getenv w "ATTEMPT" "1") = Some attempt ->
    build_record w config exit_code attempt = inr metrics ->
    os_open_append (faults w) fs1 (fs_key (metrics_file state_dir)) = inr fs2 ->
    os_write (faults w) fs2 (fs_key (metrics_file state_dir))
      (json_dumps (JDict metrics) +:+ nl) = inl e ->
    outcome w (report_error ("Failed to write metrics: " +:+ str_exn e) (set_fs fs2 w))
| succeeds (config metrics : dict) (state_dir : string) (fs1 fs2 fs3 : FS)
    (exit_code attempt : Z) :
    json_loads (getenv w "CONFIG_JSON" "{}") = inr (JDict config) ->
    environ w !! "STATE_DIR" = Some state_dir -> state_dir <> "" ->
    Path_mkdir (faults w) (fs w) (Path state_dir) = (None, fs1) ->
    int (getenv w "EXIT_CODE" "-1") = Some exit_code ->
    int (getenv w "ATTEMPT" "1") = Some attempt ->
    build_record w config exit_code attempt = inr metrics ->
    os_open_append (faults w) fs1 (fs_key (metrics_file state_dir)) = inr fs2 ->
    os_write (faults w) fs2 (fs_key (metrics_file state_dir))
      (json_dumps (JDict metrics) +:+ nl) = inr fs3 ->
    outcome w
      (inl (SystemExit 0),
       set_stdout (stdout w +:+ json_dumps (ok_output (metrics_file state_dir)) +:+ nl)
         (set_fs fs3 w)).

End Outcomes.

(** ** Vocabulary for the properties of every invocation *)

(** The keys of a dictionary, in its order. *)
Definition dict_keys (d : dict) : list string := map fst d.

(** The keys of lines 48 to 57, in the order the script writes them. *)
Definition base_keys : list string :=
  [ "timestamp"; "job_id"; "run_id"; "hook"; "job_command"; "job_schedule";
    "start_ts"; "end_ts"; "exit_code"; "attempt" ].

(** The environment variables [main] reads. *)
Definition variables_read : list string :=
  [ "CONFIG_JSON"; "STATE_DIR"; "JOB_ID"; "RUN_ID"; "HOOK"; "JOB_COMMAND";
    "JOB_SCHEDULE"; "START_TS"; "END_TS"; "EXIT_CODE"; "ATTEMPT" ].

(** The world with one more variable in its environment. *)
Definition setenv (name v : string) (w : World) : World :=
  {| environ := <[name := v]> (environ w); clock := clock w; fs := fs w;
     faults := faults w; stdout := stdout w; stderr := stderr w |}.

(** [c in s] *)
Fixpoint occurs (c : ascii) (s : string) : bool :=
  match s with
  | EmptyString => false
  | String x s' => Ascii.eqb x c || occurs c s'
  end.

(** A component as [Path] keeps them: not empty, not [.], without a
    slash. *)
Definition is_component (x : string) : bool :=
  negb (String.eqb x "") && negb (String.eqb x ".") && negb (occurs "/" x).

(** Every node is still what it was, and a file has its old content at
    its start. *)
Definition grows (fs fs' : FS) : Prop :=
  forall k n, fs_lookup fs k = Some n ->
    match n with
    | Dir => fs_lookup fs' k = Some Dir
    | File c => exists added, fs_lookup fs' k = Some (File (c +:+ added))
    end.

(** The three messages of the error objects of lines 27, 37 and 82. *)
Definition handled_message (msg : string) : Prop :=
  (exists detail, msg = "Invalid CONFIG_JSON: " +:+ detail)
  \/ msg = "STATE_DIR environment variable not set"
  \/ (exists detail, msg = "Failed to write metrics: " +:+ detail).

(** A world in which every variable is set. *)
Definition world_all_set : World :=
  world_of [ ("STATE_DIR", nightly);
             ("CONFIG_JSON", js "{'metrics':{'cpu_pct':42}}");
             ("JOB_ID", "backup"); ("RUN_ID", "run-7"); ("HOOK", "post_run");
             ("JOB_COMMAND", "tar czf /backup/home.tgz /home");
             ("JOB_SCHEDULE", "0 3 * * *");
             ("START_TS", "2024-01-01T00:00:00Z");
             ("END_TS", "2024-01-01T00:00:10Z");
             ("EXIT_CODE", "2"); ("ATTEMPT", "3") ].

(** A path as [Path] and [/] build them. *)
Definition normal_path (p : PosixPath) : Prop :=
  (root p = "" \/ root p = "/" \/ root p = "//")
  /\ Forall (fun x => is_component x = true) (parts p).

(** What [fs'] has and [fs] has not are directories at the path [l] or
    above it. *)
Definition only_adds (abs : bool) (l : list string) (fs fs' : FS) : Prop :=
  forall k,
    fs_lookup fs' k = fs_lookup fs k
    \/ (fs_lookup fs k = None /\ fs_lookup fs' k = Some Dir
        /\ exists i, k = (abs, firstn i l)).

(** The world at another time. *)
Definition setclock (c : datetime) (w : World) : World :=
  {| environ := environ w; clock := c; fs := fs w;
     faults := faults w; stdout := stdout w; stderr := stderr w |}.


Section Histories.
Context `{rt : Runtime}.


End Histories.

(** * Properties *)

(** ** Lines of text *)

Lemma count_newlines_app (a b : string) :
  count_newlines (a +:+ b) = (count_newlines a + count_newlines b)%nat.
Proof.
  induction a as [|c a IH]; simpl; [reflexivity|].
  rewrite IH. lia.
Qed.

Lemma count_newlines_nl : count_newlines nl = 1%nat.
Proof. reflexivity. Qed.

(** ** Induction on values, through the lists they nest in *)

Section value_induction.

Variable P : value -> Prop.
Hypothesis HNone : P JNone.
Hypothesis HBool : forall b, P (JBool b).
Hypothesis HInt : forall n, P (JInt n).
Hypothesis HFloat : forall x, P (JFloat x).
Hypothesis HStr : forall s, P (JStr s).
Hypothesis HList : forall l, Forall P l -> P (JList l).
Hypothesis HDict : forall d : dict, Forall (fun kv => P (snd kv)) d -> P (JDict d).

Fixpoint value_nested_ind (v : value) : P v :=
  match v with
  | JNone => HNone
  | JBool b => HBool b
  | JInt n => HInt n
  | JFloat x => HFloat x
  | JStr s => HStr s
  | JList l =>
      HList l
        ((fix go (l : list value) : Forall P l :=
            match l with
            | [] => @List.Forall_nil _ P
            | x :: l' => @List.Forall_cons _ P x l' (value_nested_ind x) (go l')
            end) l)
  | JDict d =>
      HDict d
        ((fix go (d : dict) : Forall (fun kv => P (snd kv)) d :=
            match d with
            | [] => @List.Forall_nil _ _
            | kv :: d' => @List.Forall_cons _ (fun kv => P (snd kv)) kv d' (value_nested_ind (snd kv)) (go d')
            end) d)
  end.

End value_induction.

(** ** The reference printer writes one line *)

Module ReferenceFacts.
Import Reference.

Lemma digit_char_line (d : Z) : Ascii.eqb (digit_char d) newline = false.
Proof.
  unfold digit_char.
  repeat match goal with
         | |- context [match ?x with _ => _ end] => destruct x
         end; reflexivity.
Qed.

Lemma hex_char_line (d : Z) : Ascii.eqb (hex_char d) newline = false.
Proof.
  unfold hex_char.
  repeat match goal with
         | |- context [match ?x with _ => _ end] => destruct x
         end; try reflexivity; apply digit_char_line.
Qed.

Lemma show_digits_line (ds : list Z) : count_newlines (show_digits ds) = O.
Proof.
  unfold show_digits. induction ds as [|d ds IH]; simpl; [reflexivity|].
  rewrite digit_char_line, IH. reflexivity.
Qed.

Ltac one_line :=
  repeat first
    [ rewrite count_newlines_app
    | rewrite show_digits_line
    | match goal with
      | |- context [if ?b then _ else _] => destruct b
      end
    | reflexivity ].

Lemma int_repr_line (n : Z) : count_newlines (int_repr n) = O.
Proof. unfold int_repr. one_line. Qed.

Lemma positive_repr_line (num den : Z) : count_newlines (positive_repr num den) = O.
Proof. unfold positive_repr. cbv zeta. one_line. Qed.

Lemma float_repr_line (x : pyfloat) : count_newlines (float_repr x) = O.
Proof.
  destruct x as [q| |[]]; try reflexivity.
  unfold float_repr. one_line; simpl; apply positive_repr_line.
Qed.

Lemma ord_newline (c : ascii) : Ascii.eqb c newline = true -> ord c = 10.
Proof. intros H. apply Ascii.eqb_eq in H. subst c. reflexivity. Qed.

Lemma escape_char_line (c : ascii) : count_newlines (escape_char c) = O.
Proof.
  unfold escape_char.
  repeat match goal with
         | |- context [if ?b then _ else _] => destruct b eqn:?
         end; try reflexivity.
  - simpl. destruct (Ascii.eqb c newline) eqn:E; [|reflexivity].
    apply ord_newline in E. lia.
  - rewrite count_newlines_app. simpl.
    rewrite !hex_char_line. reflexivity.
Qed.

Lemma escape_line (s : string) : count_newlines (escape s) = O.
Proof.
  induction s as [|c s IH]; simpl; [reflexivity|].
  rewrite count_newlines_app, escape_char_line, IH. reflexivity.
Qed.

Lemma encode_str_line (s : string) : count_newlines (encode_str s) = O.
Proof.
  unfold encode_str. simpl. rewrite count_newlines_app, escape_line. reflexivity.
Qed.

Lemma dumps_line (v : value) : count_newlines (dumps v) = O.
Proof.
  induction v as [| [] | n | x | s | l IH | d IH] using value_nested_ind;
    try reflexivity.
  - apply int_repr_line.
  - apply float_repr_line.
  - apply encode_str_line.
  - simpl. rewrite count_newlines_app. simpl.
    destruct IH as [|x l Hx Hl]; [reflexivity|].
    rewrite !count_newlines_app, Hx. simpl.
    induction Hl as [|y l Hy Hl IH]; [reflexivity|].
    rewrite !count_newlines_app, Hy. simpl. exact IH.
  - simpl. rewrite count_newlines_app. simpl.
    destruct IH as [|[k x] d Hx Hd]; [reflexivity|].
    rewrite !count_newlines_app, encode_str_line. simpl in Hx |- *. rewrite Hx. simpl.
    induction Hd as [|[k' y] d Hy Hd IH]; [reflexivity|].
    rewrite !count_newlines_app, encode_str_line. simpl in Hy |- *. rewrite Hy. simpl.
    exact IH.
Qed.

End ReferenceFacts.

(** The reference runtime. *)
#[export] Instance reference_runtime : Runtime := {|
  json_loads := Reference.loads;
  json_dumps := Reference.dumps;
  int := Reference.int;
  fromisoformat := Reference.fromisoformat;
  json_loads_empty_object := eq_refl;
  int_minus_one := eq_refl;
  int_one := eq_refl;
  json_dumps_one_line := ReferenceFacts.dumps_line
|}.

(** ** The file system *)

(** *** What the operations keep *)

Lemma same_files_refl fs : same_files fs fs.
Proof. intros k. reflexivity. Qed.

Lemma same_files_trans fs1 fs2 fs3 :
  same_files fs1 fs2 -> same_files fs2 fs3 -> same_files fs1 fs3.
Proof. intros H1 H2 k. rewrite H2. apply H1. Qed.

Lemma dirs_kept_refl fs : dirs_kept fs fs.
Proof. intros k H. exact H. Qed.

Lemma dirs_kept_trans fs1 fs2 fs3 :
  dirs_kept fs1 fs2 -> dirs_kept fs2 fs3 -> dirs_kept fs1 fs3.
Proof. intros H1 H2 k H. apply H2, H1, H. Qed.

Lemma fs_lookup_insert_ne (fs : FS) (k k' : fskey) (n : node) :
  k <> k' -> fs_lookup (<[k := n]> fs) k' = fs_lookup fs k'.
Proof.
  intros Hne. unfold fs_lookup. destruct (snd k'); [reflexivity|].
  apply lookup_insert_ne. exact Hne.
Qed.

Lemma fs_lookup_insert_new (fs : FS) (k : fskey) (n : node) :
  fs_lookup fs k = None -> fs_lookup (<[k := n]> fs) k = Some n.
Proof.
  unfold fs_lookup. destruct (snd k); [discriminate|].
  intros _. apply lookup_insert_eq.
Qed.

(** A new node that is a directory or an empty file changes no content. *)
Lemma insert_new_same_files (fs : FS) (k : fskey) (n : node) :
  fs_lookup fs k = None -> n = Dir \/ n = File "" ->
  same_files fs (<[k := n]> fs).
Proof.
  intros Hk Hn k'. unfold file_content.
  destruct (decide (k = k')) as [<-|Hne].
  - rewrite (fs_lookup_insert_new _ _ _ Hk), Hk. destruct Hn; subst n; reflexivity.
  - rewrite (fs_lookup_insert_ne _ _ _ _ Hne). reflexivity.
Qed.

Lemma insert_new_dirs_kept (fs : FS) (k : fskey) (n : node) :
  fs_lookup fs k = None -> dirs_kept fs (<[k := n]> fs).
Proof.
  intros Hk k'. unfold is_dir.
  destruct (decide (k = k')) as [<-|Hne].
  - rewrite Hk. discriminate.
  - rewrite (fs_lookup_insert_ne _ _ _ _ Hne). auto.
Qed.

Lemma os_mkdir_keeps faults fs k fs' :
  os_mkdir faults fs k = inr fs' ->
  same_files fs fs' /\ dirs_kept fs fs' /\ is_dir fs' k = true.
Proof.
  unfold os_mkdir. intros H.
  repeat case_match; simplify_eq.
  split; [|split].
  - apply insert_new_same_files; auto.
  - apply insert_new_dirs_kept; auto.
  - unfold is_dir. rewrite fs_lookup_insert_new; auto.
Qed.

Lemma mkdir_exist_ok_keeps faults fs k fs' :
  mkdir_exist_ok faults fs k = inr fs' ->
  same_files fs fs' /\ dirs_kept fs fs' /\ is_dir fs' k = true.
Proof.
  unfold mkdir_exist_ok. intros H.
  destruct (os_mkdir faults fs k) as [e|fs1] eqn:Hm.
  - destruct (is_dir fs k) eqn:Hd; simplify_eq.
    auto using same_files_refl, dirs_kept_refl.
  - simplify_eq. eapply os_mkdir_keeps; eauto.
Qed.

(** [Path.mkdir] changes no file and removes no directory, whether it
    fails or not; when it does not fail, the path is a directory. *)
Lemma mkdir_parents_keeps faults abs rparts : forall fs r fs',
  mkdir_parents faults fs abs rparts = (r, fs') ->
  same_files fs fs' /\ dirs_kept fs fs'
  /\ (r = None -> is_dir fs' (abs, rev rparts) = true).
Proof.
  induction rparts as [|x rparent IH]; intros fs r fs' H; simpl in H.
  - destruct (os_mkdir faults fs (abs, [])) as [e|fs1] eqn:Hm.
    + repeat case_match; simplify_eq;
        (split; [apply same_files_refl|split; [apply dirs_kept_refl|]]);
        intros; try discriminate; reflexivity.
    + simplify_eq. destruct (os_mkdir_keeps _ _ _ _ Hm) as (?&?&?). auto.
  - destruct (os_mkdir faults fs (abs, (rev rparent ++ [x])%list)) as [e|fs1] eqn:Hm.
    + assert (Hother : forall r0 fs0,
                (if is_dir fs (abs, (rev rparent ++ [x])%list) then (None, fs) else (Some e, fs))
                = (r0, fs0) ->
                same_files fs fs0 /\ dirs_kept fs fs0
                /\ (r0 = None -> is_dir fs0 (abs, (rev rparent ++ [x])%list) = true)).
      { intros r0 fs0 H0. destruct (is_dir fs _) eqn:Hd; simplify_eq;
          (split; [apply same_files_refl|split; [apply dirs_kept_refl|]]);
          intros; try discriminate; assumption. }
      destruct e as [| | | | |kind msg|]; try (apply Hother; exact H).
      destruct kind; try (apply Hother; exact H).
      destruct (mkdir_parents faults fs abs rparent) as [[e|] fs1] eqn:Hp.
      * simplify_eq. destruct (IH _ _ _ Hp) as (?&?&?).
        split; [assumption|split; [assumption|]]. intros; discriminate.
      * destruct (IH _ _ _ Hp) as (Hf&Hd&_).
        destruct (mkdir_exist_ok faults fs1 (abs, (rev rparent ++ [x])%list)) as [e|fs2] eqn:Hx.
        -- simplify_eq. split; [assumption|split; [assumption|]]. intros; discriminate.
        -- simplify_eq. destruct (mkdir_exist_ok_keeps _ _ _ _ Hx) as (?&?&?).
           split; [eapply same_files_trans; eauto|].
           split; [eapply dirs_kept_trans; eauto|]. auto.
    + simplify_eq. destruct (os_mkdir_keeps _ _ _ _ Hm) as (?&?&?). auto.
Qed.

Lemma Path_mkdir_keeps faults fs p r fs' :
  Path_mkdir faults fs p = (r, fs') ->
  same_files fs fs' /\ dirs_kept fs fs'
  /\ (r = None -> is_dir fs' (fs_key p) = true).
Proof.
  unfold Path_mkdir. intros H.
  apply mkdir_parents_keeps in H. rewrite rev_involutive in H. exact H.
Qed.

Lemma os_open_append_keeps faults fs k fs' :
  os_open_append faults fs k = inr fs' ->
  same_files fs fs' /\ dirs_kept fs fs'.
Proof.
  unfold os_open_append. intros H.
  repeat case_match; simplify_eq;
    auto using same_files_refl, dirs_kept_refl, insert_new_same_files,
      insert_new_dirs_kept.
Qed.

(** A write appends its text to the one file and changes no other. *)
Lemma os_write_appends faults fs k text fs' :
  os_write faults fs k text = inr fs' -> snd k <> [] ->
  file_content fs' k = file_content fs k +:+ text
  /\ (forall k', k' <> k -> file_content fs' k' = file_content fs k')
  /\ dirs_kept fs fs'.
Proof.
  unfold os_write. intros H Hk.
  destruct (faults (sys_write k)) as [[]|]; [discriminate H|].
  destruct (fs !! k) as [[|c]|] eqn:Hc; simplify_eq.
  assert (Hl : fs_lookup fs k = Some (File c)).
  { unfold fs_lookup. destruct (snd k); [contradiction|exact Hc]. }
  split; [|split].
  - unfold file_content at 1 2. rewrite Hl.
    unfold fs_lookup. destruct (snd k); [contradiction|].
    rewrite lookup_insert_eq. reflexivity.
  - intros k' Hne. unfold file_content.
    rewrite fs_lookup_insert_ne; auto.
  - intros k'. unfold is_dir. destruct (decide (k = k')) as [<-|Hne].
    + rewrite Hl. discriminate.
    + rewrite fs_lookup_insert_ne; auto.
Qed.

Lemma metrics_file_parts d : snd (fs_key (metrics_file d)) <> [].
Proof.
  unfold metrics_file, joinpath, fs_key. cbn [snd parts].
  destruct (parts (Path d)); simpl; discriminate.
Qed.

(** ** The exceptions the operations raise *)

Lemma os_open_append_exn faults fs k e :
  os_open_append faults fs k = inl e -> is_IOError e = true.
Proof.
  unfold os_open_append, os_error. intros H.
  repeat case_match; simplify_eq; reflexivity.
Qed.

Lemma os_write_exn faults fs k text e :
  os_write faults fs k text = inl e -> is_IOError e = true.
Proof.
  unfold os_write, os_error. intros H.
  repeat case_match; simplify_eq; reflexivity.
Qed.

Lemma datetime_sub_exn a b e : datetime_sub a b = inl e -> e = TypeError.
Proof.
  unfold datetime_sub. intros H. repeat case_match; simplify_eq; reflexivity.
Qed.

Section AgentPaths.

Context `{rt : Runtime}.

(** The pieces are pieces of [main]. *)
Lemma main_paths_eq (w : World) : main w = main_paths w.
Proof.
  unfold main, main_paths, report_error.
  unfold bind at 1. unfold os_environ_get_default at 1.
  fold (getenv w "CONFIG_JSON" "{}").
  unfold bind at 1. unfold try_except, lift, json_loads_exn.
  destruct (json_loads (getenv w "CONFIG_JSON" "{}")) as [msg|config]; [reflexivity|].
  cbn [is_JSONDecodeError].
  unfold bind at 1. unfold os_environ_get.
  destruct (environ w !! "STATE_DIR") as [[|c d]|] eqn:Hd; [reflexivity| |reflexivity].
  set (state_dir := String c d).
  unfold bind at 1. unfold mkdir.
  destruct (Path_mkdir (faults w) (fs w) (Path state_dir)) as [[e|] fs1]; [reflexivity|].
  set (w1 := set_fs fs1 w).
  unfold bind, utcnow, os_environ_get_default, lift, int_exn.
  change (environ w1) with (environ w). change (clock w1) with (clock w).
  fold (getenv w "EXIT_CODE" "-1"). fold (getenv w "ATTEMPT" "1").
  destruct (int (getenv w "EXIT_CODE" "-1")) as [exit_code|]; [|reflexivity].
  destruct (int (getenv w "ATTEMPT" "1")) as [attempt|]; [|reflexivity].
  unfold get_method.
  destruct config as [| | | | | | config]; try reflexivity.
  unfold build_record, add_duration, add_custom, custom_metrics, parse_ts,
    fromisoformat_exn, replace_method, base_metrics, getenv, now, try_except, ret.
  set (cm := match dict_lookup "metrics" config with Some v => v | None => JDict [] end).
  set (start_ts := match environ w !! "START_TS" with Some s => s | None => "" end).
  set (end_ts := match environ w !! "END_TS" with Some s => s | None => "" end).
  unfold open_append_write, print, sys_exit, raise, print_stderr, metrics_file, ok_output.
  destruct (truthy cm); cbn [getitem dict_lookup dict_setitem String.eqb Ascii.eqb Bool.eqb truthy].
  all: destruct (String.eqb start_ts "") eqn:Hs; cbn [negb andb orb];
    [| destruct (String.eqb end_ts "") eqn:He; cbn [negb andb orb]].
  all: try (destruct (fromisoformat (str_replace "Z" "+00:00" start_ts)) as [start|];
            cbn [is_ValueError_or_AttributeError];
            [ destruct (fromisoformat (str_replace "Z" "+00:00" end_ts)) as [end_|];
              cbn [is_ValueError_or_AttributeError];
              [ destruct (datetime_sub end_ start) as [e|delta] eqn:Hsub;
                [ apply datetime_sub_exn in Hsub; subst e; reflexivity | ]
              | ]
            | ]).
  all: subst w1; cbn [faults fs set_fs stderr stdout];
    destruct (os_open_append _ _ _) as [e|fs2] eqn:Ho;
    [ rewrite (os_open_append_exn _ _ _ _ Ho); reflexivity
    | destruct (os_write _ _ _ _) as [e|fs3] eqn:Hw;
      [ rewrite (os_write_exn _ _ _ _ _ Hw); reflexivity | reflexivity ] ].
Qed.

End AgentPaths.

(** ** Dictionaries *)

Lemma dict_lookup_setitem_eq k v (d : dict) : dict_lookup k (dict_setitem k v d) = Some v.
Proof.
  induction d as [|[k' v'] d IH]; simpl.
  - rewrite String.eqb_refl. reflexivity.
  - destruct (String.eqb k k') eqn:E; simpl; rewrite E; [reflexivity|exact IH].
Qed.

Lemma dict_lookup_setitem_ne k k' v (d : dict) :
  k <> k' -> dict_lookup k (dict_setitem k' v d) = dict_lookup k d.
Proof.
  intros Hne. induction d as [|[k0 v0] d IH]; simpl.
  - apply String.eqb_neq in Hne. rewrite Hne. reflexivity.
  - destruct (String.eqb k' k0) eqn:E; simpl.
    + apply String.eqb_eq in E. subst k0.
      apply String.eqb_neq in Hne. rewrite Hne. reflexivity.
    + destruct (String.eqb k k0); [reflexivity|exact IH].
Qed.

Lemma string_eqb_empty s : String.eqb s "" = false <-> s <> "".
Proof. apply String.eqb_neq. Qed.

Section AgentFacts.
Context `{rt : Runtime}.

(** *** The record *)

Lemma add_custom_lookup custom metrics k :
  k <> "custom" ->
  dict_lookup k (add_custom custom metrics) = dict_lookup k metrics.
Proof.
  intros Hk. unfold add_custom. destruct (truthy custom); [|reflexivity].
  apply dict_lookup_setitem_ne. exact Hk.
Qed.

Lemma add_custom_custom custom metrics :
  dict_lookup "custom" metrics = None ->
  dict_lookup "custom" (add_custom custom metrics)
  = if truthy custom then Some custom else None.
Proof.
  intros H. unfold add_custom. destruct (truthy custom); [|exact H].
  apply dict_lookup_setitem_eq.
Qed.

(** The duration step leaves every other key as it is. *)
Lemma add_duration_lookup start_ts end_ts metrics metrics' k :
  add_duration start_ts end_ts metrics = inr metrics' ->
  k <> "duration_sec" ->
  dict_lookup k metrics' = dict_lookup k metrics.
Proof.
  unfold add_duration. intros H Hk.
  repeat case_match; simplify_eq; try reflexivity.
  apply dict_lookup_setitem_ne. exact Hk.
Qed.

(** When it sets the key. *)
Lemma add_duration_duration start_ts end_ts metrics metrics' :
  add_duration start_ts end_ts metrics = inr metrics' ->
  dict_lookup "duration_sec" metrics = None ->
  (start_ts <> "" /\ end_ts <> ""
   /\ exists s e delta,
        parse_ts start_ts = Some s /\ parse_ts end_ts = Some e
        /\ datetime_sub e s = inr delta
        /\ dict_lookup "duration_sec" metrics' = Some (JFloat (total_seconds delta)))
  \/ ((start_ts = "" \/ end_ts = "" \/ parse_ts start_ts = None \/ parse_ts end_ts = None)
      /\ metrics' = metrics /\ dict_lookup "duration_sec" metrics' = None).
Proof.
  unfold add_duration. intros H Hnone.
  destruct (String.eqb start_ts "") eqn:Es; simpl in H.
  { apply String.eqb_eq in Es. simplify_eq. right. auto. }
  destruct (String.eqb end_ts "") eqn:Ee; simpl in H.
  { apply String.eqb_eq in Ee. simplify_eq. right. auto. }
  apply String.eqb_neq in Es, Ee.
  destruct (parse_ts start_ts) as [s|]; [|simplify_eq; right; auto 6].
  destruct (parse_ts end_ts) as [e|]; [|simplify_eq; right; auto 6].
  destruct (datetime_sub e s) as [x|delta] eqn:Hsub; simplify_eq.
  left. split; [assumption|]. split; [assumption|].
  exists s, e, delta. rewrite dict_lookup_setitem_eq. auto.
Qed.

(** A timestamp that is missing or does not parse: the step cannot
    raise. *)
Lemma add_duration_unparsed start_ts end_ts metrics :
  start_ts = "" \/ end_ts = "" \/ parse_ts start_ts = None \/ parse_ts end_ts = None ->
  add_duration start_ts end_ts metrics = inr metrics.
Proof.
  unfold add_duration. intros H.
  destruct (String.eqb start_ts "") eqn:Es; [reflexivity|].
  destruct (String.eqb end_ts "") eqn:Ee; [reflexivity|].
  apply String.eqb_neq in Es, Ee. simpl.
  destruct H as [H|[H|[H|H]]]; try contradiction.
  - rewrite H. reflexivity.
  - rewrite H. destruct (parse_ts start_ts); reflexivity.
Qed.

(** The step raises exactly on timestamps that both parse, one of them
    aware and the other naive; what it raises is [TypeError]. *)
Lemma add_duration_raises start_ts end_ts metrics e :
  add_duration start_ts end_ts metrics = inl e ->
  e = TypeError
  /\ start_ts <> "" /\ end_ts <> ""
  /\ exists s e', parse_ts start_ts = Some s /\ parse_ts end_ts = Some e'
                  /\ (tzinfo s = None <-> tzinfo e' <> None).
Proof.
  unfold add_duration. intros H.
  destruct (String.eqb start_ts "") eqn:Es; [discriminate H|].
  destruct (String.eqb end_ts "") eqn:Ee; [discriminate H|].
  apply String.eqb_neq in Es, Ee. simpl in H.
  destruct (parse_ts start_ts) as [s|]; [|discriminate H].
  destruct (parse_ts end_ts) as [e'|]; [|discriminate H].
  destruct (datetime_sub e' s) as [x|delta] eqn:Hsub; simplify_eq.
  split; [eapply datetime_sub_exn; eauto|].
  split; [assumption|]. split; [assumption|].
  exists s, e'. split; [reflexivity|]. split; [reflexivity|].
  unfold datetime_sub in Hsub.
  destruct (tzinfo e'), (tzinfo s); simplify_eq; split; intros; congruence.
Qed.

Lemma add_duration_total start_ts end_ts metrics :
  ~ (start_ts <> "" /\ end_ts <> ""
     /\ exists s e, parse_ts start_ts = Some s /\ parse_ts end_ts = Some e
                    /\ (tzinfo s = None <-> tzinfo e <> None)) ->
  exists metrics', add_duration start_ts end_ts metrics = inr metrics'.
Proof.
  intros Hn. destruct (add_duration start_ts end_ts metrics) as [e|m] eqn:H.
  - apply add_duration_raises in H as (_&H). contradiction.
  - eauto.
Qed.

End AgentFacts.

(** ** The runs of [main] *)

Lemma os_mkdir_exn faults fs k e :
  os_mkdir faults fs k = inl e -> is_IOError e = true.
Proof.
  unfold os_mkdir, os_error. intros H.
  repeat case_match; simplify_eq; reflexivity.
Qed.

Lemma mkdir_exist_ok_exn faults fs k e :
  mkdir_exist_ok faults fs k = inl e -> is_IOError e = true.
Proof.
  unfold mkdir_exist_ok. intros H.
  destruct (os_mkdir faults fs k) as [e'|] eqn:Hm; [|discriminate H].
  destruct (is_dir fs k); simplify_eq. eapply os_mkdir_exn; eauto.
Qed.

(** What [Path.mkdir] raises is an [OSError]. *)
Lemma mkdir_parents_exn faults abs rparts : forall fs e fs',
  mkdir_parents faults fs abs rparts = (Some e, fs') -> is_IOError e = true.
Proof.
  induction rparts as [|x rparent IH]; intros fs e fs' H; simpl in H.
  - destruct (os_mkdir faults fs (abs, [])) as [e'|] eqn:Hm; [|discriminate H].
    apply os_mkdir_exn in Hm.
    repeat case_match; simplify_eq; assumption.
  - destruct (os_mkdir faults fs (abs, (rev rparent ++ [x])%list)) as [e'|] eqn:Hm;
      [|discriminate H].
    apply os_mkdir_exn in Hm.
    destruct e' as [| | | | |kind msg|]; try discriminate Hm.
    destruct kind;
      try (destruct (is_dir fs _); simplify_eq; reflexivity).
    destruct (mkdir_parents faults fs abs rparent) as [[e1|] fs1] eqn:Hp.
    + simplify_eq. eapply IH; eauto.
    + destruct (mkdir_exist_ok faults fs1 _) as [e2|] eqn:Hx; simplify_eq.
      eapply mkdir_exist_ok_exn; eauto.
Qed.

Lemma Path_mkdir_exn faults fs p e fs' :
  Path_mkdir faults fs p = (Some e, fs') -> is_IOError e = true.
Proof. apply mkdir_parents_exn. Qed.

Lemma is_IOError_uncaught e : is_IOError e = true -> uncaught (inl e).
Proof. destruct e; simpl; intros; try discriminate; exact I. Qed.

Section AgentRuns.
Context `{rt : Runtime}.

(** *** The successful path *)

Lemma state_dir_cases (A : Type) (d : string) (a b : A) :
  d <> "" -> match d with EmptyString => a | String _ _ => b end = b.
Proof. destruct d; [contradiction|reflexivity]. Qed.

(** The equations of the successful path give its result. *)
Lemma main_success_eq w state_dir config exit_code attempt metrics fs1 fs2 fs3 :
  json_loads (getenv w "CONFIG_JSON" "{}") = inr (JDict config) ->
  environ w !! "STATE_DIR" = Some state_dir -> state_dir <> "" ->
  Path_mkdir (faults w) (fs w) (Path state_dir) = (None, fs1) ->
  int (getenv w "EXIT_CODE" "-1") = Some exit_code ->
  int (getenv w "ATTEMPT" "1") = Some attempt ->
  build_record w config exit_code attempt = inr metrics ->
  os_open_append (faults w) fs1 (fs_key (metrics_file state_dir)) = inr fs2 ->
  os_write (faults w) fs2 (fs_key (metrics_file state_dir))
    (json_dumps (JDict metrics) +:+ nl) = inr fs3 ->
  main w = (inl (SystemExit 0),
            set_stdout (stdout w +:+ json_dumps (ok_output (metrics_file state_dir)) +:+ nl)
              (set_fs fs3 w)).
Proof.
  intros Hc Hd Hne Hm He Ha Hr Ho Hw.
  rewrite main_paths_eq. unfold main_paths.
  rewrite Hc, Hd. destruct state_dir as [|c d]; [contradiction|].
  rewrite Hm, He, Ha, Hr. cbv zeta. rewrite Ho, Hw. reflexivity.
Qed.

Lemma success_intro w state_dir config exit_code attempt metrics fs1 fs2 fs3 :
  json_loads (getenv w "CONFIG_JSON" "{}") = inr (JDict config) ->
  environ w !! "STATE_DIR" = Some state_dir -> state_dir <> "" ->
  Path_mkdir (faults w) (fs w) (Path state_dir) = (None, fs1) ->
  int (getenv w "EXIT_CODE" "-1") = Some exit_code ->
  int (getenv w "ATTEMPT" "1") = Some attempt ->
  build_record w config exit_code attempt = inr metrics ->
  os_open_append (faults w) fs1 (fs_key (metrics_file state_dir)) = inr fs2 ->
  os_write (faults w) fs2 (fs_key (metrics_file state_dir))
    (json_dumps (JDict metrics) +:+ nl) = inr fs3 ->
  success w state_dir config metrics.
Proof.
  intros Hc Hd Hne Hm He Ha Hr Ho Hw.
  pose proof (main_success_eq _ _ _ _ _ _ _ _ _ Hc Hd Hne Hm He Ha Hr Ho Hw) as Hmain.
  destruct (Path_mkdir_keeps _ _ _ _ _ Hm) as (Hf1 & Hd1 & Hdir).
  destruct (os_open_append_keeps _ _ _ _ Ho) as (Hf2 & Hd2).
  destruct (os_write_appends _ _ _ _ _ Hw (metrics_file_parts state_dir))
    as (Hf3 & Hf3' & Hd3).
  split; try assumption; rewrite ?Hmain; cbn [fst snd fs set_fs set_stdout stdout stderr].
  - eauto.
  - reflexivity.
  - rewrite Hf3, Hf2, Hf1. reflexivity.
  - intros k Hk. rewrite (Hf3' k Hk), Hf2, Hf1. reflexivity.
  - eapply dirs_kept_trans; [|exact Hd3].
    eapply dirs_kept_trans; [exact Hd1|exact Hd2].
  - apply Hd3, Hd2, Hdir. reflexivity.
  - reflexivity.
  - reflexivity.
Qed.

(** An invocation that ends with status 0 went down the successful
    path. *)
Lemma main_exit0_inv w :
  (main w).1 = inl (SystemExit 0) ->
  exists state_dir config metrics, success w state_dir config metrics.
Proof.
  intros H. pose proof H as H0.
  rewrite main_paths_eq in H. unfold main_paths, report_error in H.
  destruct (json_loads (getenv w "CONFIG_JSON" "{}")) as [msg|config] eqn:Hc;
    [discriminate H|].
  destruct (environ w !! "STATE_DIR") as [state_dir|] eqn:Hd; [|discriminate H].
  destruct state_dir as [|c d]; [discriminate H|].
  destruct (Path_mkdir (faults w) (fs w) (Path (String c d))) as [[e|] fs1] eqn:Hm;
    [simpl in H; apply Path_mkdir_exn in Hm; simplify_eq; discriminate Hm|].
  destruct (int (getenv w "EXIT_CODE" "-1")) as [exit_code|] eqn:He; [|discriminate H].
  destruct (int (getenv w "ATTEMPT" "1")) as [attempt|] eqn:Ha; [|discriminate H].
  destruct config as [| | | | | |config]; try discriminate H.
  destruct (build_record w config exit_code attempt) as [e|metrics] eqn:Hr.
  { simpl in H. apply add_duration_raises in Hr as (->&_). discriminate H. }
  cbv zeta in H.
  destruct (os_open_append _ _ _) as [e|fs2] eqn:Ho; [discriminate H|].
  destruct (os_write _ _ _ _) as [e|fs3] eqn:Hw; [discriminate H|].
  exists (String c d), config, metrics.
  eapply success_intro; eauto.
Qed.

(** Where the specification's conditions for success hold, and the
    timestamps are not one aware and one naive, the invocation succeeds. *)
Lemma main_succeeds w state_dir :
  config_is_object w ->
  environ w !! "STATE_DIR" = Some state_dir -> state_dir <> "" ->
  int_or_unset w "EXIT_CODE" -> int_or_unset w "ATTEMPT" ->
  fs_succeeds w state_dir ->
  ~ mixed_timestamps w ->
  exists config metrics, success w state_dir config metrics.
Proof.
  intros Hc Hd Hne He Ha (fs1 & fs2 & Hm & Ho & Hw) Hmix.
  assert (exists config, json_loads (getenv w "CONFIG_JSON" "{}") = inr (JDict config))
    as [config Hc'].
  { unfold getenv. destruct Hc as [Hc|(s & config & Hc & Hs)]; rewrite Hc.
    - exists []. apply json_loads_empty_object.
    - eauto. }
  assert (exists n, int (getenv w "EXIT_CODE" "-1") = Some n) as [exit_code He'].
  { unfold int_or_unset, getenv in *. destruct (environ w !! "EXIT_CODE"); [exact He|].
    eexists. apply int_minus_one. }
  assert (exists n, int (getenv w "ATTEMPT" "1") = Some n) as [attempt Ha'].
  { unfold int_or_unset, getenv in *. destruct (environ w !! "ATTEMPT"); [exact Ha|].
    eexists. apply int_one. }
  destruct (add_duration_total (getenv w "START_TS" "") (getenv w "END_TS" "")
              (add_custom (custom_metrics config) (base_metrics w exit_code attempt)))
    as [metrics Hr].
  { exact Hmix. }
  destruct (Hw (json_dumps (JDict metrics) +:+ nl)) as [fs3 Hw'].
  exists config, metrics. eapply success_intro; eauto.
Qed.

End AgentRuns.

(** ** Parents of the state directory *)

Lemma os_mkdir_wf faults fs k fs' :
  os_mkdir faults fs k = inr fs' -> fs_wf fs -> fs_wf fs'.
Proof.
  intros Hm Hwf k' n Hk'.
  destruct (os_mkdir_keeps _ _ _ _ Hm) as (_ & Hd & _).
  unfold os_mkdir in Hm.
  destruct (faults (sys_mkdir k)) as [[]|]; [discriminate Hm|].
  destruct (fs_lookup fs k) eqn:Hk; [discriminate Hm|].
  destruct (fs_lookup fs (fs_parent k)) as [[|c]|] eqn:Hp; simplify_eq.
  destruct (decide (k = k')) as [<-|Hne].
  - apply Hd. unfold is_dir. rewrite Hp. reflexivity.
  - rewrite fs_lookup_insert_ne in Hk' by assumption.
    apply Hd. eapply Hwf; eauto.
Qed.

Lemma mkdir_exist_ok_wf faults fs k fs' :
  mkdir_exist_ok faults fs k = inr fs' -> fs_wf fs -> fs_wf fs'.
Proof.
  unfold mkdir_exist_ok. intros H Hwf.
  destruct (os_mkdir faults fs k) as [e|fs1] eqn:Hm.
  - destruct (is_dir fs k); simplify_eq. exact Hwf.
  - simplify_eq. eapply os_mkdir_wf; eauto.
Qed.

Lemma mkdir_parents_wf faults abs rparts : forall fs r fs',
  mkdir_parents faults fs abs rparts = (r, fs') -> fs_wf fs -> fs_wf fs'.
Proof.
  induction rparts as [|x rparent IH]; intros fs r fs' H Hwf; simpl in H.
  - destruct (os_mkdir faults fs (abs, [])) as [e|fs1] eqn:Hm.
    + repeat case_match; simplify_eq; exact Hwf.
    + simplify_eq. eapply os_mkdir_wf; eauto.
  - destruct (os_mkdir faults fs (abs, (rev rparent ++ [x])%list)) as [e|fs1] eqn:Hm.
    + assert (Hother : forall r0 fs0,
                (if is_dir fs (abs, (rev rparent ++ [x])%list)
                 then (None, fs) else (Some e, fs)) = (r0, fs0) -> fs_wf fs0).
      { intros r0 fs0 H0. destruct (is_dir fs _); simplify_eq; exact Hwf. }
      destruct e as [| | | | |kind msg|]; try (eapply Hother; exact H).
      destruct kind; try (eapply Hother; exact H).
      destruct (mkdir_parents faults fs abs rparent) as [[e|] fs1] eqn:Hp.
      * simplify_eq. eapply IH; eauto.
      * pose proof (IH _ _ _ Hp Hwf) as Hwf1.
        destruct (mkdir_exist_ok faults fs1 _) as [e|fs2] eqn:Hx; simplify_eq.
        -- exact Hwf1.
        -- eapply mkdir_exist_ok_wf; eauto.
    + simplify_eq. eapply os_mkdir_wf; eauto.
Qed.

(** In a well-formed tree every ancestor of a directory is a directory. *)
Lemma ancestors_are_dirs fs abs : forall l,
  fs_wf fs -> is_dir fs (abs, l) = true ->
  forall i, is_dir fs (abs, firstn i l) = true.
Proof.
  intros l Hwf. induction l as [|x l IH] using rev_ind; intros Hd i.
  - rewrite firstn_nil. reflexivity.
  - assert (Hparent : is_dir fs (abs, l) = true).
    { unfold is_dir in Hd. destruct (fs_lookup fs (abs, (l ++ [x])%list)) as [n|] eqn:Hk;
        [|discriminate Hd].
      pose proof (Hwf _ _ Hk) as Hp. unfold fs_parent in Hp. simpl in Hp.
      rewrite removelast_last in Hp. exact Hp. }
    destruct (Nat.le_gt_cases i (length l)) as [Hi|Hi].
    + rewrite firstn_app. replace (i - length l)%nat with O by lia.
      rewrite firstn_O, app_nil_r. apply IH, Hparent.
    + rewrite firstn_all2; [exact Hd|]. rewrite length_app. simpl. lia.
Qed.

Lemma Path_mkdir_ancestors faults fs p fs' :
  Path_mkdir faults fs p = (None, fs') -> fs_wf fs ->
  forall i, is_dir fs' (fst (fs_key p), firstn i (parts p)) = true.
Proof.
  intros Hm Hwf i.
  apply ancestors_are_dirs.
  - unfold Path_mkdir in Hm. eapply mkdir_parents_wf; eauto.
  - destruct (Path_mkdir_keeps _ _ _ _ _ Hm) as (_ & _ & Hd). apply Hd. reflexivity.
Qed.

Lemma empty_fs_wf : fs_wf ∅.
Proof.
  intros k n. unfold fs_lookup. destruct (snd k) eqn:E.
  - intros _. unfold is_dir, fs_lookup, fs_parent. simpl. rewrite E. reflexivity.
  - rewrite lookup_empty. discriminate.
Qed.

(** * The statements of the specification *)

(** ** Failures, handled and not, and the defaults *)

Section Claims.
Context `{rt : Runtime}.

Lemma uncaught_exit_status r : uncaught r -> exit_status r = 1.
Proof. destruct r as [[]|]; simpl; intros; try contradiction; reflexivity. Qed.

Lemma getenv_set w name default s :
  environ w !! name = Some s -> getenv w name default = s.
Proof. unfold getenv. intros ->. reflexivity. Qed.

Lemma getenv_unset w name default :
  environ w !! name = None -> getenv w name default = default.
Proof. unfold getenv. intros ->. reflexivity. Qed.



(** C6: an [EXIT_CODE] or [ATTEMPT] that is not an integer ends the
    invocation with an exception nobody handles: the status is not 0, the
    script writes nothing to either stream, and no file changes. *)
Theorem C6_malformed_integer (w : World) (config : value) (state_dir : string) :
  json_loads (getenv w "CONFIG_JSON" "{}") = inr config ->
  environ w !! "STATE_DIR" = Some state_dir -> state_dir <> "" ->
  (exists s, environ w !! "EXIT_CODE" = Some s /\ int s = None)
  \/ (exists s, environ w !! "ATTEMPT" = Some s /\ int s = None) ->
  uncaught (main w).1
  /\ exit_status (main w).1 = 1
  /\ stderr (main w).2 = stderr w
  /\ stdout (main w).2 = stdout w
  /\ same_files (fs w) (fs (main w).2).
Proof.
  intros Hc Hd Hne Hbad.
  assert (uncaught (main w).1 /\ stderr (main w).2 = stderr w
          /\ stdout (main w).2 = stdout w /\ same_files (fs w) (fs (main w).2)) as H.
  { rewrite main_paths_eq. unfold main_paths. rewrite Hc, Hd.
    destruct state_dir as [|c d]; [contradiction|].
    destruct (Path_mkdir (faults w) (fs w) (Path (String c d))) as [[e|] fs1] eqn:Hm.
    - destruct (Path_mkdir_keeps _ _ _ _ _ Hm) as (Hf & _).
      apply Path_mkdir_exn, is_IOError_uncaught in Hm. repeat split; assumption.
    - destruct (Path_mkdir_keeps _ _ _ _ _ Hm) as (Hf & _).
      destruct Hbad as [(s & Hs & Hi)|(s & Hs & Hi)].
      + rewrite (getenv_set _ _ _ _ Hs), Hi. repeat split; assumption.
      + destruct (int (getenv w "EXIT_CODE" "-1")); [|repeat split; assumption].
        rewrite (getenv_set _ _ _ _ Hs), Hi. repeat split; assumption. }
  destruct H as (Hu & He & Ho & Hf).
  repeat split; try assumption. apply uncaught_exit_status, Hu.
Qed.

(** C8: in the record an invocation appends, a variable that is absent
    has its default: [unknown] for the three identifiers, the empty string
    for the command, the schedule and the two timestamps, -1 for the exit
    code and 1 for the attempt. *)
Theorem C8_defaults (w : World) :
  (main w).1 = inl (SystemExit 0) ->
  exists state_dir config metrics,
    success w state_dir config metrics
    /\ (environ w !! "JOB_ID" = None -> dict_lookup "job_id" metrics = Some (JStr "unknown"))
    /\ (environ w !! "RUN_ID" = None -> dict_lookup "run_id" metrics = Some (JStr "unknown"))
    /\ (environ w !! "HOOK" = None -> dict_lookup "hook" metrics = Some (JStr "unknown"))
    /\ (environ w !! "JOB_COMMAND" = None -> dict_lookup "job_command" metrics = Some (JStr ""))
    /\ (environ w !! "JOB_SCHEDULE" = None -> dict_lookup "job_schedule" metrics = Some (JStr ""))
    /\ (environ w !! "START_TS" = None -> dict_lookup "start_ts" metrics = Some (JStr ""))
    /\ (environ w !! "END_TS" = None -> dict_lookup "end_ts" metrics = Some (JStr ""))
    /\ (environ w !! "EXIT_CODE" = None -> dict_lookup "exit_code" metrics = Some (JInt (-1)))
    /\ (environ w !! "ATTEMPT" = None -> dict_lookup "attempt" metrics = Some (JInt 1)).
Proof.
  intros H. destruct (main_exit0_inv w H) as (state_dir & config & metrics & Hs).
  exists state_dir, config, metrics. split; [exact Hs|].
  destruct (ok_record _ _ _ _ Hs) as (exit_code & attempt & He & Ha & Hr).
  unfold build_record in Hr.
  assert (Hbase : forall k, k <> "duration_sec" -> k <> "custom" ->
            dict_lookup k metrics = dict_lookup k (base_metrics w exit_code attempt)).
  { intros k Hk1 Hk2. rewrite (add_duration_lookup _ _ _ _ _ Hr Hk1).
    apply add_custom_lookup, Hk2. }
  repeat split; intros Hn; rewrite Hbase by discriminate; simpl;
    rewrite ?(getenv_unset _ _ _ Hn); try reflexivity.
  - rewrite (getenv_unset _ _ _ Hn), int_minus_one in He. congruence.
  - rewrite (getenv_unset _ _ _ Hn), int_one in Ha. congruence.
Qed.

End Claims.

(** ** The log only grows *)

Lemma append_assoc (a b c : string) : (a +:+ b) +:+ c = a +:+ (b +:+ c).
Proof.
  induction a as [|x a IH]; [reflexivity|].
  change (String x ((a +:+ b) +:+ c) = String x (a +:+ (b +:+ c))).
  f_equal. exact IH.
Qed.

Lemma append_empty_r (a : string) : a +:+ "" = a.
Proof.
  induction a as [|x a IH]; [reflexivity|].
  change (String x (a +:+ "") = String x a). f_equal. exact IH.
Qed.

Section Invocations.
Context `{rt : Runtime}.

(** C7: a successful invocation adds one line, a text without a line
    terminator followed by one, to the end of [metrics.jsonl] and changes
    the content of no other file; [n] successful invocations on one
    [STATE_DIR] add [n] lines after what was there. *)
Theorem C7_append_only :
  (forall w, (main w).1 = inl (SystemExit 0) ->
     exists state_dir line,
       environ w !! "STATE_DIR" = Some state_dir
       /\ count_newlines line = O
       /\ file_content (fs (main w).2) (fs_key (metrics_file state_dir))
          = file_content (fs w) (fs_key (metrics_file state_dir)) +:+ line +:+ nl
       /\ forall k, k <> fs_key (metrics_file state_dir) ->
            file_content (fs (main w).2) k = file_content (fs w) k)
  /\ (forall file n fs0 fs', invocations file n fs0 fs' ->
        exists added,
          file_content fs' file = file_content fs0 file +:+ added
          /\ count_newlines added = n).
Proof.
  assert (Hone : forall w, (main w).1 = inl (SystemExit 0) ->
     exists state_dir line,
       environ w !! "STATE_DIR" = Some state_dir
       /\ count_newlines line = O
       /\ file_content (fs (main w).2) (fs_key (metrics_file state_dir))
          = file_content (fs w) (fs_key (metrics_file state_dir)) +:+ line +:+ nl
       /\ forall k, k <> fs_key (metrics_file state_dir) ->
            file_content (fs (main w).2) k = file_content (fs w) k).
  { intros w H. destruct (main_exit0_inv w H) as (state_dir & config & metrics & Hs).
    exists state_dir, (json_dumps (JDict metrics)).
    split; [apply (ok_state_dir _ _ _ _ Hs)|].
    split; [apply json_dumps_one_line|].
    split; [apply (ok_file _ _ _ _ Hs)|apply (ok_other_files _ _ _ _ Hs)]. }
  split; [exact Hone|].
  intros file n fs0 fs' Hinv.
  induction Hinv as [fs0|n w state_dir fs0 fs1 fs' Hfs0 Hexit Hdir Hfile Hfs1 Hinv IH].
  - exists "". split; [|reflexivity]. rewrite append_empty_r. reflexivity.
  - destruct (Hone w Hexit) as (state_dir' & line & Hdir' & Hline & Happ & _).
    assert (state_dir' = state_dir) by congruence. subst state_dir' fs0 fs1.
    rewrite Hfile in Happ.
    destruct IH as (added & Hadded & Hcount).
    exists (line +:+ nl +:+ added). split.
    + rewrite Hadded, Happ, !append_assoc. reflexivity.
    + rewrite !count_newlines_app, Hline, Hcount. reflexivity.
Qed.

End Invocations.

(** ** Timestamps, custom metrics and the unhandled paths *)

Section MoreClaims.
Context `{rt : Runtime}.

(** The conditions of C1 leave two ways to end: success, or the
    [TypeError] of timestamps of which one is aware and one naive. *)
Lemma main_succeeds_or_mixed (w : World) (state_dir : string) :
  config_is_object w ->
  environ w !! "STATE_DIR" = Some state_dir -> state_dir <> "" ->
  int_or_unset w "EXIT_CODE" -> int_or_unset w "ATTEMPT" ->
  fs_succeeds w state_dir ->
  (exists config metrics, success w state_dir config metrics)
  \/ (mixed_timestamps w /\ (main w).1 = inl TypeError).
Proof.
  intros Hc Hd Hne He Ha Hfs.
  destruct (add_duration (getenv w "START_TS" "") (getenv w "END_TS" "") [])
    as [e|m] eqn:Hdur.
  - right. apply add_duration_raises in Hdur as (-> & Hs & Hee & s & e' & Hps & Hpe & Htz).
    assert (Hmix : mixed_timestamps w) by (unfold mixed_timestamps; eauto 10).
    split; [exact Hmix|].
    destruct Hfs as (fs1 & fs2 & Hm & _).
    assert (exists config, json_loads (getenv w "CONFIG_JSON" "{}") = inr (JDict config))
      as [config Hc'].
    { unfold getenv. destruct Hc as [Hc|(s0 & config & Hc & Hs0)]; rewrite Hc.
      - exists []. apply json_loads_empty_object.
      - eauto. }
    assert (exists n, int (getenv w "EXIT_CODE" "-1") = Some n) as [exit_code He'].
    { unfold int_or_unset, getenv in *. destruct (environ w !! "EXIT_CODE"); [exact He|].
      eexists. apply int_minus_one. }
    assert (exists n, int (getenv w "ATTEMPT" "1") = Some n) as [attempt Ha'].
    { unfold int_or_unset, getenv in *. destruct (environ w !! "ATTEMPT"); [exact Ha|].
      eexists. apply int_one. }
    rewrite main_paths_eq. unfold main_paths. rewrite Hc', Hd.
    destruct state_dir as [|c d]; [contradiction|].
    rewrite Hm, He', Ha'. unfold build_record, add_duration.
    apply String.eqb_neq in Hs, Hee. rewrite Hs, Hee, Hps, Hpe. simpl.
    unfold datetime_sub. destruct (tzinfo e'), (tzinfo s); try reflexivity.
    + destruct Htz as [_ Htz]. discriminate Htz. discriminate.
    + destruct Htz as [Htz _]. exfalso. apply Htz; reflexivity.
  - left. apply main_succeeds; try assumption.
    intros (Hs & Hee & s & e' & Hps & Hpe & Htz).
    unfold add_duration in Hdur. apply String.eqb_neq in Hs, Hee.
    rewrite Hs, Hee, Hps, Hpe in Hdur. simpl in Hdur.
    unfold datetime_sub in Hdur.
    destruct (tzinfo e'), (tzinfo s); try discriminate Hdur.
    + destruct Htz as [_ Htz]. discriminate Htz. discriminate.
    + destruct Htz as [Htz _]. apply Htz; reflexivity.
Qed.


(** The appended record has the key [custom] exactly when the
    [metrics] entry of the configuration is present and true in Python's
    sense, and [custom] is then that entry as it was parsed; for an entry
    that is a mapping this is when the mapping is not empty, and without an
    entry there is no [custom]. *)
Lemma custom_metrics_general (w : World) (state_dir : string) (config metrics : dict) :
  success w state_dir config metrics ->
  dict_lookup "custom" metrics
  = (if truthy (custom_metrics config) then Some (custom_metrics config) else None)
  /\ (forall m, dict_lookup "metrics" config = Some (JDict m) ->
        (m <> [] -> dict_lookup "custom" metrics = Some (JDict m))
        /\ (m = [] -> dict_lookup "custom" metrics = None))
  /\ (dict_lookup "metrics" config = None -> dict_lookup "custom" metrics = None).
Proof.
  intros Hs.
  destruct (ok_record _ _ _ _ Hs) as (exit_code & attempt & _ & _ & Hr).
  unfold build_record in Hr.
  assert (Hc : dict_lookup "custom" metrics
               = if truthy (custom_metrics config)
                 then Some (custom_metrics config) else None).
  { rewrite (add_duration_lookup _ _ _ _ _ Hr) by discriminate.
    apply add_custom_custom. reflexivity. }
  split; [exact Hc|]. split.
  - intros m Hm. rewrite Hc. unfold custom_metrics. rewrite Hm.
    destruct m; simpl; split; congruence.
  - intros Hm. rewrite Hc. unfold custom_metrics. rewrite Hm. reflexivity.
Qed.


(** C10, amended: where the open or the write of [metrics.jsonl] fails,
    the failure is reported on the error stream with status 1; the state
    directory is a directory afterwards, as are, in a well-formed tree, all
    its parents; no directory is lost and no file changes its content; and
    the file system is the one the directory creation left, except that a
    [metrics.jsonl] that did not exist is there, empty, if the open
    succeeded and it was the write that failed. *)
Theorem C10_write_failure (w : World) (state_dir : string) (config metrics : dict)
    (exit_code attempt : Z) (fs1 : FS) (e : exn) :
  json_loads (getenv w "CONFIG_JSON" "{}") = inr (JDict config) ->
  environ w !! "STATE_DIR" = Some state_dir -> state_dir <> "" ->
  Path_mkdir (faults w) (fs w) (Path state_dir) = (None, fs1) ->
  int (getenv w "EXIT_CODE" "-1") = Some exit_code ->
  int (getenv w "ATTEMPT" "1") = Some attempt ->
  build_record w config exit_code attempt = inr metrics ->
  os_open_append (faults w) fs1 (fs_key (metrics_file state_dir)) = inl e
  \/ (exists fs2,
        os_open_append (faults w) fs1 (fs_key (metrics_file state_dir)) = inr fs2
        /\ os_write (faults w) fs2 (fs_key (metrics_file state_dir))
             (json_dumps (JDict metrics) +:+ nl) = inl e) ->
  (main w).1 = inl (SystemExit 1)
  /\ exit_status (main w).1 = 1
  /\ stderr (main w).2
     = stderr w +:+ json_dumps (error_output ("Failed to write metrics: " +:+ str_exn e)) +:+ nl
  /\ stdout (main w).2 = stdout w
  /\ is_dir (fs (main w).2) (fs_key (Path state_dir)) = true
  /\ (fs_wf (fs w) -> forall i,
        is_dir (fs (main w).2)
          (fst (fs_key (Path state_dir)), firstn i (parts (Path state_dir))) = true)
  /\ dirs_kept (fs w) (fs (main w).2)
  /\ same_files (fs w) (fs (main w).2)
  /\ (fs (main w).2 = fs1
      \/ (fs_lookup fs1 (fs_key (metrics_file state_dir)) = None
          /\ fs (main w).2 = <[fs_key (metrics_file state_dir) := File ""]> fs1)).
Proof.
  intros Hc Hd Hne Hm He Ha Hr Hfail.
  destruct (Path_mkdir_keeps _ _ _ _ _ Hm) as (Hf1 & Hd1 & Hdir).
  specialize (Hdir eq_refl).
  assert (Hanc : fs_wf (fs w) -> forall i,
            is_dir fs1 (fst (fs_key (Path state_dir)), firstn i (parts (Path state_dir)))
            = true).
  { intros Hwf i. eapply Path_mkdir_ancestors; eauto. }
  assert (Hmain : exists fs',
            main w = (inl (SystemExit 1),
                      set_stderr (stderr w +:+ json_dumps (error_output
                                    ("Failed to write metrics: " +:+ str_exn e)) +:+ nl)
                        (set_fs fs' w))
            /\ same_files fs1 fs' /\ dirs_kept fs1 fs'
            /\ (fs' = fs1
                \/ (fs_lookup fs1 (fs_key (metrics_file state_dir)) = None
                    /\ fs' = <[fs_key (metrics_file state_dir) := File ""]> fs1))).
  { rewrite main_paths_eq. unfold main_paths, report_error. rewrite Hc, Hd.
    destruct state_dir as [|c d]; [contradiction|].
    rewrite Hm, He, Ha, Hr. cbv zeta.
    destruct Hfail as [Ho|(fs2 & Ho & Hw)]; rewrite Ho.
    - exists fs1. split; [reflexivity|].
      auto using same_files_refl, dirs_kept_refl.
    - rewrite Hw. exists fs2. split; [reflexivity|].
      destruct (os_open_append_keeps _ _ _ _ Ho) as (Hf2 & Hd2).
      split; [exact Hf2|]. split; [exact Hd2|].
      unfold os_open_append in Ho.
      repeat case_match; simplify_eq; auto. }
  destruct Hmain as (fs' & Hmain & Hf' & Hd' & Hfs').
  rewrite Hmain. cbn [fst snd fs stderr stdout set_fs set_stderr exit_status].
  repeat split; auto.
  - eapply dirs_kept_trans; eauto.
  - eapply same_files_trans; eauto.
Qed.

(** A successful invocation is determined by what it read. *)
Lemma success_computed w state_dir config exit_code attempt metrics :
  environ w !! "STATE_DIR" = Some state_dir ->
  json_loads (getenv w "CONFIG_JSON" "{}") = inr (JDict config) ->
  int (getenv w "EXIT_CODE" "-1") = Some exit_code ->
  int (getenv w "ATTEMPT" "1") = Some attempt ->
  build_record w config exit_code attempt = inr metrics ->
  (main w).1 = inl (SystemExit 0) ->
  success w state_dir config metrics.
Proof.
  intros Hd Hc He Ha Hr H.
  destruct (main_exit0_inv w H) as (d' & config' & metrics' & Hs).
  pose proof (ok_state_dir _ _ _ _ Hs) as Hd'.
  pose proof (ok_config _ _ _ _ Hs) as Hc'.
  destruct (ok_record _ _ _ _ Hs) as (ec' & at' & He' & Ha' & Hr').
  assert (d' = state_dir) by congruence.
  assert (config' = config) by congruence.
  assert (ec' = exit_code) by congruence.
  assert (at' = attempt) by congruence.
  subst. assert (metrics' = metrics) by congruence. subst. exact Hs.
Qed.

End MoreClaims.

(** ** Concrete worlds, by computation *)

Lemma pair_eta {A B : Type} (p : A * B) (a : A) : p.1 = a -> p = (a, p.2).
Proof. destruct p. simpl. intros ->. reflexivity. Qed.

Lemma inr_eta {A B : Type} (x : A + B) (default : B) :
  is_inr x = true -> x = inr (get_inr x default).
Proof. destruct x; simpl; intros; [discriminate|reflexivity]. Qed.

Lemma fs_succeeds_check_ok `{rt : Runtime} (w : World) (state_dir : string) :
  fs_succeeds_check w state_dir = true -> fs_succeeds w state_dir.
Proof.
  unfold fs_succeeds_check, fs_succeeds. intros H.
  destruct (Path_mkdir (faults w) (fs w) (Path state_dir)) as [[e|] fs1];
    [discriminate H|].
  destruct (os_open_append (faults w) fs1 _) as [e|fs2] eqn:Ho; [discriminate H|].
  destruct (faults w (sys_write _)) eqn:Hf; [discriminate H|].
  destruct (fs2 !! fs_key (metrics_file state_dir)) as [[|c]|] eqn:Hk;
    try discriminate H.
  exists fs1, fs2. split; [reflexivity|]. split; [exact Ho|].
  intros text. unfold os_write. rewrite Hf, Hk. eauto.
Qed.

(** With the reference runtime, an invocation that computes to status 0
    yields its record by computation. *)
Ltac run_success :=
  eapply (success_computed (rt := reference_runtime));
  [ vm_compute; reflexivity
  | vm_compute; reflexivity
  | vm_compute; reflexivity
  | vm_compute; reflexivity
  | vm_compute; reflexivity
  | vm_compute; reflexivity ].

(** C1: an environment in which every condition of the claim holds, and
    whose start time has a UTC offset while its end time has none: the
    subtraction of line 70 raises [TypeError], which the [except] clause
    of line 71 does not name; the invocation ends with status 1, prints
    nothing and appends nothing. *)
Theorem C1_mixed_timestamps_crash :
  config_is_object world_mixed
  /\ environ world_mixed !! "STATE_DIR" = Some nightly
  /\ nightly <> ""
  /\ int_or_unset world_mixed "EXIT_CODE"
  /\ int_or_unset world_mixed "ATTEMPT"
  /\ fs_succeeds world_mixed nightly
  /\ (main world_mixed).1 = inl TypeError
  /\ exit_status (main world_mixed).1 = 1
  /\ stdout (main world_mixed).2 = ""
  /\ file_content (fs (main world_mixed).2) (fs_key (metrics_file nightly)) = "".
Proof.
  split; [left; reflexivity|].
  split; [reflexivity|].
  split; [discriminate|].
  split; [exact I|].
  split; [exact I|].
  split; [apply fs_succeeds_check_ok; vm_compute; reflexivity|].
  repeat split; vm_compute; reflexivity.
Qed.


(** C3, amended: the appended record has the key [custom] exactly when the
    [metrics] entry of the configuration is present and true in Python's
    sense, and [custom] is then that entry as it was parsed; for an entry
    that is a mapping this is when the mapping is not empty, and without an
    entry there is no [custom]; for the configuration of the
    specification's example, [custom] is the mapping of [cpu_pct] to 42. *)
Theorem C3_custom_metrics :
  (forall (rt : Runtime) (w : World) (state_dir : string) (config metrics : dict),
     success w state_dir config metrics ->
     dict_lookup "custom" metrics
     = (if truthy (custom_metrics config) then Some (custom_metrics config) else None)
     /\ (forall m, dict_lookup "metrics" config = Some (JDict m) ->
           (m <> [] -> dict_lookup "custom" metrics = Some (JDict m))
           /\ (m = [] -> dict_lookup "custom" metrics = None))
     /\ (dict_lookup "metrics" config = None -> dict_lookup "custom" metrics = None))
  /\ (exists metrics,
        success (rt := reference_runtime) world_cpu_pct nightly
          [("metrics", JDict [("cpu_pct", JInt 42)])] metrics
        /\ dict_lookup "custom" metrics = Some (JDict [("cpu_pct", JInt 42)])).
Proof.
  split; [intros rt; apply custom_metrics_general|].
  eexists. split; [run_success|]. vm_compute. reflexivity.
Qed.

(** C3 as stated fails where the [metrics] entry is a number: the record
    has [custom], and the configuration has no mapping. *)
Lemma C3_counterexample :
  ~ (forall (rt : Runtime) (w : World) (state_dir : string) (config metrics : dict),
       success w state_dir config metrics ->
       (dict_contains "custom" metrics = true <->
        exists m, dict_lookup "metrics" config = Some (JDict m) /\ m <> [])).
Proof.
  intros H.
  assert (exists metrics,
            success (rt := reference_runtime) world_metrics_number nightly
              [("metrics", JInt 5)] metrics
            /\ dict_lookup "custom" metrics = Some (JInt 5)) as (metrics & Hs & Hc).
  { eexists. split; [run_success|]. vm_compute. reflexivity. }
  apply H in Hs. unfold dict_contains in Hs. rewrite Hc in Hs.
  destruct Hs as [Hs _]. destruct (Hs eq_refl) as (m & Hm & _). discriminate Hm.
Qed.


(** C10 as stated fails where it is the write that fails: the file system
    is not the one the directory creation left, an empty [metrics.jsonl]
    has come into being. *)
Lemma C10_counterexample :
  ~ (forall (rt : Runtime) (w : World) (state_dir : string) (config metrics : dict)
       (exit_code attempt : Z) (fs1 : FS) (e : exn),
       json_loads (getenv w "CONFIG_JSON" "{}") = inr (JDict config) ->
       environ w !! "STATE_DIR" = Some state_dir -> state_dir <> "" ->
       Path_mkdir (faults w) (fs w) (Path state_dir) = (None, fs1) ->
       int (getenv w "EXIT_CODE" "-1") = Some exit_code ->
       int (getenv w "ATTEMPT" "1") = Some attempt ->
       build_record w config exit_code attempt = inr metrics ->
       os_open_append (faults w) fs1 (fs_key (metrics_file state_dir)) = inl e
       \/ (exists fs2,
             os_open_append (faults w) fs1 (fs_key (metrics_file state_dir)) = inr fs2
             /\ os_write (faults w) fs2 (fs_key (metrics_file state_dir))
                  (json_dumps (JDict metrics) +:+ nl) = inl e) ->
       fs (main w).2 = fs1).
Proof.
  intros H.
  assert (Hfs : fs (main (rt := reference_runtime) world_disk_full).2
                = (Path_mkdir disk_full ∅ (Path nightly)).2).
  { set (key := fs_key (metrics_file nightly)).
    set (fs1 := (Path_mkdir disk_full ∅ (Path nightly)).2).
    apply (H reference_runtime world_disk_full nightly []
             (base_metrics world_disk_full (-1) 1) (-1) 1 fs1
             (OSError EOther "[Errno 28] No space left on device")).
    - vm_compute. reflexivity.
    - vm_compute. reflexivity.
    - discriminate.
    - apply pair_eta. vm_compute. reflexivity.
    - vm_compute. reflexivity.
    - vm_compute. reflexivity.
    - vm_compute. reflexivity.
    - right. exists (get_inr (os_open_append disk_full fs1 key) ∅).
      split; [apply inr_eta; vm_compute; reflexivity|].
      vm_compute. reflexivity. }
  apply (f_equal (fun f => fs_lookup f (fs_key (metrics_file nightly)))) in Hfs.
  vm_compute in Hfs. discriminate Hfs.
Qed.

(** In the world of the ten seconds the line that was appended is read
    back by the reference parser as an object with the eleven keys of the
    record. *)
Lemma appended_line_parses :
  exists metrics,
    Reference.loads
      (file_content (fs (main world_ten_seconds).2) (fs_key (metrics_file nightly)))
    = inr (JDict metrics)
    /\ map fst metrics
       = [ "timestamp"; "job_id"; "run_id"; "hook"; "job_command"; "job_schedule";
           "start_ts"; "end_ts"; "exit_code"; "attempt"; "duration_sec" ].
Proof. eexists. split; vm_compute; reflexivity. Qed.

(** ** The theorems at concrete worlds *)

Lemma fs_rerun (w : World) : fs (rerun w) = fs w.
Proof. reflexivity. Qed.



Lemma C6_witness :
  uncaught (main world_bad_exit_code).1
  /\ same_files (fs world_bad_exit_code) (fs (main world_bad_exit_code).2).
Proof.
  destruct (C6_malformed_integer world_bad_exit_code (JDict []) nightly)
    as (H1 & _ & _ & _ & H2).
  - vm_compute. reflexivity.
  - vm_compute. reflexivity.
  - discriminate.
  - left. exists "abc". split; vm_compute; reflexivity.
  - split; [exact H1|exact H2].
Defined.

Lemma C7_witness :
  (exists state_dir line,
     environ world_ten_seconds !! "STATE_DIR" = Some state_dir
     /\ count_newlines line = O
     /\ file_content (fs (main world_ten_seconds).2) (fs_key (metrics_file state_dir))
        = file_content (fs world_ten_seconds) (fs_key (metrics_file state_dir))
          +:+ line +:+ nl)
  /\ (exists added,
        file_content (fs (main (rerun (main world_ten_seconds).2)).2)
          (fs_key (metrics_file nightly))
        = file_content (fs world_ten_seconds) (fs_key (metrics_file nightly)) +:+ added
        /\ count_newlines added = 2%nat).
Proof.
  destruct (C7_append_only (rt := reference_runtime)) as [Hone Hmany]. split.
  - destruct (Hone world_ten_seconds) as (d & line & Hd & Hl & Hf & _).
    + vm_compute. reflexivity.
    + exists d, line. split; [exact Hd|]. split; [exact Hl|exact Hf].
  - apply (Hmany (fs_key (metrics_file nightly)) 2%nat).
    apply (invocations_next _ 1 world_ten_seconds nightly _
             (fs (main world_ten_seconds).2)).
    + reflexivity.
    + vm_compute. reflexivity.
    + vm_compute. reflexivity.
    + reflexivity.
    + reflexivity.
    + apply (invocations_next _ 0 (rerun (main world_ten_seconds).2) nightly _
               (fs (main (rerun (main world_ten_seconds).2)).2)).
      * apply fs_rerun.
      * vm_compute. reflexivity.
      * vm_compute. reflexivity.
      * reflexivity.
      * reflexivity.
      * apply invocations_none.
Defined.

Lemma C8_witness :
  exists state_dir config metrics,
    success (rt := reference_runtime) world_ten_seconds state_dir config metrics
    /\ dict_lookup "job_id" metrics = Some (JStr "unknown")
    /\ dict_lookup "exit_code" metrics = Some (JInt (-1))
    /\ dict_lookup "attempt" metrics = Some (JInt 1).
Proof.
  destruct (C8_defaults (rt := reference_runtime) world_ten_seconds)
    as (d & config & metrics & Hs & Hjob & _ & _ & _ & _ & _ & _ & Hexit & Hattempt).
  - vm_compute. reflexivity.
  - exists d, config, metrics. split; [exact Hs|].
    split; [apply Hjob; vm_compute; reflexivity|].
    split; [apply Hexit; vm_compute; reflexivity|].
    apply Hattempt. vm_compute. reflexivity.
Defined.


Lemma C3_witness :
  exists metrics,
    success (rt := reference_runtime) world_cpu_pct nightly
      [("metrics", JDict [("cpu_pct", JInt 42)])] metrics
    /\ dict_lookup "custom" metrics = Some (JDict [("cpu_pct", JInt 42)]).
Proof.
  destruct C3_custom_metrics as (Hgeneral & metrics & Hs & _).
  exists metrics. split; [exact Hs|].
  destruct (Hgeneral reference_runtime _ _ _ _ Hs) as (_ & Hmap & _).
  apply (Hmap [("cpu_pct", JInt 42)]).
  - reflexivity.
  - discriminate.
Defined.


Lemma C10_witness :
  exit_status (main (rt := reference_runtime) world_disk_full).1 = 1
  /\ is_dir (fs (main (rt := reference_runtime) world_disk_full).2)
       (fs_key (Path nightly)) = true
  /\ same_files (fs world_disk_full) (fs (main (rt := reference_runtime) world_disk_full).2).
Proof.
  destruct (C10_write_failure (rt := reference_runtime) world_disk_full nightly []
              (base_metrics world_disk_full (-1) 1) (-1) 1
              (Path_mkdir disk_full ∅ (Path nightly)).2
              (OSError EOther "[Errno 28] No space left on device"))
    as (_ & H1 & _ & _ & H2 & _ & _ & H3 & _).
  - vm_compute. reflexivity.
  - vm_compute. reflexivity.
  - discriminate.
  - apply pair_eta. vm_compute. reflexivity.
  - vm_compute. reflexivity.
  - vm_compute. reflexivity.
  - vm_compute. reflexivity.
  - right.
    exists (get_inr (os_open_append disk_full (Path_mkdir disk_full ∅ (Path nightly)).2
                       (fs_key (metrics_file nightly))) ∅).
    split; [apply inr_eta; vm_compute; reflexivity|].
    vm_compute. reflexivity.
  - split; [exact H1|]. split; [exact H2|exact H3].
Defined.

(** * Every invocation

    What [main] does on every path through it: how it ends, what it
    writes, what it leaves in the file system, what it reads and what it
    does not. *)

(** ** How an invocation ends *)

Section EveryInvocation.
Context `{rt : Runtime}.

(** Every invocation ends in one of the ways of [outcome]. *)
Lemma main_outcome (w : World) : outcome w (main w).
Proof.
  rewrite main_paths_eq. unfold main_paths.
  destruct (json_loads (getenv w "CONFIG_JSON" "{}")) as [msg|config] eqn:Hc.
  { apply invalid_config. exact Hc. }
  destruct (environ w !! "STATE_DIR") as [[|c d]|] eqn:Hd.
  { eapply missing_state_dir; eauto. }
  2:{ eapply missing_state_dir; eauto. }
  assert (Hne : String c d <> "") by discriminate.
  destruct (Path_mkdir (faults w) (fs w) (Path (String c d))) as [[e|] fs1] eqn:Hm.
  { eapply mkdir_raises; eauto. }
  destruct (int (getenv w "EXIT_CODE" "-1")) as [exit_code|] eqn:He.
  2:{ eapply int_raises; eauto. }
  destruct (int (getenv w "ATTEMPT" "1")) as [attempt|] eqn:Ha.
  2:{ eapply int_raises; eauto. }
  destruct config as [| | | | | |config];
    try (eapply config_lookup_raises; eauto; discriminate).
  destruct (build_record w config exit_code attempt) as [e|metrics] eqn:Hr.
  { pose proof Hr as Hr'. apply add_duration_raises in Hr' as (-> & _).
    eapply subtraction_raises; eauto. }
  cbv zeta.
  destruct (os_open_append _ _ _) as [e|fs2] eqn:Ho.
  { eapply open_fails; eauto. }
  destruct (os_write _ _ _ _) as [e|fs3] eqn:Hw.
  { eapply write_fails; eauto. }
  eapply succeeds; eauto.
Qed.

(** X1: [main] never returns to its caller: every invocation ends in an
    exception, the [SystemExit] of one of the four calls of [sys.exit] or
    an exception nobody handles; the status the process ends with is 0 or
    1, and it is 0 only through the [sys.exit(0)] of the last line. *)
Theorem X1_always_exits (w : World) :
  (exists e, (main w).1 = inl e)
  /\ (exit_status (main w).1 = 0 \/ exit_status (main w).1 = 1)
  /\ (exit_status (main w).1 = 0 <-> (main w).1 = inl (SystemExit 0))
  /\ (exit_status (main w).1 = 1 <->
      (main w).1 = inl (SystemExit 1) \/ uncaught (main w).1).
Proof.
  destruct (main_outcome w);
    try match goal with
        | H : Path_mkdir _ _ _ = (Some ?e, _) |- _ =>
            apply Path_mkdir_exn in H; destruct e; try discriminate H
        end;
    unfold report_error; cbn [fst snd exit_status uncaught];
    (split; [eauto|]); (split; [auto|]);
    intuition (try discriminate; try contradiction; auto).
Qed.

(** X2: an invocation writes one line to one of the two streams, or
    nothing.  Status 0 comes with the success object on the output stream
    and nothing on the error stream; [sys.exit(1)] comes with an error
    object on the error stream, whose message is one of the three of the
    script, and nothing on the output stream; an exception nobody handles
    comes with nothing from the script on either. *)
Theorem X2_one_report (w : World) :
  ((main w).1 = inl (SystemExit 0) ->
     stderr (main w).2 = stderr w
     /\ exists state_dir,
          environ w !! "STATE_DIR" = Some state_dir
          /\ stdout (main w).2
             = stdout w +:+ json_dumps (ok_output (metrics_file state_dir)) +:+ nl)
  /\ ((main w).1 = inl (SystemExit 1) ->
        stdout (main w).2 = stdout w
        /\ exists msg,
             handled_message msg
             /\ stderr (main w).2 = stderr w +:+ json_dumps (error_output msg) +:+ nl)
  /\ (uncaught (main w).1 ->
        stdout (main w).2 = stdout w /\ stderr (main w).2 = stderr w)
  /\ (count_newlines (stdout (main w).2) + count_newlines (stderr (main w).2)
      <= count_newlines (stdout w) + count_newlines (stderr w) + 1)%nat.
Proof.
  unfold handled_message.
  destruct (main_outcome w);
    try match goal with
        | H : Path_mkdir _ _ _ = (Some ?e, _) |- _ =>
            apply Path_mkdir_exn in H; destruct e; try discriminate H
        end;
    unfold report_error;
    cbn [fst snd uncaught stdout stderr set_fs set_stdout set_stderr];
    rewrite ?count_newlines_app, ?json_dumps_one_line, ?count_newlines_nl;
    (split; [intros Hexit; try discriminate Hexit|
     split; [intros Hexit; try discriminate Hexit|
     split; [intros Hexit; try contradiction|lia]]]);
    eauto 10.
Qed.

End EveryInvocation.

(** ** What an invocation does to the file system *)

Lemma grows_refl fs : grows fs fs.
Proof.
  intros k [|c] H; [exact H|]. exists "". rewrite append_empty_r. exact H.
Qed.

Lemma grows_trans fs1 fs2 fs3 : grows fs1 fs2 -> grows fs2 fs3 -> grows fs1 fs3.
Proof.
  intros H1 H2 k [|c] H.
  - apply (H2 k Dir), (H1 k Dir), H.
  - destruct (H1 k (File c) H) as [a Ha]. destruct (H2 k (File (c +:+ a)) Ha) as [b Hb].
    exists (a +:+ b). rewrite <- append_assoc. exact Hb.
Qed.

Lemma insert_new_grows (fs : FS) (k : fskey) (n : node) :
  fs_lookup fs k = None -> grows fs (<[k := n]> fs).
Proof.
  intros Hk k' n' H. destruct (decide (k = k')) as [<-|Hne]; [congruence|].
  destruct n' as [|c].
  - rewrite fs_lookup_insert_ne; assumption.
  - exists "". rewrite append_empty_r, fs_lookup_insert_ne; assumption.
Qed.

Lemma os_mkdir_grows faults fs k fs' : os_mkdir faults fs k = inr fs' -> grows fs fs'.
Proof.
  unfold os_mkdir. intros H.
  repeat case_match; simplify_eq. apply insert_new_grows. assumption.
Qed.

Lemma mkdir_exist_ok_grows faults fs k fs' :
  mkdir_exist_ok faults fs k = inr fs' -> grows fs fs'.
Proof.
  unfold mkdir_exist_ok. intros H.
  destruct (os_mkdir faults fs k) as [e|fs1] eqn:Hm.
  - destruct (is_dir fs k); simplify_eq. apply grows_refl.
  - simplify_eq. eapply os_mkdir_grows; eauto.
Qed.

(** [Path.mkdir] removes and replaces nothing, whether it fails or not. *)
Lemma mkdir_parents_grows faults abs rparts : forall fs r fs',
  mkdir_parents faults fs abs rparts = (r, fs') -> grows fs fs'.
Proof.
  induction rparts as [|x rparent IH]; intros fs r fs' H; simpl in H.
  - destruct (os_mkdir faults fs (abs, [])) as [e|fs1] eqn:Hm.
    + repeat case_match; simplify_eq; apply grows_refl.
    + simplify_eq. eapply os_mkdir_grows; eauto.
  - destruct (os_mkdir faults fs (abs, (rev rparent ++ [x])%list)) as [e|fs1] eqn:Hm.
    + assert (Hother : forall r0 fs0,
                (if is_dir fs (abs, (rev rparent ++ [x])%list)
                 then (None, fs) else (Some e, fs)) = (r0, fs0) -> grows fs fs0).
      { intros r0 fs0 H0. destruct (is_dir fs _); simplify_eq; apply grows_refl. }
      destruct e as [| | | | |kind msg|]; try (eapply Hother; exact H).
      destruct kind; try (eapply Hother; exact H).
      destruct (mkdir_parents faults fs abs rparent) as [[e|] fs1] eqn:Hp.
      * simplify_eq. eapply IH; eauto.
      * pose proof (IH _ _ _ Hp) as Hg1.
        destruct (mkdir_exist_ok faults fs1 _) as [e|fs2] eqn:Hx; simplify_eq.
        -- exact Hg1.
        -- eapply grows_trans; [exact Hg1|]. eapply mkdir_exist_ok_grows; eauto.
    + simplify_eq. eapply os_mkdir_grows; eauto.
Qed.

Lemma os_open_append_grows faults fs k fs' :
  os_open_append faults fs k = inr fs' -> grows fs fs'.
Proof.
  unfold os_open_append. intros H.
  repeat case_match; simplify_eq; auto using grows_refl, insert_new_grows.
Qed.

Lemma os_write_grows faults fs k text fs' :
  os_write faults fs k text = inr fs' -> grows fs fs'.
Proof.
  unfold os_write. intros H.
  destruct (faults (sys_write k)) as [[]|]; [discriminate H|].
  destruct (fs !! k) as [[|c]|] eqn:Hc; simplify_eq.
  intros k' n Hn. destruct (decide (k = k')) as [<-|Hne].
  - unfold fs_lookup in *. destruct (snd k).
    + simplify_eq. reflexivity.
    + rewrite Hc in Hn. simplify_eq. exists text. apply lookup_insert_eq.
  - destruct n as [|c'].
    + rewrite fs_lookup_insert_ne; assumption.
    + exists "". rewrite append_empty_r, fs_lookup_insert_ne; assumption.
Qed.

(** What the two steps of the [with] block change lies under the one
    key. *)
Lemma os_open_append_elsewhere faults fs k fs' k' :
  os_open_append faults fs k = inr fs' -> k' <> k ->
  fs_lookup fs' k' = fs_lookup fs k'.
Proof.
  unfold os_open_append. intros H Hne.
  repeat case_match; simplify_eq; try reflexivity.
  apply fs_lookup_insert_ne. congruence.
Qed.

Lemma os_write_elsewhere faults fs k text fs' k' :
  os_write faults fs k text = inr fs' -> k' <> k ->
  fs_lookup fs' k' = fs_lookup fs k'.
Proof.
  unfold os_write. intros H Hne.
  repeat case_match; simplify_eq.
  apply fs_lookup_insert_ne. congruence.
Qed.

Lemma os_open_append_wf faults fs k fs' :
  os_open_append faults fs k = inr fs' -> fs_wf fs -> fs_wf fs'.
Proof.
  intros Ho Hwf k' n Hk'.
  destruct (os_open_append_keeps _ _ _ _ Ho) as (_ & Hd).
  unfold os_open_append in Ho.
  destruct (faults (sys_open k)) as [[]|]; [discriminate Ho|].
  destruct (fs_lookup fs k) as [[|c]|] eqn:Hk; simplify_eq.
  - eapply Hwf; eauto.
  - destruct (fs_lookup fs (fs_parent k)) as [[|c]|] eqn:Hp; simplify_eq.
    destruct (decide (k = k')) as [<-|Hne].
    + apply Hd. unfold is_dir. rewrite Hp. reflexivity.
    + rewrite fs_lookup_insert_ne in Hk' by assumption.
      apply Hd. eapply Hwf; eauto.
Qed.

Lemma os_write_wf faults fs k text fs' :
  os_write faults fs k text = inr fs' -> fs_wf fs -> fs_wf fs'.
Proof.
  intros Hw Hwf k' n Hk'.
  pose proof (os_write_grows _ _ _ _ _ Hw) as Hg.
  assert (Hd : dirs_kept fs fs').
  { intros k0 H0. unfold is_dir in *.
    destruct (fs_lookup fs k0) as [[|c]|] eqn:E; try discriminate H0.
    rewrite (Hg k0 Dir E). reflexivity. }
  destruct (decide (k' = k)) as [->|Hne].
  - apply Hd. unfold os_write in Hw.
    destruct (faults (sys_write k)) as [[]|]; [discriminate Hw|].
    destruct (fs !! k) as [[|c]|] eqn:Hc; simplify_eq.
    destruct (fs_lookup fs k) as [n0|] eqn:E; [eapply Hwf; eauto|].
    unfold fs_lookup in E. destruct (snd k); [discriminate E|congruence].
  - rewrite (os_write_elsewhere _ _ _ _ _ _ Hw Hne) in Hk'.
    apply Hd. eapply Hwf; eauto.
Qed.

(** A directory that exists is left alone by [mkdir(parents=True,
    exist_ok=True)], unless the system call reports a missing parent. *)
Lemma mkdir_parents_existing faults fs abs rparts :
  is_dir fs (abs, rev rparts) = true ->
  (forall msg, faults (sys_mkdir (abs, rev rparts)) <> Some (FileNotFoundError, msg)) ->
  mkdir_parents faults fs abs rparts = (None, fs).
Proof.
  intros Hd Hf.
  assert (Hm : match os_mkdir faults fs (abs, rev rparts) with
               | inr _ => False
               | inl (OSError FileNotFoundError _) => False
               | inl _ => True
               end).
  { unfold os_mkdir.
    destruct (faults (sys_mkdir (abs, rev rparts))) as [[kind msg]|] eqn:E.
    - destruct kind; try exact I. exact (Hf msg eq_refl).
    - unfold is_dir in Hd.
      destruct (fs_lookup fs (abs, rev rparts)); [exact I|discriminate Hd]. }
  destruct rparts as [|x l]; simpl in *; rewrite ?Hd;
    destruct (os_mkdir faults fs _) as [e|]; try contradiction;
    destruct e as [| | | | |kind msg|]; try reflexivity;
    destruct kind; try reflexivity; contradiction.
Qed.

Lemma Path_mkdir_existing faults fs p :
  is_dir fs (fs_key p) = true ->
  (forall msg, faults (sys_mkdir (fs_key p)) <> Some (FileNotFoundError, msg)) ->
  Path_mkdir faults fs p = (None, fs).
Proof.
  unfold Path_mkdir. intros Hd Hf.
  apply mkdir_parents_existing; rewrite rev_involutive; assumption.
Qed.

Section FileSystem.
Context `{rt : Runtime}.

(** X3: whatever its outcome, an invocation removes nothing and rewrites
    nothing: every directory is still a directory, every file is still a
    file and has its old content at its start; and only an invocation that
    ends with status 0 changes the content of any file. *)
Theorem X3_files_only_grow (w : World) :
  grows (fs w) (fs (main w).2)
  /\ ((main w).1 <> inl (SystemExit 0) -> same_files (fs w) (fs (main w).2)).
Proof.
  destruct (main_outcome w);
    unfold report_error; cbn [fst snd fs set_fs set_stdout set_stderr];
    try match goal with
        | H : Path_mkdir _ _ _ = _ |- _ =>
            pose proof (mkdir_parents_grows _ _ _ _ _ _ H) as Hg1;
            destruct (Path_mkdir_keeps _ _ _ _ _ H) as (Hf1 & _ & _)
        end;
    try match goal with
        | H : os_open_append _ _ _ = inr _ |- _ =>
            pose proof (os_open_append_grows _ _ _ _ H) as Hg2;
            destruct (os_open_append_keeps _ _ _ _ H) as (Hf2 & _)
        end;
    try match goal with
        | H : os_write _ _ _ _ = inr _ |- _ =>
            pose proof (os_write_grows _ _ _ _ _ H) as Hg3
        end;
    (split;
     [ eauto using grows_refl, grows_trans
     | intros Hexit; try congruence; eauto using same_files_refl, same_files_trans ]).
Qed.

(** X4: an invocation keeps the tree well formed: if every node lay in a
    directory before, every node does after, whatever the outcome; after
    status 0, moreover, every ancestor of the state directory is a
    directory and [metrics.jsonl] is a regular file in it. *)
Theorem X4_tree_stays_well_formed (w : World) :
  fs_wf (fs w) ->
  fs_wf (fs (main w).2)
  /\ ((main w).1 = inl (SystemExit 0) ->
      exists state_dir,
        environ w !! "STATE_DIR" = Some state_dir
        /\ (forall i, is_dir (fs (main w).2)
                        (fst (fs_key (Path state_dir)), firstn i (parts (Path state_dir)))
                      = true)
        /\ fs_parent (fs_key (metrics_file state_dir)) = fs_key (Path state_dir)
        /\ exists content,
             fs_lookup (fs (main w).2) (fs_key (metrics_file state_dir))
             = Some (File content)).
Proof.
  intros Hwf.
  destruct (main_outcome w);
    unfold report_error; cbn [fst snd fs set_fs set_stdout set_stderr];
    try match goal with
        | H : Path_mkdir _ _ _ = _ |- _ =>
            pose proof (mkdir_parents_wf _ _ _ _ _ _ H Hwf) as Hwf1
        end;
    try match goal with
        | H : os_open_append _ _ _ = inr _ |- _ =>
            pose proof (os_open_append_wf _ _ _ _ H Hwf1) as Hwf2
        end;
    try match goal with
        | H : os_write _ _ _ _ = inr _ |- _ =>
            pose proof (os_write_wf _ _ _ _ _ H Hwf2) as Hwf3
        end;
    try match goal with
        | H : Path_mkdir _ _ _ = (Some ?e, _) |- _ =>
            pose proof (Path_mkdir_exn _ _ _ _ _ H) as Hexn;
            destruct e; try discriminate Hexn
        end;
    (split; [assumption|intros Hexit; try discriminate Hexit]).
  exists state_dir. split; [assumption|].
  match goal with
  | Hm : Path_mkdir _ _ _ = _, Ho : os_open_append _ _ _ = _, Hw : os_write _ _ _ _ = _ |- _ =>
      destruct (Path_mkdir_keeps _ _ _ _ _ Hm) as (_ & _ & Hdir);
      destruct (os_open_append_keeps _ _ _ _ Ho) as (_ & Hd2);
      destruct (os_write_appends _ _ _ _ _ Hw (metrics_file_parts state_dir)) as (_ & _ & Hd3);
      pose proof Hw as Hw'
  end.
  split; [|split].
  - intros i. apply ancestors_are_dirs; [exact Hwf3|].
    apply Hd3, Hd2, Hdir. reflexivity.
  - unfold fs_parent, metrics_file, joinpath, fs_key. cbn [fst snd root parts].
    rewrite removelast_last. reflexivity.
  - unfold os_write in Hw'.
    destruct (faults w (sys_write _)) as [[]|]; [discriminate Hw'|].
    destruct (fs2 !! fs_key (metrics_file state_dir)) as [[|c]|] eqn:Hc; simplify_eq.
    exists (c +:+ json_dumps (JDict metrics) +:+ nl).
    unfold fs_lookup.
    destruct (snd (fs_key (metrics_file state_dir))) eqn:E;
      [exfalso; exact (metrics_file_parts state_dir E)|].
    apply lookup_insert_eq.
Qed.

(** X5: where the state directory exists already, and the system call
    does not report a missing parent for it, [mkdir] with [exist_ok=True]
    does not fail and the invocation touches nothing but [metrics.jsonl]:
    whatever the outcome, every other path holds what it held, and the
    exception the invocation ends with is not an [OSError]. *)
Theorem X5_existing_state_dir (w : World) (state_dir : string) :
  environ w !! "STATE_DIR" = Some state_dir ->
  is_dir (fs w) (fs_key (Path state_dir)) = true ->
  (forall msg,
     faults w (sys_mkdir (fs_key (Path state_dir))) <> Some (FileNotFoundError, msg)) ->
  (forall k, k <> fs_key (metrics_file state_dir) ->
     fs_lookup (fs (main w).2) k = fs_lookup (fs w) k)
  /\ (forall kind msg, (main w).1 <> inl (OSError kind msg)).
Proof.
  intros Hd Hdir Hf.
  pose proof (Path_mkdir_existing _ _ _ Hdir Hf) as Hm.
  destruct (main_outcome w);
    unfold report_error; cbn [fst snd fs set_fs set_stdout set_stderr];
    try match goal with
        | H : environ w !! "STATE_DIR" = Some ?d |- _ =>
            assert (d = state_dir) by congruence; subst d
        end;
    try match goal with
        | H : Path_mkdir _ _ _ = _ |- _ => rewrite Hm in H; simplify_eq
        end;
    (split; [intros k Hk|intros kind msg' Hexit; discriminate Hexit]);
    try reflexivity.
  - erewrite os_open_append_elsewhere; eauto.
  - erewrite os_write_elsewhere, os_open_append_elsewhere; eauto.
Qed.

End FileSystem.

(** ** The record *)

Lemma dict_keys_setitem_new k v (d : dict) :
  dict_lookup k d = None -> dict_keys (dict_setitem k v d) = (dict_keys d ++ [k])%list.
Proof.
  unfold dict_keys. induction d as [|[k' v'] d IH]; simpl; [reflexivity|].
  destruct (String.eqb k k'); [discriminate|].
  intros H. simpl. f_equal. apply IH, H.
Qed.

Lemma dict_keys_setitem_old k v (d : dict) :
  dict_lookup k d <> None -> dict_keys (dict_setitem k v d) = dict_keys d.
Proof.
  unfold dict_keys. induction d as [|[k' v'] d IH]; simpl; [congruence|].
  destruct (String.eqb k k'); [reflexivity|].
  intros H. simpl. f_equal. apply IH, H.
Qed.

Section RecordFacts.
Context `{rt : Runtime}.

Lemma base_metrics_keys w exit_code attempt :
  dict_keys (base_metrics w exit_code attempt) = base_keys.
Proof. reflexivity. Qed.

Lemma base_metrics_lookup w exit_code attempt k :
  ~ In k base_keys -> dict_lookup k (base_metrics w exit_code attempt) = None.
Proof.
  intros Hk. unfold base_metrics. simpl.
  repeat match goal with
         | |- context [String.eqb k ?s] =>
             destruct (String.eqb_spec k s) as [->|_];
             [exfalso; apply Hk; simpl; tauto|]
         end.
  reflexivity.
Qed.

Lemma add_custom_keys custom (metrics : dict) :
  dict_lookup "custom" metrics = None ->
  dict_keys (add_custom custom metrics)
  = (dict_keys metrics ++ if truthy custom then ["custom"] else [])%list.
Proof.
  intros H. unfold add_custom. destruct (truthy custom).
  - apply dict_keys_setitem_new, H.
  - rewrite app_nil_r. reflexivity.
Qed.

Lemma add_duration_keys start_ts end_ts (metrics metrics' : dict) :
  add_duration start_ts end_ts metrics = inr metrics' ->
  dict_lookup "duration_sec" metrics = None ->
  dict_keys metrics'
  = (dict_keys metrics
     ++ if dict_contains "duration_sec" metrics' then ["duration_sec"] else [])%list.
Proof.
  intros H Hnone.
  destruct (add_duration_duration _ _ _ _ H Hnone)
    as [(_ & _ & s & e & delta & _ & _ & Hsub & Hl)|(_ & -> & Hl)];
    unfold dict_contains; rewrite Hl.
  - unfold add_duration in H. repeat case_match; simplify_eq;
      try (rewrite Hnone in Hl; discriminate Hl).
    apply dict_keys_setitem_new, Hnone.
  - rewrite app_nil_r. reflexivity.
Qed.

(** X6: the keys of a record that is appended, in the order in which
    they are written: the ten of lines 48 to 57, then [custom] if the
    configuration's [metrics] entry is truthy, then [duration_sec] if a
    duration was computed, and no others; no key occurs twice. *)
Theorem X6_record_keys (w : World) (state_dir : string) (config metrics : dict) :
  success w state_dir config metrics ->
  dict_keys metrics
  = (base_keys
     ++ (if truthy (custom_metrics config) then ["custom"] else [])
     ++ (if dict_contains "duration_sec" metrics then ["duration_sec"] else []))%list
  /\ NoDup (dict_keys metrics).
Proof.
  intros Hs. destruct (ok_record _ _ _ _ Hs) as (exit_code & attempt & _ & _ & Hr).
  unfold build_record in Hr.
  assert (Hkeys : dict_keys metrics
    = (base_keys
       ++ (if truthy (custom_metrics config) then ["custom"] else [])
       ++ (if dict_contains "duration_sec" metrics then ["duration_sec"] else []))%list).
  { rewrite (add_duration_keys _ _ _ _ Hr).
    - rewrite add_custom_keys, base_metrics_keys, <- app_assoc; [reflexivity|].
      apply base_metrics_lookup. simpl. intuition discriminate.
    - rewrite add_custom_lookup by discriminate.
      apply base_metrics_lookup. simpl. intuition discriminate. }
  split; [exact Hkeys|]. rewrite Hkeys.
  destruct (truthy (custom_metrics config)), (dict_contains "duration_sec" metrics);
    apply (bool_decide_unpack _); vm_compute; reflexivity.
Qed.

(** X7: a variable that is set reaches the record as it is: the seven
    texts verbatim, [EXIT_CODE] and [ATTEMPT] as the integers [int] reads
    from them; [timestamp] is the UTC clock in ISO format followed by [Z].
    The configuration has no say in these ten entries. *)
Theorem X7_variables_reach_the_record
    (w : World) (state_dir : string) (config metrics : dict) :
  success w state_dir config metrics ->
  dict_lookup "timestamp" metrics = Some (JStr (isoformat (now w) +:+ "Z"))
  /\ (forall s, environ w !! "JOB_ID" = Some s ->
        dict_lookup "job_id" metrics = Some (JStr s))
  /\ (forall s, environ w !! "RUN_ID" = Some s ->
        dict_lookup "run_id" metrics = Some (JStr s))
  /\ (forall s, environ w !! "HOOK" = Some s ->
        dict_lookup "hook" metrics = Some (JStr s))
  /\ (forall s, environ w !! "JOB_COMMAND" = Some s ->
        dict_lookup "job_command" metrics = Some (JStr s))
  /\ (forall s, environ w !! "JOB_SCHEDULE" = Some s ->
        dict_lookup "job_schedule" metrics = Some (JStr s))
  /\ (forall s, environ w !! "START_TS" = Some s ->
        dict_lookup "start_ts" metrics = Some (JStr s))
  /\ (forall s, environ w !! "END_TS" = Some s ->
        dict_lookup "end_ts" metrics = Some (JStr s))
  /\ (forall s, environ w !! "EXIT_CODE" = Some s ->
        exists n, int s = Some n /\ dict_lookup "exit_code" metrics = Some (JInt n))
  /\ (forall s, environ w !! "ATTEMPT" = Some s ->
        exists n, int s = Some n /\ dict_lookup "attempt" metrics = Some (JInt n)).
Proof.
  intros Hs. destruct (ok_record _ _ _ _ Hs) as (exit_code & attempt & He & Ha & Hr).
  unfold build_record in Hr.
  assert (Hbase : forall k, k <> "duration_sec" -> k <> "custom" ->
            dict_lookup k metrics = dict_lookup k (base_metrics w exit_code attempt)).
  { intros k Hk1 Hk2. rewrite (add_duration_lookup _ _ _ _ _ Hr Hk1).
    apply add_custom_lookup, Hk2. }
  split; [rewrite Hbase by discriminate; reflexivity|].
  repeat split; intros s Hset; try (rewrite Hbase by discriminate; simpl;
    rewrite (getenv_set _ _ _ _ Hset); reflexivity).
  - rewrite (getenv_set _ _ _ _ Hset) in He. exists exit_code.
    split; [exact He|]. rewrite Hbase by discriminate. reflexivity.
  - rewrite (getenv_set _ _ _ _ Hset) in Ha. exists attempt.
    split; [exact Ha|]. rewrite Hbase by discriminate. reflexivity.
Qed.

(** *** When an invocation succeeds *)

Lemma add_duration_mixed w (metrics : dict) :
  mixed_timestamps w ->
  add_duration (getenv w "START_TS" "") (getenv w "END_TS" "") metrics = inl TypeError.
Proof.
  intros (Hs & He & s & e & Hps & Hpe & Hmix). unfold add_duration.
  apply string_eqb_empty in Hs, He. rewrite Hs, He, Hps, Hpe. simpl.
  unfold datetime_sub. destruct (tzinfo e), (tzinfo s); try reflexivity.
  - exfalso. destruct Hmix as [_ Hmix]. discriminate Hmix. discriminate.
  - exfalso. destruct Hmix as [Hmix _]. apply Hmix; reflexivity.
Qed.

Lemma os_write_any_text faults fs k text text' fs' :
  os_write faults fs k text = inr fs' -> exists fs'', os_write faults fs k text' = inr fs''.
Proof.
  unfold os_write. intros H.
  destruct (faults (sys_write k)) as [[]|]; [discriminate H|].
  destruct (fs !! k) as [[|c]|]; simplify_eq. eauto.
Qed.

(** X8: when an invocation ends with status 0, exactly: [STATE_DIR] is
    set and not empty, [CONFIG_JSON] is unset or parses as an object,
    [EXIT_CODE] and [ATTEMPT] are unset or integers, the directory can be
    made and the file opened and written, and the two timestamps are not
    one with a UTC offset and one without. *)
Theorem X8_status_0_exactly (w : World) :
  (main w).1 = inl (SystemExit 0)
  <-> exists state_dir,
        environ w !! "STATE_DIR" = Some state_dir /\ state_dir <> ""
        /\ config_is_object w
        /\ int_or_unset w "EXIT_CODE" /\ int_or_unset w "ATTEMPT"
        /\ fs_succeeds w state_dir
        /\ ~ mixed_timestamps w.
Proof.
  split.
  - intros Hexit. pose proof (main_outcome w) as Ho.
    inversion Ho as [ msg Hc E | config Hc Hd E | config d e fs1 Hc Hd Hne Hm E
                    | config d fs1 Hc Hd Hne Hm Hi E
                    | config d fs1 ec at_ Hc Hnd Hd Hne Hm He Ha E
                    | config d fs1 ec at_ Hc Hd Hne Hm He Ha Hr E
                    | config metrics d fs1 ec at_ e Hc Hd Hne Hm He Ha Hr Hopen E
                    | config metrics d fs1 fs2 ec at_ e Hc Hd Hne Hm He Ha Hr Hopen Hw E
                    | config metrics d fs1 fs2 fs3 ec at_ Hc Hd Hne Hm He Ha Hr Hopen Hw E ];
      unfold report_error in E; rewrite <- E in Hexit; cbn [fst] in Hexit;
      try discriminate Hexit.
    + apply Path_mkdir_exn in Hm. simplify_eq.
    + exists d. split; [exact Hd|]. split; [exact Hne|].
      split; [|split; [|split; [|split]]].
      * unfold config_is_object. unfold getenv in Hc.
        destruct (environ w !! "CONFIG_JSON") as [s|]; [right|left; reflexivity].
        exists s, config. auto.
      * unfold int_or_unset. unfold getenv in He.
        destruct (environ w !! "EXIT_CODE"); [eauto|exact I].
      * unfold int_or_unset. unfold getenv in Ha.
        destruct (environ w !! "ATTEMPT"); [eauto|exact I].
      * exists fs1, fs2. split; [exact Hm|]. split; [exact Hopen|].
        intros text. eapply os_write_any_text; eauto.
      * intros Hmix. unfold build_record in Hr.
        rewrite (add_duration_mixed _ _ Hmix) in Hr. discriminate Hr.
  - intros (d & Hd & Hne & Hc & He & Ha & Hfs & Hmix).
    destruct (main_succeeds w d Hc Hd Hne He Ha Hfs Hmix) as (config & metrics & Hs).
    apply (ok_exit _ _ _ _ Hs).
Qed.

(** *** What an invocation does not read *)

Lemma getenv_setenv name v w k default :
  k <> name -> getenv (setenv name v w) k default = getenv w k default.
Proof.
  intros Hk. unfold getenv, setenv. cbn [environ].
  rewrite lookup_insert_ne by congruence. reflexivity.
Qed.

(** X9: the script reads eleven variables and no other: setting any
    other variable changes neither how the invocation ends nor what it
    leaves in the file system and on the two streams. *)
Theorem X9_other_variables_ignored (w : World) (name v : string) :
  name ∉ variables_read ->
  main (setenv name v w) = ((main w).1, setenv name v (main w).2).
Proof.
  intros Hname.
  assert (Hget : forall k default, k ∈ variables_read ->
            getenv (setenv name v w) k default = getenv w k default).
  { intros k default Hk. apply getenv_setenv. intros ->. contradiction. }
  assert (Hdir : environ (setenv name v w) !! "STATE_DIR" = environ w !! "STATE_DIR").
  { unfold setenv. cbn [environ]. apply lookup_insert_ne.
    intros ->. apply Hname. unfold variables_read. set_solver. }
  assert (Hrec : forall config exit_code attempt,
            build_record (setenv name v w) config exit_code attempt
            = build_record w config exit_code attempt).
  { intros. unfold build_record, base_metrics.
    rewrite !Hget by (unfold variables_read; set_solver). reflexivity. }
  rewrite !main_paths_eq. unfold main_paths.
  rewrite !Hget by (unfold variables_read; set_solver).
  rewrite Hdir.
  change (faults (setenv name v w)) with (faults w).
  change (fs (setenv name v w)) with (fs w).
  destruct (json_loads (getenv w "CONFIG_JSON" "{}")) as [msg|config]; [reflexivity|].
  destruct (environ w !! "STATE_DIR") as [[|c d]|]; try reflexivity.
  destruct (Path_mkdir (faults w) (fs w) (Path (String c d))) as [[e|] fs1];
    [reflexivity|].
  destruct (int (getenv w "EXIT_CODE" "-1")) as [exit_code|]; [|reflexivity].
  destruct (int (getenv w "ATTEMPT" "1")) as [attempt|]; [|reflexivity].
  destruct config as [| | | | | |config]; try reflexivity.
  rewrite Hrec.
  destruct (build_record w config exit_code attempt) as [e|metrics]; [reflexivity|].
  cbv zeta.
  destruct (os_open_append _ _ _) as [e|fs2]; [reflexivity|].
  destruct (os_write _ _ _ _) as [e|fs3]; reflexivity.
Qed.

(** *** The duration *)

(** X10: the script does not ask that the end lies after the start:
    where a duration is recorded for a start and an end, the opposite
    duration is recorded for them exchanged, and where none is recorded,
    none is recorded for them exchanged either; a duration below zero is
    written as it is. *)
Theorem X10_duration_of_exchanged_timestamps
    (start_ts end_ts : string) (metrics m1 : dict) :
  dict_lookup "duration_sec" metrics = None ->
  add_duration start_ts end_ts metrics = inr m1 ->
  exists m2,
    add_duration end_ts start_ts metrics = inr m2
    /\ (dict_contains "duration_sec" m1 = false -> m1 = metrics /\ m2 = metrics)
    /\ (dict_contains "duration_sec" m1 = true ->
        exists s e delta,
          parse_ts start_ts = Some s /\ parse_ts end_ts = Some e
          /\ datetime_sub e s = inr delta
          /\ dict_lookup "duration_sec" m1 = Some (JFloat (total_seconds delta))
          /\ dict_lookup "duration_sec" m2 = Some (JFloat (total_seconds (- delta)))).
Proof.
  intros Hnone H1.
  destruct (add_duration_duration _ _ _ _ H1 Hnone)
    as [(Hs & He & s & e & delta & Hps & Hpe & Hsub & Hl)|(Hwhy & -> & Hl)].
  - assert (Hsub' : datetime_sub s e = inr (- delta)).
    { unfold datetime_sub in *. destruct (tzinfo e), (tzinfo s); simplify_eq;
        f_equal; ring. }
    exists (dict_setitem "duration_sec" (JFloat (total_seconds (- delta))) metrics).
    split; [|split].
    + unfold add_duration. apply string_eqb_empty in Hs, He.
      rewrite Hs, He, Hps, Hpe, Hsub'. reflexivity.
    + unfold dict_contains. rewrite Hl. discriminate.
    + intros _. exists s, e, delta. rewrite dict_lookup_setitem_eq. auto.
  - exists metrics. split; [|split].
    + apply add_duration_unparsed. tauto.
    + auto.
    + unfold dict_contains. rewrite Hl. discriminate.
Qed.

End RecordFacts.

(** ** Paths and their text *)

Lemma occurs_app c (a b : string) : occurs c (a +:+ b) = occurs c a || occurs c b.
Proof.
  induction a as [|x a IH]; [reflexivity|].
  change (occurs c (String x (a +:+ b)) = occurs c (String x a) || occurs c b).
  simpl. rewrite IH, orb_assoc. reflexivity.
Qed.

(** A text without a slash is one component of what follows it. *)
Lemma split_slash_app (x : string) : forall cur rest,
  occurs "/" x = false ->
  split_slash cur (x +:+ rest) = split_slash (cur +:+ x) rest.
Proof.
  induction x as [|c x IH]; intros cur rest Hx.
  - rewrite append_empty_r. reflexivity.
  - simpl in Hx. apply orb_false_iff in Hx as [Hc Hx].
    change (String c x +:+ rest) with (String c (x +:+ rest)).
    cbn [split_slash]. rewrite Hc, (IH _ _ Hx), append_assoc. reflexivity.
Qed.

Lemma split_slash_join (l : list string) :
  Forall (fun x => occurs "/" x = false) l ->
  split_slash "" (join_slash l) = match l with [] => [""] | _ => l end.
Proof.
  induction l as [|x l IH]; intros Hl; [reflexivity|].
  apply Forall_cons in Hl as [Hx Hl].
  destruct l as [|y l].
  - cbn [join_slash]. rewrite <- (append_empty_r x) at 1.
    rewrite (split_slash_app _ _ _ Hx). reflexivity.
  - change (join_slash (x :: y :: l)) with (x +:+ String "/" (join_slash (y :: l))).
    rewrite (split_slash_app _ _ _ Hx). cbn [split_slash].
    change (Ascii.eqb "/" "/") with true. cbv iota.
    rewrite (IH Hl). reflexivity.
Qed.

Lemma split_slash_no_slash (s : string) : forall cur,
  occurs "/" cur = false ->
  Forall (fun x => occurs "/" x = false) (split_slash cur s).
Proof.
  induction s as [|c s IH]; intros cur Hcur; cbn [split_slash].
  - apply Forall_cons. split; [exact Hcur|apply Forall_nil; exact I].
  - destruct (Ascii.eqb c "/") eqn:Hc.
    + apply Forall_cons. split; [exact Hcur|]. apply IH. reflexivity.
    + apply IH. rewrite occurs_app, Hcur. simpl. rewrite Hc. reflexivity.
Qed.

Lemma Path_normal (s : string) : normal_path (Path s).
Proof.
  split.
  - unfold Path. cbn [root].
    destruct (leading_slashes s) as [|[|[|n]]]; auto.
  - unfold Path. cbn [parts].
    apply Forall_forall. intros x Hx.
    apply list_elem_of_filter in Hx as [Hkept Hin].
    pose proof (split_slash_no_slash s "" eq_refl) as H.
    rewrite Forall_forall in H. specialize (H x Hin).
    unfold is_component. rewrite H.
    apply Is_true_true in Hkept. rewrite Hkept. reflexivity.
Qed.

Lemma joinpath_normal (p : PosixPath) (name : string) :
  normal_path p -> is_component name = true -> normal_path (joinpath p name).
Proof.
  intros [Hr Hp] Hn. split; [exact Hr|].
  unfold joinpath. cbn [parts]. apply Forall_app. split; [exact Hp|].
  apply Forall_cons. split; [exact Hn|apply Forall_nil; exact I].
Qed.

Lemma filter_components (l : list string) :
  Forall (fun x => is_component x = true) l ->
  filter (fun x => negb (String.eqb x "") && negb (String.eqb x ".")) l = l.
Proof.
  induction 1 as [|x l Hx Hl IH]; [reflexivity|].
  rewrite filter_cons_True; [rewrite IH; reflexivity|].
  unfold is_component in Hx. apply andb_true_iff in Hx as [Hx _].
  rewrite Hx. exact I.
Qed.

Lemma components_no_slash (l : list string) :
  Forall (fun x => is_component x = true) l ->
  Forall (fun x => occurs "/" x = false) l.
Proof.
  intros H. eapply Forall_impl; [exact H|]. clear H.
  intros x Hx. unfold is_component in Hx.
  apply andb_true_iff in Hx as [_ Hx]. apply negb_true_iff in Hx. exact Hx.
Qed.

(** The text of a relative path does not start with a slash. *)
Lemma join_slash_leading (l : list string) :
  Forall (fun x => is_component x = true) l -> leading_slashes (join_slash l) = O.
Proof.
  intros Hl. destruct Hl as [|x l Hx Hl]; [reflexivity|].
  assert (Hfirst : forall rest, leading_slashes (x +:+ rest) = O).
  { intros rest. unfold is_component in Hx.
    destruct x as [|c x]; [discriminate Hx|].
    apply andb_true_iff in Hx as [_ Hx]. apply negb_true_iff in Hx.
    simpl in Hx. apply orb_false_iff in Hx as [Hc _].
    change (String c x +:+ rest) with (String c (x +:+ rest)).
    cbn [leading_slashes]. rewrite Hc. reflexivity. }
  destruct l as [|y l].
  - cbn [join_slash]. rewrite <- (append_empty_r x). apply Hfirst.
  - apply Hfirst.
Qed.

(** Reading the text of a path gives the path. *)
Lemma Path_path_str (p : PosixPath) : normal_path p -> Path (path_str p) = p.
Proof.
  destruct p as [r l]. intros [Hr Hl]. cbn [root parts] in Hr, Hl.
  pose proof (join_slash_leading l Hl) as Hlead.
  pose proof (split_slash_join l (components_no_slash l Hl)) as Hsplit.
  pose proof (filter_components l Hl) as Hfilter.
  unfold Path, path_str. cbn [root parts].
  destruct Hr as [->|[->| ->]].
  - destruct l as [|x l]; [reflexivity|].
    change ("" +:+ join_slash (x :: l)) with (join_slash (x :: l)).
    rewrite Hlead, Hsplit, Hfilter. reflexivity.
  - change ("/" +:+ join_slash l) with (String "/" (join_slash l)).
    cbn [leading_slashes split_slash]. change (Ascii.eqb "/" "/") with true. cbv iota.
    rewrite Hlead, Hsplit.
    destruct l as [|x l]; [reflexivity|].
    rewrite filter_cons_False by (simpl; tauto).
    rewrite Hfilter. reflexivity.
  - change ("//" +:+ join_slash l) with (String "/" (String "/" (join_slash l))).
    cbn [leading_slashes split_slash]. change (Ascii.eqb "/" "/") with true. cbv iota.
    rewrite Hlead, Hsplit.
    destruct l as [|x l]; [reflexivity|].
    rewrite !filter_cons_False by (simpl; tauto).
    rewrite Hfilter. reflexivity.
Qed.

(** X11: the path the success object reports is the file that was
    written: whatever [STATE_DIR] holds (doubled or trailing slashes, [.]
    components), reading the reported text as a path gives back
    [Path(STATE_DIR) / 'metrics.jsonl']; and reading the text of
    [Path(STATE_DIR)] gives back that path, so that a [STATE_DIR] and its
    normal form name the same log. *)
Theorem X11_reported_path_is_the_log (state_dir : string) :
  Path (path_str (metrics_file state_dir)) = metrics_file state_dir
  /\ Path (path_str (Path state_dir)) = Path state_dir
  /\ metrics_file (path_str (Path state_dir)) = metrics_file state_dir.
Proof.
  assert (Hp : Path (path_str (Path state_dir)) = Path state_dir).
  { apply Path_path_str, Path_normal. }
  split; [|split].
  - apply Path_path_str. unfold metrics_file.
    apply joinpath_normal; [apply Path_normal|reflexivity].
  - exact Hp.
  - unfold metrics_file. rewrite Hp. reflexivity.
Qed.

(** ** The letter Z of a timestamp *)

Lemma str_replace_Z_cons (c : ascii) (s : string) :
  str_replace "Z" "+00:00" (String c s)
  = if Ascii.eqb "Z" c then "+00:00" +:+ str_replace "Z" "+00:00" s
    else String c (str_replace "Z" "+00:00" s).
Proof.
  unfold str_replace. cbn [replace_from is_prefix String.length Nat.sub].
  rewrite andb_true_r. reflexivity.
Qed.

Lemma str_replace_Z_app (a b : string) :
  str_replace "Z" "+00:00" (a +:+ b)
  = str_replace "Z" "+00:00" a +:+ str_replace "Z" "+00:00" b.
Proof.
  induction a as [|c a IH]; [reflexivity|].
  change (String c a +:+ b) with (String c (a +:+ b)).
  rewrite !str_replace_Z_cons, IH.
  destruct (Ascii.eqb "Z" c); [|reflexivity].
  rewrite append_assoc. reflexivity.
Qed.

Section Timestamps.
Context `{rt : Runtime}.

(** X12: [replace('Z', '+00:00')] rewrites every [Z] of a timestamp,
    wherever it stands, not the last character alone: no [Z] is left in
    what [fromisoformat] is given, the rewriting of a text is that of its
    pieces, and a text without [Z] is parsed as it is. *)
Theorem X12_every_Z_is_replaced :
  (forall s, occurs "Z" (str_replace "Z" "+00:00" s) = false)
  /\ (forall a b,
        str_replace "Z" "+00:00" (a +:+ "Z" +:+ b)
        = str_replace "Z" "+00:00" a +:+ "+00:00" +:+ str_replace "Z" "+00:00" b)
  /\ (forall s, occurs "Z" s = false ->
        str_replace "Z" "+00:00" s = s /\ parse_ts s = fromisoformat s).
Proof.
  split; [|split].
  - induction s as [|c s IH]; [reflexivity|].
    rewrite str_replace_Z_cons. destruct (Ascii.eqb "Z" c) eqn:Hc.
    + rewrite occurs_app, IH. reflexivity.
    + simpl. rewrite IH, Ascii.eqb_sym, Hc. reflexivity.
  - intros a b. rewrite str_replace_Z_app.
    change ("Z" +:+ b) with (String "Z" b). rewrite str_replace_Z_cons. reflexivity.
  - assert (Hsame : forall s, occurs "Z" s = false -> str_replace "Z" "+00:00" s = s).
    { induction s as [|c s IH]; [reflexivity|]. simpl. intros H.
      apply orb_false_iff in H as [Hc Hs].
      rewrite str_replace_Z_cons, Ascii.eqb_sym, Hc, (IH Hs). reflexivity. }
    intros s Hs. split; [apply Hsame, Hs|].
    unfold parse_ts. rewrite (Hsame s Hs). reflexivity.
Qed.

End Timestamps.

(** ** Where an invocation stops *)

Section Stops.
Context `{rt : Runtime}.


End Stops.

(** ** Making the state directory *)

Lemma only_adds_refl abs l fs : only_adds abs l fs fs.
Proof. intros k. left. reflexivity. Qed.

Lemma only_adds_trans abs l fs1 fs2 fs3 :
  only_adds abs l fs1 fs2 -> only_adds abs l fs2 fs3 -> only_adds abs l fs1 fs3.
Proof.
  intros H1 H2 k.
  destruct (H1 k) as [E1|(N1 & D1 & P1)], (H2 k) as [E2|(N2 & D2 & P2)].
  - left. congruence.
  - right. rewrite <- E1. auto.
  - right. rewrite E2. auto.
  - congruence.
Qed.

Lemma only_adds_longer abs l x fs fs' :
  only_adds abs l fs fs' -> only_adds abs (l ++ [x]) fs fs'.
Proof.
  intros H k. destruct (H k) as [E|(N & D & i & ->)]; [left; exact E|].
  right. split; [exact N|]. split; [exact D|].
  exists (Nat.min i (length l)).
  rewrite firstn_app. replace (Nat.min i (length l) - length l)%nat with O by lia.
  rewrite firstn_O, app_nil_r.
  destruct (Nat.le_gt_cases i (length l)) as [Hi|Hi].
  - rewrite Nat.min_l by exact Hi. reflexivity.
  - rewrite Nat.min_r by lia. rewrite !firstn_all2 by lia. reflexivity.
Qed.

Lemma os_mkdir_only_adds faults fs abs l fs' :
  os_mkdir faults fs (abs, l) = inr fs' -> only_adds abs l fs fs'.
Proof.
  unfold os_mkdir. intros H.
  destruct (faults (sys_mkdir (abs, l))) as [[]|]; [discriminate H|].
  destruct (fs_lookup fs (abs, l)) eqn:Hk; [discriminate H|].
  destruct (fs_lookup fs (fs_parent (abs, l))) as [[|c]|]; simplify_eq.
  intros k. destruct (decide ((abs, l) = k)) as [<-|Hne].
  - right. split; [exact Hk|]. split; [apply fs_lookup_insert_new, Hk|].
    exists (length l). rewrite firstn_all. reflexivity.
  - left. apply fs_lookup_insert_ne, Hne.
Qed.

Lemma mkdir_exist_ok_only_adds faults fs abs l fs' :
  mkdir_exist_ok faults fs (abs, l) = inr fs' -> only_adds abs l fs fs'.
Proof.
  unfold mkdir_exist_ok. intros H.
  destruct (os_mkdir faults fs (abs, l)) as [e|fs1] eqn:Hm.
  - destruct (is_dir fs (abs, l)); simplify_eq. apply only_adds_refl.
  - simplify_eq. eapply os_mkdir_only_adds; eauto.
Qed.

(** [Path.mkdir] makes directories on the way to its path and nothing
    else, whether it fails in the end or not. *)
Lemma mkdir_parents_only_adds faults abs rparts : forall fs r fs',
  mkdir_parents faults fs abs rparts = (r, fs') -> only_adds abs (rev rparts) fs fs'.
Proof.
  induction rparts as [|x rparent IH]; intros fs r fs' H; simpl in H.
  - destruct (os_mkdir faults fs (abs, [])) as [e|fs1] eqn:Hm.
    + repeat case_match; simplify_eq; apply only_adds_refl.
    + simplify_eq. eapply os_mkdir_only_adds; eauto.
  - simpl rev.
    destruct (os_mkdir faults fs (abs, (rev rparent ++ [x])%list)) as [e|fs1] eqn:Hm.
    + assert (Hother : forall r0 fs0,
                (if is_dir fs (abs, (rev rparent ++ [x])%list)
                 then (None, fs) else (Some e, fs)) = (r0, fs0) ->
                only_adds abs (rev rparent ++ [x]) fs fs0).
      { intros r0 fs0 H0. destruct (is_dir fs _); simplify_eq; apply only_adds_refl. }
      destruct e as [| | | | |kind msg|]; try (eapply Hother; exact H).
      destruct kind; try (eapply Hother; exact H).
      destruct (mkdir_parents faults fs abs rparent) as [[e|] fs1] eqn:Hp.
      * simplify_eq. apply only_adds_longer. eapply IH; eauto.
      * pose proof (only_adds_longer _ _ x _ _ (IH _ _ _ Hp)) as H1.
        destruct (mkdir_exist_ok faults fs1 _) as [e|fs2] eqn:Hx; simplify_eq.
        -- exact H1.
        -- eapply only_adds_trans; [exact H1|].
           eapply mkdir_exist_ok_only_adds; eauto.
    + simplify_eq. eapply os_mkdir_only_adds; eauto.
Qed.

(** Where the system refuses no [mkdir] and no file stands on the way,
    [Path.mkdir] succeeds, however many of the directories are missing. *)
Lemma mkdir_parents_succeeds faults abs rparts : forall fs,
  (forall k, faults (sys_mkdir k) = None) ->
  (forall i content, fs_lookup fs (abs, firstn i (rev rparts)) <> Some (File content)) ->
  exists fs', mkdir_parents faults fs abs rparts = (None, fs').
Proof.
  induction rparts as [|x rparent IH]; intros fs Hf Hfiles; simpl.
  - unfold os_mkdir. rewrite Hf. simpl. eauto.
  - unfold os_mkdir at 1. rewrite Hf.
    destruct (fs_lookup fs (abs, (rev rparent ++ [x])%list)) as [[|c]|] eqn:Hk.
    + unfold os_error, is_dir. rewrite Hk. eauto.
    + exfalso. apply (Hfiles (length (rev rparent ++ [x])) c).
      simpl rev. rewrite firstn_all. exact Hk.
    + assert (Hparent : fs_parent (abs, (rev rparent ++ [x])%list) = (abs, rev rparent)).
      { unfold fs_parent. simpl. rewrite removelast_last. reflexivity. }
      assert (Hprefix : forall i,
                firstn i (rev rparent)
                = firstn (Nat.min i (length (rev rparent))) (rev (x :: rparent))).
      { intros i. simpl rev. rewrite firstn_app.
        replace (Nat.min i (length (rev rparent)) - length (rev rparent))%nat
          with O by lia.
        rewrite firstn_O, app_nil_r.
        destruct (Nat.le_gt_cases i (length (rev rparent))) as [Hi|Hi].
        - rewrite Nat.min_l by exact Hi. reflexivity.
        - rewrite Nat.min_r by lia. rewrite !firstn_all2 by lia. reflexivity. }
      rewrite Hparent.
      destruct (fs_lookup fs (abs, rev rparent)) as [[|c]|] eqn:Hp.
      * eauto.
      * exfalso. apply (Hfiles (length (rev rparent)) c).
        rewrite <- (Nat.min_id (length (rev rparent))), <- Hprefix, firstn_all.
        exact Hp.
      * unfold os_error.
        destruct (IH fs Hf) as [fs1 H1].
        { intros i c. rewrite Hprefix. apply Hfiles. }
        rewrite H1.
        destruct (mkdir_parents_keeps _ _ _ _ _ _ H1) as (_ & _ & Hdir).
        specialize (Hdir eq_refl).
        pose proof (mkdir_parents_only_adds _ _ _ _ _ _ H1 (abs, (rev rparent ++ [x])%list))
          as [Hsame|(_ & _ & i & Hi)].
        -- unfold mkdir_exist_ok, os_mkdir. rewrite Hf, Hsame, Hk, Hparent.
           unfold is_dir in Hdir.
           destruct (fs_lookup fs1 (abs, rev rparent)) as [[|c]|]; try discriminate Hdir.
           eauto.
        -- exfalso. apply (f_equal (fun k => length (snd k))) in Hi. simpl in Hi.
           rewrite length_app, length_firstn in Hi. simpl in Hi. lia.
Qed.

Section Reaching.
Context `{rt : Runtime}.

(** After status 0 the log is a regular file. *)
Lemma log_is_a_file (w : World) :
  (main w).1 = inl (SystemExit 0) ->
  forall state_dir, environ w !! "STATE_DIR" = Some state_dir ->
  exists content,
    fs_lookup (fs (main w).2) (fs_key (metrics_file state_dir)) = Some (File content).
Proof.
  destruct (main_outcome w);
    unfold report_error; cbn [fst snd fs set_fs set_stdout set_stderr];
    intros Hexit d Hd; try discriminate Hexit.
  - match goal with
    | H : Path_mkdir _ _ _ = _ |- _ => apply Path_mkdir_exn in H
    end.
    simplify_eq.
  - assert (state_dir = d) by congruence. subst d.
    match goal with
    | H : os_write _ _ _ _ = inr _ |- _ => rename H into Hw
    end.
    unfold os_write in Hw.
    destruct (faults w (sys_write _)) as [[]|]; [discriminate Hw|].
    destruct (fs2 !! fs_key (metrics_file state_dir)) as [[|c]|] eqn:Hk; simplify_eq.
    exists (c +:+ json_dumps (JDict metrics) +:+ nl).
    unfold fs_lookup.
    destruct (snd (fs_key (metrics_file state_dir))) eqn:E';
      [exfalso; exact (metrics_file_parts state_dir E')|].
    apply lookup_insert_eq.
Qed.

(** The three file-system steps succeed where nothing is in their
    way. *)
Lemma nothing_in_the_way (w : World) (state_dir : string) :
  (forall c, faults w c = None) ->
  (forall i content,
     fs_lookup (fs w) (fst (fs_key (Path state_dir)), firstn i (parts (Path state_dir)))
     <> Some (File content)) ->
  fs_lookup (fs w) (fs_key (metrics_file state_dir)) <> Some Dir ->
  fs_succeeds w state_dir.
Proof.
  intros Hf Hfiles Hlog. unfold fs_succeeds.
  destruct (mkdir_parents_succeeds (faults w) (fst (fs_key (Path state_dir)))
              (rev (parts (Path state_dir))) (fs w)) as [fs1 Hm].
  { intros k. apply Hf. }
  { intros i c. rewrite rev_involutive. apply Hfiles. }
  assert (Hm' : Path_mkdir (faults w) (fs w) (Path state_dir) = (None, fs1)) by exact Hm.
  destruct (Path_mkdir_keeps _ _ _ _ _ Hm') as (_ & _ & Hdir). specialize (Hdir eq_refl).
  pose proof (mkdir_parents_only_adds _ _ _ _ _ _ Hm (fs_key (metrics_file state_dir)))
    as Hadds.
  rewrite rev_involutive in Hadds.
  assert (Hsame : fs_lookup fs1 (fs_key (metrics_file state_dir))
                  = fs_lookup (fs w) (fs_key (metrics_file state_dir))).
  { destruct Hadds as [E|(_ & _ & i & Hi)]; [exact E|].
    exfalso. apply (f_equal (fun k => length (snd k))) in Hi.
    unfold metrics_file, joinpath, fs_key in Hi. cbn [snd parts] in Hi.
    rewrite length_app, length_firstn in Hi. simpl in Hi. lia. }
  assert (Hparent : fs_parent (fs_key (metrics_file state_dir)) = fs_key (Path state_dir)).
  { unfold fs_parent, metrics_file, joinpath, fs_key. cbn [fst snd root parts].
    rewrite removelast_last. reflexivity. }
  assert (exists fs2 content,
            os_open_append (faults w) fs1 (fs_key (metrics_file state_dir)) = inr fs2
            /\ fs_lookup fs2 (fs_key (metrics_file state_dir)) = Some (File content))
    as (fs2 & content & Ho & Hfile).
  { unfold os_open_append. rewrite Hf, Hsame, Hparent.
    destruct (fs_lookup (fs w) (fs_key (metrics_file state_dir))) as [[|c]|] eqn:Hk.
    - contradiction.
    - exists fs1, c. rewrite Hsame. auto.
    - unfold is_dir in Hdir.
      destruct (fs_lookup fs1 (fs_key (Path state_dir))) as [[|c]|]; try discriminate Hdir.
      exists (<[fs_key (metrics_file state_dir) := File ""]> fs1), "".
      split; [reflexivity|]. apply fs_lookup_insert_new. congruence. }
  exists fs1, fs2. split; [exact Hm'|]. split; [exact Ho|].
  intros text. unfold os_write. rewrite Hf.
  unfold fs_lookup in Hfile.
  destruct (snd (fs_key (metrics_file state_dir))) eqn:E;
    [exfalso; exact (metrics_file_parts state_dir E)|].
  rewrite Hfile. eauto.
Qed.

(** X14: the state directory need not exist.  Where the system refuses
    no call, no regular file stands at [STATE_DIR] or above it, and
    [metrics.jsonl] is not a directory, an invocation whose variables are
    in order makes the directory, with every parent that is missing, and
    ends with status 0. *)
Theorem X14_missing_directories_are_made (w : World) (state_dir : string) :
  environ w !! "STATE_DIR" = Some state_dir -> state_dir <> "" ->
  config_is_object w ->
  int_or_unset w "EXIT_CODE" -> int_or_unset w "ATTEMPT" ->
  ~ mixed_timestamps w ->
  (forall c, faults w c = None) ->
  (forall i content,
     fs_lookup (fs w) (fst (fs_key (Path state_dir)), firstn i (parts (Path state_dir)))
     <> Some (File content)) ->
  fs_lookup (fs w) (fs_key (metrics_file state_dir)) <> Some Dir ->
  (main w).1 = inl (SystemExit 0)
  /\ is_dir (fs (main w).2) (fs_key (Path state_dir)) = true.
Proof.
  intros Hd Hne Hc He Ha Hmix Hf Hfiles Hlog.
  pose proof (nothing_in_the_way w state_dir Hf Hfiles Hlog) as Hfs.
  destruct (main_succeeds w state_dir Hc Hd Hne He Ha Hfs Hmix) as (config & metrics & Hs).
  split; [apply (ok_exit _ _ _ _ Hs)|apply (ok_state_path _ _ _ _ Hs)].
Qed.

(** X15: a log that was written stays writable.  After an invocation
    that ended with status 0, in any later state of the file system in
    which everything is still there (other files may have been added, and
    files may have grown), the three file-system steps of an invocation
    with the same [STATE_DIR] succeed, as long as the system refuses none
    of the calls. *)
Theorem X15_log_stays_writable (w w' : World) (state_dir : string) :
  (main w).1 = inl (SystemExit 0) ->
  environ w !! "STATE_DIR" = Some state_dir ->
  grows (fs (main w).2) (fs w') ->
  (forall c, faults w' c = None) ->
  fs_succeeds w' state_dir.
Proof.
  intros Hexit Hd Hg Hf.
  destruct (main_exit0_inv w Hexit) as (d & config & metrics & Hs).
  pose proof (ok_state_dir _ _ _ _ Hs) as Hd'.
  assert (d = state_dir) by congruence. subst d.
  pose proof (ok_state_path _ _ _ _ Hs) as Hdir.
  assert (Hdir' : is_dir (fs w') (fs_key (Path state_dir)) = true).
  { unfold is_dir in *.
    destruct (fs_lookup (fs (main w).2) (fs_key (Path state_dir))) as [[|c]|] eqn:E;
      try discriminate Hdir.
    rewrite (Hg _ Dir E). reflexivity. }
  destruct (log_is_a_file w Hexit state_dir Hd) as [content Hfile].
  destruct (Hg _ _ Hfile) as [added Hfile'].
  exists (fs w'), (fs w'). split; [|split].
  - apply Path_mkdir_existing; [exact Hdir'|]. intros msg. rewrite Hf. discriminate.
  - unfold os_open_append. rewrite Hf, Hfile'. reflexivity.
  - intros text. unfold os_write. rewrite Hf.
    unfold fs_lookup in Hfile'.
    destruct (snd (fs_key (metrics_file state_dir))) eqn:E;
      [exfalso; exact (metrics_file_parts state_dir E)|].
    rewrite Hfile'. eauto.
Qed.

End Reaching.

(** ** Histories of invocations *)


Section HistoryFacts.
Context `{rt : Runtime}.



(** ** The clock *)

Lemma add_duration_same_outcome start_ts end_ts (m m' : dict) :
  match add_duration start_ts end_ts m, add_duration start_ts end_ts m' with
  | inl e, inl e' => e = e'
  | inr _, inr _ => True
  | _, _ => False
  end.
Proof.
  unfold add_duration.
  destruct (String.eqb start_ts "" || String.eqb end_ts ""); [exact I|].
  destruct (parse_ts start_ts); [|exact I].
  destruct (parse_ts end_ts); [|exact I].
  destruct (datetime_sub _ _); [reflexivity|exact I].
Qed.

Lemma os_write_same_outcome faults fs k text text' :
  match os_write faults fs k text, os_write faults fs k text' with
  | inl e, inl e' => e = e'
  | inr _, inr _ => True
  | _, _ => False
  end.
Proof.
  unfold os_write.
  destruct (faults (sys_write k)) as [[]|]; [reflexivity|].
  destruct (fs !! k) as [[|c]|]; try reflexivity.
Qed.

(** X17: how an invocation ends does not depend on the time at which it
    runs: at any other time it ends with the same exception and status
    and writes the same text to the two streams; the time shows in the
    [timestamp] of the record and nowhere else. *)
Theorem X17_outcome_does_not_depend_on_the_clock (w : World) (c : datetime) :
  (main (setclock c w)).1 = (main w).1
  /\ stdout (main (setclock c w)).2 = stdout (main w).2
  /\ stderr (main (setclock c w)).2 = stderr (main w).2
  /\ forall config exit_code attempt metrics metrics',
       build_record w config exit_code attempt = inr metrics ->
       build_record (setclock c w) config exit_code attempt = inr metrics' ->
       forall k, k <> "timestamp" -> dict_lookup k metrics' = dict_lookup k metrics.
Proof.
  assert (Hrecord : forall config exit_code attempt metrics metrics',
       build_record w config exit_code attempt = inr metrics ->
       build_record (setclock c w) config exit_code attempt = inr metrics' ->
       forall k, k <> "timestamp" -> dict_lookup k metrics' = dict_lookup k metrics).
  { intros config exit_code attempt metrics metrics' H H' k Hk.
    unfold build_record in H, H'.
    change (getenv (setclock c w)) with (getenv w) in H'.
    destruct (decide (k = "duration_sec")) as [->|Hkd].
    - assert (Hnone : forall w0, dict_lookup "duration_sec"
                (add_custom (custom_metrics config) (base_metrics w0 exit_code attempt))
                = None).
      { intros w0. rewrite add_custom_lookup by discriminate. reflexivity. }
      destruct (add_duration_duration _ _ _ _ H (Hnone w))
        as [(Hns & Hne & s & e & delta & Hs & He & Hsub & Hl)|(Hwhy & _ & Hl)];
      destruct (add_duration_duration _ _ _ _ H' (Hnone (setclock c w)))
        as [(Hs' & He' & s' & e' & delta' & Hs'' & He'' & Hsub' & Hl')|(Hwhy' & _ & Hl')];
        rewrite Hl, Hl'; try reflexivity.
      + congruence.
      + exfalso. destruct Hwhy' as [?|[?|[?|?]]]; congruence.
      + exfalso. destruct Hwhy as [?|[?|[?|?]]]; congruence.
    - rewrite (add_duration_lookup _ _ _ _ _ H Hkd), (add_duration_lookup _ _ _ _ _ H' Hkd).
      destruct (decide (k = "custom")) as [->|Hkc].
      + rewrite !add_custom_custom by reflexivity. reflexivity.
      + rewrite !add_custom_lookup by exact Hkc.
        unfold base_metrics. simpl.
        destruct (String.eqb_spec k "timestamp") as [->|_]; [contradiction|].
        reflexivity. }
  split; [|split; [|split; [|exact Hrecord]]];
    rewrite !main_paths_eq; unfold main_paths;
    change (getenv (setclock c w)) with (getenv w);
    change (environ (setclock c w)) with (environ w);
    change (faults (setclock c w)) with (faults w);
    change (fs (setclock c w)) with (fs w);
    (destruct (json_loads (getenv w "CONFIG_JSON" "{}")) as [msg|config]; [reflexivity|]);
    (destruct (environ w !! "STATE_DIR") as [[|ch d]|]; try reflexivity);
    (destruct (Path_mkdir (faults w) (fs w) (Path (String ch d))) as [[e|] fs1];
       [reflexivity|]);
    (destruct (int (getenv w "EXIT_CODE" "-1")) as [exit_code|]; [|reflexivity]);
    (destruct (int (getenv w "ATTEMPT" "1")) as [attempt|]; [|reflexivity]);
    (destruct config as [| | | | | |config]; try reflexivity);
    unfold build_record;
    change (getenv (setclock c w)) with (getenv w);
    pose proof (add_duration_same_outcome (getenv w "START_TS" "") (getenv w "END_TS" "")
                  (add_custom (custom_metrics config)
                     (base_metrics (setclock c w) exit_code attempt))
                  (add_custom (custom_metrics config) (base_metrics w exit_code attempt)))
      as Hsame;
    destruct (add_duration _ _ (add_custom _ (base_metrics (setclock c w) _ _)))
      as [e'|metrics'];
    destruct (add_duration _ _ (add_custom _ (base_metrics w _ _))) as [e|metrics];
    try contradiction; try (subst; reflexivity);
    cbv zeta;
    (destruct (os_open_append _ _ _) as [e|fs2]; [reflexivity|]);
    pose proof (os_write_same_outcome (faults w) fs2
                  (fs_key (metrics_file (String ch d)))
                  (json_dumps (JDict metrics') +:+ nl)
                  (json_dumps (JDict metrics) +:+ nl)) as Hwrite;
    destruct (os_write _ _ _ (json_dumps (JDict metrics') +:+ nl)) as [e'|fs3'];
    destruct (os_write _ _ _ (json_dumps (JDict metrics) +:+ nl)) as [e|fs3];
    try contradiction; try (subst; reflexivity); reflexivity.
Qed.

End HistoryFacts.

(** ** The properties of every invocation at concrete worlds *)

Lemma not_mixed_ten_seconds : ~ mixed_timestamps (rt := reference_runtime) world_ten_seconds.
Proof.
  intros (_ & _ & s & e & Hs & He & Hmix).
  vm_compute in Hs. vm_compute in He.
  injection Hs as <-. injection He as <-.
  destruct Hmix as [_ Hmix]. discriminate Hmix. discriminate.
Qed.

Lemma success_all_set :
  success (rt := reference_runtime) world_all_set nightly
    [("metrics", JDict [("cpu_pct", JInt 42)])]
    (get_inr (build_record (rt := reference_runtime) world_all_set
                [("metrics", JDict [("cpu_pct", JInt 42)])] 2 3) []).
Proof.
  eapply (success_computed (rt := reference_runtime)).
  - vm_compute. reflexivity.
  - vm_compute. reflexivity.
  - vm_compute. reflexivity.
  - vm_compute. reflexivity.
  - apply inr_eta. vm_compute. reflexivity.
  - vm_compute. reflexivity.
Qed.

Lemma X1_witness : exit_status (main world_ten_seconds).1 = 0.
Proof.
  destruct (X1_always_exits (rt := reference_runtime) world_ten_seconds)
    as (_ & _ & [_ H] & _).
  apply H. vm_compute. reflexivity.
Defined.

Lemma X2_witness :
  stderr (main world_ten_seconds).2 = stderr world_ten_seconds
  /\ stdout (main world_bad_exit_code).2 = stdout world_bad_exit_code.
Proof.
  destruct (X2_one_report (rt := reference_runtime) world_ten_seconds) as (H0 & _).
  destruct (X2_one_report (rt := reference_runtime) world_bad_exit_code)
    as (_ & _ & Hu & _).
  split.
  - apply H0. vm_compute. reflexivity.
  - apply Hu. vm_compute. exact I.
Defined.

Lemma X3_witness :
  grows (fs world_bad_exit_code) (fs (main world_bad_exit_code).2)
  /\ same_files (fs world_bad_exit_code) (fs (main world_bad_exit_code).2).
Proof.
  destruct (X3_files_only_grow (rt := reference_runtime) world_bad_exit_code) as [Hg H].
  split; [exact Hg|].
  apply H. intros Hexit. vm_compute in Hexit. discriminate Hexit.
Defined.

Lemma X4_witness :
  fs_wf (fs (main world_ten_seconds).2)
  /\ exists state_dir content,
       environ world_ten_seconds !! "STATE_DIR" = Some state_dir
       /\ fs_lookup (fs (main world_ten_seconds).2) (fs_key (metrics_file state_dir))
          = Some (File content).
Proof.
  destruct (X4_tree_stays_well_formed (rt := reference_runtime) world_ten_seconds)
    as [H Hlog].
  - exact empty_fs_wf.
  - split; [exact H|].
    destruct Hlog as (d & Hd & _ & _ & content & Hfile).
    + vm_compute. reflexivity.
    + exists d, content. split; [exact Hd|exact Hfile].
Defined.

Lemma X5_witness :
  fs_lookup (fs (main (rerun (main world_ten_seconds).2)).2) (fs_key (Path nightly))
  = fs_lookup (fs (rerun (main world_ten_seconds).2)) (fs_key (Path nightly)).
Proof.
  destruct (X5_existing_state_dir (rt := reference_runtime)
              (rerun (main world_ten_seconds).2) nightly) as [H _].
  - vm_compute. reflexivity.
  - vm_compute. reflexivity.
  - intros msg Hfault. vm_compute in Hfault. discriminate Hfault.
  - apply H. intros Hk. vm_compute in Hk. discriminate Hk.
Defined.

Lemma X6_witness :
  exists metrics,
    success (rt := reference_runtime) world_all_set nightly
      [("metrics", JDict [("cpu_pct", JInt 42)])] metrics
    /\ dict_keys metrics = (base_keys ++ ["custom"; "duration_sec"])%list
    /\ NoDup (dict_keys metrics).
Proof.
  eexists. split; [exact success_all_set|].
  exact (X6_record_keys (rt := reference_runtime) _ _ _ _ success_all_set).
Defined.

Lemma X7_witness :
  exists metrics,
    success (rt := reference_runtime) world_all_set nightly
      [("metrics", JDict [("cpu_pct", JInt 42)])] metrics
    /\ dict_lookup "job_id" metrics = Some (JStr "backup")
    /\ dict_lookup "job_schedule" metrics = Some (JStr "0 3 * * *").
Proof.
  eexists. split; [exact success_all_set|].
  destruct (X7_variables_reach_the_record (rt := reference_runtime) _ _ _ _ success_all_set)
    as (_ & Hjob & _ & _ & _ & Hschedule & _).
  split.
  - apply Hjob. vm_compute. reflexivity.
  - apply Hschedule. vm_compute. reflexivity.
Defined.

Lemma X8_witness :
  exists state_dir,
    environ world_ten_seconds !! "STATE_DIR" = Some state_dir /\ state_dir <> ""
    /\ config_is_object (rt := reference_runtime) world_ten_seconds
    /\ int_or_unset (rt := reference_runtime) world_ten_seconds "EXIT_CODE"
    /\ int_or_unset (rt := reference_runtime) world_ten_seconds "ATTEMPT"
    /\ fs_succeeds world_ten_seconds state_dir
    /\ ~ mixed_timestamps (rt := reference_runtime) world_ten_seconds.
Proof.
  apply (proj1 (X8_status_0_exactly (rt := reference_runtime) world_ten_seconds)).
  vm_compute. reflexivity.
Defined.

Lemma X9_witness :
  main (setenv "PATH" "/usr/bin" world_ten_seconds)
  = ((main world_ten_seconds).1, setenv "PATH" "/usr/bin" (main world_ten_seconds).2).
Proof.
  apply (X9_other_variables_ignored (rt := reference_runtime)).
  apply (bool_decide_unpack _). vm_compute. reflexivity.
Defined.

Lemma X10_witness :
  exists m2,
    add_duration (rt := reference_runtime)
      "2024-01-01T00:00:00Z" "2024-01-01T00:00:10Z" [] = inr m2
    /\ dict_lookup "duration_sec" m2 = Some (JFloat (total_seconds 10000000)).
Proof.
  destruct (X10_duration_of_exchanged_timestamps (rt := reference_runtime)
              "2024-01-01T00:00:10Z" "2024-01-01T00:00:00Z" []
              [("duration_sec", JFloat (total_seconds (-10000000)))])
    as (m2 & H2 & _ & Hset).
  - reflexivity.
  - vm_compute. reflexivity.
  - exists m2. split; [exact H2|].
    destruct Hset as (s & e & delta & Hs & He & Hsub & H1 & Hm2).
    + reflexivity.
    + vm_compute in Hs. vm_compute in He.
      injection Hs as <-. injection He as <-.
      vm_compute in Hsub. injection Hsub as <-. exact Hm2.
Defined.

Lemma X12_witness :
  str_replace "Z" "+00:00" "2024-01-01T00:00:10" = "2024-01-01T00:00:10"
  /\ parse_ts (rt := reference_runtime) "2024-01-01T00:00:10"
     = fromisoformat "2024-01-01T00:00:10".
Proof.
  destruct (X12_every_Z_is_replaced (rt := reference_runtime)) as (_ & _ & H).
  apply H. reflexivity.
Defined.


Lemma X14_witness :
  (main world_ten_seconds).1 = inl (SystemExit 0)
  /\ is_dir (fs (main world_ten_seconds).2) (fs_key (Path nightly)) = true.
Proof.
  apply (X14_missing_directories_are_made (rt := reference_runtime)).
  - vm_compute. reflexivity.
  - discriminate.
  - left. vm_compute. reflexivity.
  - exact I.
  - exact I.
  - exact not_mixed_ten_seconds.
  - intros c. reflexivity.
  - intros i content. change (fs world_ten_seconds) with (∅ : FS).
    unfold fs_lookup. cbn [snd].
    destruct (firstn i (parts (Path nightly))); [discriminate|].
    rewrite lookup_empty. discriminate.
  - intros H. vm_compute in H. discriminate H.
Defined.

Lemma X15_witness :
  fs_succeeds (rerun (main world_ten_seconds).2) nightly.
Proof.
  apply (X15_log_stays_writable (rt := reference_runtime) world_ten_seconds).
  - vm_compute. reflexivity.
  - vm_compute. reflexivity.
  - rewrite fs_rerun. apply grows_refl.
  - intros c. reflexivity.
Defined.


